(** * Profit dashboard: order aggregation and profit waterfall

    A shallow embedding of the aggregation and cost-waterfall code of the
    profit analytics app (routes/app._index.tsx and the report components),
    with the properties its design document states about it.

    Modelling conventions.
    - A JavaScript [number] holding money, a rate or a percentage is an exact
      rational ([Qc]) wherever a property is about which amounts are added
      up, counted or charged.  Where a property depends on the digits the
      arithmetic produces, the code is embedded once more over IEEE 754
      doubles (modules [F64] and [Binary64]) and the property is stated
      there.  Counters, week numbers and millisecond timestamps are
      integers ([Z]).
    - [parseFloat(x?.shopMoney?.amount || "0")] reads an optional decimal
      amount: the field is an [option Qc] and a missing amount reads as 0.
    - A JS [Map] is a [gmap], a JS [Set] a [gset]; where the code turns a map
      into an array it sorts the array afterwards, so insertion order is not
      observable in the outputs modelled here.
    - Strings are UTF-8 byte strings; [toLowerCase] acts on ASCII letters. *)

From Stdlib Require Import QArith Qcanon Qround Qabs Ascii String Lqa.
From Stdlib Require Import Floats.SpecFloat.
From stdpp Require Import gmap strings list sorting pretty.

#[local] Set Warnings "-clear-no-such-hyp".

Local Open Scope Z_scope.

(** ** JavaScript primitives used by the code *)

Module JS.

(** A decimal literal [n/d], e.g. [2.9] is [dec 29 10]. *)
Definition dec (n : Z) (d : positive) : Qc := Q2Qc (n # d).

Definition ofZ (n : Z) : Qc := Q2Qc (inject_Z n).

(** [Math.round]: nearest integer, ties towards +infinity. *)
Definition Math_round (x : Qc) : Qc := ofZ (Qfloor (x + dec 1 2)%Qc).

(** [Math.floor] on an integer quotient [a / b]. *)
Definition floorDiv (a b : Z) : Z := a `div` b.

(** [x > 0] and friends on numbers. *)
Definition gt0 (x : Qc) : bool := bool_decide (0 < x)%Qc.

(** Truthiness of a number (NaN does not occur among rationals). *)
Definition truthy (x : Qc) : bool := negb (bool_decide (x = 0%Qc)).

(** Truthiness of a string: the empty string is falsy. *)
Definition truthyStr (s : string) : bool :=
  negb (bool_decide (s = EmptyString)).

(** The value of a division whose result JavaScript may not be able to
    represent as a finite number: [x / 0] is NaN or an infinity. *)
Inductive number :=
| Finite (q : Qc)
| NotFinite.

Definition div (a b : Qc) : number :=
  if bool_decide (b = 0%Qc) then NotFinite else Finite (a / b)%Qc.

Definition times (a : number) (b : Qc) : number :=
  match a with
  | Finite q => Finite (q * b)%Qc
  | NotFinite => NotFinite
  end.

(** [x.toFixed(1)], as the number it prints: one decimal, ties away from
    zero. *)
Definition toFixed1 (x : number) : number :=
  match x with
  | Finite q =>
      if bool_decide (q < 0)%Qc
      then Finite (- (Math_round (- q * dec 10 1) / dec 10 1))%Qc
      else Finite (Math_round (q * dec 10 1) / dec 10 1)%Qc
  | NotFinite => NotFinite
  end.

(** [s.replace(/^#/, '')] *)
Definition stripHash (s : string) : string :=
  match s with
  | String "#"%char rest => rest
  | _ => s
  end.

(** The UTF-8 encodings of the code points [trim] removes: the white space
    and the line terminators of ECMAScript (TAB, LF, VT, FF, CR, SP, U+00A0,
    U+1680, U+2000 to U+200A, U+2028, U+2029, U+202F, U+205F, U+3000 and
    U+FEFF). *)
Definition ofBytes (l : list nat) : string :=
  foldr (λ n s, String (ascii_of_nat n) s) EmptyString l.

Definition WHITE_SPACE : list string :=
  ofBytes <$>
    [ [9]; [10]; [11]; [12]; [13]; [32]; [194; 160]; [225; 154; 128];
      [226; 128; 128]; [226; 128; 129]; [226; 128; 130]; [226; 128; 131];
      [226; 128; 132]; [226; 128; 133]; [226; 128; 134]; [226; 128; 135];
      [226; 128; 136]; [226; 128; 137]; [226; 128; 138]; [226; 128; 168];
      [226; 128; 169]; [226; 128; 175]; [226; 129; 159]; [227; 128; 128];
      [239; 187; 191] ]%nat.

(** [s] without its prefix [w], if it starts with [w]. *)
Fixpoint stripPrefix (w s : string) : option string :=
  match w, s with
  | EmptyString, _ => Some s
  | String a w', String b s' =>
      if bool_decide (a = b) then stripPrefix w' s' else None
  | String _ _, EmptyString => None
  end.

(** [s] without its first character, if that is one of [table]. *)
Definition dropSpace (table : list string) (s : string) : option string :=
  foldr (λ w r, match stripPrefix w s with
                | Some rest => Some rest
                | None => r
                end) None table.

Fixpoint dropSpaces (table : list string) (fuel : nat) (s : string)
    : string :=
  match fuel with
  | O => s
  | S fuel =>
      match dropSpace table s with
      | Some rest => dropSpaces table fuel rest
      | None => s
      end
  end.

(** [s.trimStart()]; a string has at most as many characters as bytes. *)
Definition trimStart (s : string) : string :=
  dropSpaces WHITE_SPACE (String.length s) s.

(** [s.trimEnd()], on the reversed bytes. *)
Definition trimEnd (s : string) : string :=
  String.rev
    (dropSpaces (String.rev <$> WHITE_SPACE) (String.length s)
       (String.rev s)).

(** [s.trim()] *)
Definition trim (s : string) : string := trimEnd (trimStart s).

Definition lowerChar (c : ascii) : ascii :=
  let n := nat_of_ascii c in
  if bool_decide (65 ≤ n ∧ n ≤ 90)%nat then ascii_of_nat (n + 32) else c.

(** [s.toLowerCase()] *)
Fixpoint toLowerCase (s : string) : string :=
  match s with
  | String c rest => String (lowerChar c) (toLowerCase rest)
  | EmptyString => EmptyString
  end.

(** [s.includes(sub)] *)
Fixpoint includes (s sub : string) : bool :=
  if String.prefix sub s then true
  else match s with
       | String _ rest => includes rest sub
       | EmptyString => false
       end.

(** [s.split(c)[0]]: the part of [s] before the first [c]. *)
Fixpoint beforeFirst (c : ascii) (s : string) : string :=
  match s with
  | String d rest => if bool_decide (d = c) then EmptyString
                     else String d (beforeFirst c rest)
  | EmptyString => EmptyString
  end.

(** The part of [s] after the first [c], if [c] occurs. *)
Fixpoint afterFirst (c : ascii) (s : string) : option string :=
  match s with
  | String d rest => if bool_decide (d = c) then Some rest
                     else afterFirst c rest
  | EmptyString => None
  end.

Definition isDigit (c : ascii) : bool :=
  let n := nat_of_ascii c in bool_decide (48 ≤ n ∧ n ≤ 57)%nat.

Fixpoint digits (acc : Z) (s : string) : option Z :=
  match s with
  | String c rest =>
      if isDigit c
      then digits (10 * acc + Z.of_nat (nat_of_ascii c) - 48) rest
      else None
  | EmptyString => Some acc
  end.

(** [Number(s)] on the strings the code applies it to (runs of decimal
    digits; the empty string is 0).  [None] stands for NaN. *)
Definition Number (s : option string) : option Z :=
  s' ← s; digits 0 s'.

(** A number inside a template literal. *)
Definition show (n : option Z) : string :=
  match n with
  | Some z => pretty z
  | None => "NaN"
  end.

(** [s.split(c)] for a one-character separator. *)
Fixpoint split (c : ascii) (s : string) : list string :=
  match s with
  | EmptyString => [EmptyString]
  | String d rest =>
      if bool_decide (d = c) then EmptyString :: split c rest
      else match split c rest with
           | part :: parts => String d part :: parts
           | [] => [String d EmptyString]
           end
  end.




End JS.

(** Rounding to cents and to a tenth, as the code writes it:
    [Math.round(x * 100) / 100] and [Math.round(x * 10) / 10]. *)
Definition round2 (x : Qc) : Qc :=
  (JS.Math_round (x * JS.dec 100 1) / JS.dec 100 1)%Qc.
Definition round1 (x : Qc) : Qc :=
  (JS.Math_round (x * JS.dec 10 1) / JS.dec 10 1)%Qc.

(** ** The order feed *)

Module Product.
Record t := mk {
  id : string;
  title : string;
  productType : string;
  tags : list string;
  vendor : string;
}.
End Product.

Module LineItem.
(** [product] is absent when the product was deleted; [quantity || 0] is
    [quantity] itself for an integer quantity. *)
Record t := mk {
  product : option Product.t;
  quantity : Z;
  originalTotalSet : option Qc;
  totalDiscountSet : option Qc;
  sku : option string;
  title : option string;
  variantTitle : option string;
}.
End LineItem.

Module Order.
(** [createdAt] is the ISO timestamp as delivered by the feed and
    [createdAtTime] the instant it denotes, [new Date(createdAt).getTime()],
    in milliseconds. [customer] is [customer?.id]. *)
Record t := mk {
  id : string;
  name : option string;
  createdAt : string;
  createdAtTime : Z;
  customer : option string;
  channelName : option string;
  totalPriceSet : option Qc;
  totalDiscountsSet : option Qc;
  subtotalPriceSet : option Qc;
  totalShippingPriceSet : option Qc;
  paymentGatewayNames : list string;
  lineItems : list LineItem.t;
}.
End Order.

(** [parseFloat(x?.shopMoney?.amount || "0")] *)
Definition amount (a : option Qc) : Qc := default 0%Qc a.

(** What the server's clock and time zone contribute. *)
Module Env.
Record t := mk {
  startOfYear : Z;   (* new Date(2025, 0, 1).getTime() *)
  now : Z;           (* new Date().getTime() *)
  currentYear : Z;   (* new Date().getFullYear() *)
}.
End Env.

Definition getWeekNumber (env : Env.t) (date : Z) : Z :=
  let diffInMs := date - Env.startOfYear env in
  let diffInDays := JS.floorDiv diffInMs (1000 * 60 * 60 * 24) in
  JS.floorDiv diffInDays 7 + 1.

(** ** Dashboard action: accumulation (app._index.tsx, action "dashboard") *)

Module Form.
Record t := mk {
  productId : option string;
  productType : option string;
  channel : option string;
}.
End Form.

(** [v && v !== "all"] *)
Definition isFilter (v : option string) : bool :=
  match v with
  | Some s => JS.truthyStr s && negb (bool_decide (s = "all"))
  | None => false
  end.

Definition hasProductFilter (form : Form.t) : bool :=
  isFilter (Form.productId form).
Definition hasProductTypeFilter (form : Form.t) : bool :=
  isFilter (Form.productType form).

(** The four figures the loop computes for one order. *)
Module Figures.
Record t := mk {
  grossRevenue : Qc;
  discounts : Qc;
  shippingRevenue : Qc;
  itemCount : Z;
}.
Definition zero : t := mk 0%Qc 0%Qc 0%Qc 0.
End Figures.

Definition orderChannel (order : Order.t) : string :=
  match Order.channelName order with
  | Some c => if JS.truthyStr c then c else "Online Store"
  | None => "Online Store"
  end.

Definition matchesProduct (form : Form.t) (li : LineItem.t) : bool :=
  negb (hasProductFilter form)
  || bool_decide (Product.id <$> LineItem.product li = Form.productId form).

Definition matchesType (form : Form.t) (li : LineItem.t) : bool :=
  negb (hasProductTypeFilter form)
  || bool_decide
       (Product.productType <$> LineItem.product li = Form.productType form).

(** [parseFloat(lineItem.originalTotalSet?.shopMoney?.amount || "0")] *)
Definition originalTotal (li : LineItem.t) : Qc :=
  amount (LineItem.originalTotalSet li).

(** The amount the loop adds to [discounts] for one matching line item:
    the item's own discount if it has one, else the order discount, whole for
    a single-item order and pro-rated by gross share otherwise.  The division
    is only reached with a positive denominator. *)
Definition allocatedDiscount
    (orderSubtotal orderTotalDiscount : Qc) (lineItemCount : nat)
    (li : LineItem.t) : Qc :=
  let lineItemOriginalTotal := originalTotal li in
  let lineItemDiscount := amount (LineItem.totalDiscountSet li) in
  if JS.gt0 lineItemDiscount then lineItemDiscount
  else if JS.gt0 orderTotalDiscount && JS.gt0 orderSubtotal then
    if bool_decide (lineItemCount = 1%nat) then orderTotalDiscount
    else
      let lineItemShare :=
        (lineItemOriginalTotal / (orderSubtotal + orderTotalDiscount))%Qc in
      (orderTotalDiscount * lineItemShare)%Qc
  else 0%Qc.

Definition lineItemStep (form : Form.t) (order : Order.t)
    (acc : Figures.t) (li : LineItem.t) : Figures.t :=
  let orderSubtotal := amount (Order.subtotalPriceSet order) in
  let orderTotalDiscount := amount (Order.totalDiscountsSet order) in
  let lineItemCount := length (Order.lineItems order) in
  if matchesProduct form li && matchesType form li then
    Figures.mk
      (Figures.grossRevenue acc + amount (LineItem.originalTotalSet li))%Qc
      (Figures.discounts acc
       + allocatedDiscount orderSubtotal orderTotalDiscount lineItemCount li)%Qc
      (Figures.shippingRevenue acc)
      (Figures.itemCount acc + LineItem.quantity li)
  else acc.

Definition sumQuantity (items : list LineItem.t) : Z :=
  foldl (λ sum e, sum + LineItem.quantity e) 0 items.

Definition orderFigures (form : Form.t) (order : Order.t) : Figures.t :=
  if hasProductFilter form || hasProductTypeFilter form then
    foldl (lineItemStep form order) Figures.zero (Order.lineItems order)
  else
    let subtotal := amount (Order.subtotalPriceSet order) in
    let discounts := amount (Order.totalDiscountsSet order) in
    Figures.mk (subtotal + discounts)%Qc discounts
      (amount (Order.totalShippingPriceSet order))
      (sumQuantity (Order.lineItems order)).

Module Bucket.
Record t := mk {
  grossRevenue : Qc;
  discounts : Qc;
  orderCount : Z;
  shippingRevenue : Qc;
  itemCount : Z;
}.
Definition zero : t := mk 0%Qc 0%Qc 0 0%Qc 0.

(** The object literal written back by every [set] of the loop. *)
Definition add (existing : t) (f : Figures.t) : t :=
  mk (grossRevenue existing + Figures.grossRevenue f)%Qc
     (discounts existing + Figures.discounts f)%Qc
     (orderCount existing + 1)
     (shippingRevenue existing + Figures.shippingRevenue f)%Qc
     (itemCount existing + Figures.itemCount f).
End Bucket.

(** [m.set(k, add(m.get(k) || zero, f))] *)
Definition bump `{Countable K} (k : K) (f : Figures.t)
    (m : gmap K Bucket.t) : gmap K Bucket.t :=
  <[k := Bucket.add (default Bucket.zero (m !! k)) f]> m.

Module Dash.
Record t := mk {
  weeklyData : gmap Z Bucket.t;
  dailyData : gmap string Bucket.t;
  monthlyData : gmap string Bucket.t;
  quarterlyData : gmap string Bucket.t;
  totalShippingRevenue : Qc;
  totalItemCount : Z;
}.
End Dash.

Definition dayKey (order : Order.t) : string :=
  JS.beforeFirst "T" (Order.createdAt order).

Definition monthKey (order : Order.t) : string :=
  String.substring 0 7 (dayKey order).

Definition quarterKey (order : Order.t) : string :=
  let year := JS.Number (Some (JS.beforeFirst "-" (monthKey order))) in
  let month :=
    JS.Number (JS.beforeFirst "-" <$> JS.afterFirst "-" (monthKey order)) in
  JS.show year +:+ "-Q"
    +:+ JS.show ((λ m, JS.floorDiv (m - 1) 3 + 1) <$> month).

(** The guard of the accumulation: [grossRevenue > 0 || discounts > 0]. *)
Definition accumulated (form : Form.t) (order : Order.t) : bool :=
  JS.gt0 (Figures.grossRevenue (orderFigures form order))
  || JS.gt0 (Figures.discounts (orderFigures form order)).

(** One iteration of [for (const edge of allOrders)]. *)
Definition accumulate (env : Env.t) (form : Form.t)
    (st : Dash.t) (order : Order.t) : Dash.t :=
  let weekNum := getWeekNumber env (Order.createdAtTime order) in
  let f := orderFigures form order in
  if JS.gt0 (Figures.grossRevenue f) || JS.gt0 (Figures.discounts f) then
    Dash.mk
      (bump weekNum f (Dash.weeklyData st))
      (bump (dayKey order) f (Dash.dailyData st))
      (bump (monthKey order) f (Dash.monthlyData st))
      (bump (quarterKey order) f (Dash.quarterlyData st))
      (Dash.totalShippingRevenue st + Figures.shippingRevenue f)%Qc
      (Dash.totalItemCount st + Figures.itemCount f)
  else st.

Definition maxWeek (env : Env.t) : Z :=
  if bool_decide (Env.currentYear env = 2025)
  then getWeekNumber env (Env.now env) else 53.

(** [for (let i = 1; i <= maxWeek; i++) weeklyData.set(i, zero)] *)
Definition seedWeeks (n : Z) : gmap Z Bucket.t :=
  foldl (λ m i, <[i := Bucket.zero]> m) ∅ (seqZ 1 n).

Definition initial (env : Env.t) : Dash.t :=
  Dash.mk (seedWeeks (maxWeek env)) ∅ ∅ ∅ 0%Qc 0.

(** The client-side channel filter applied before accumulation. *)
Definition filterChannel (form : Form.t) (orders : list Order.t)
    : list Order.t :=
  match Form.channel form with
  | Some c =>
      if JS.truthyStr c && negb (bool_decide (c = "all"))
      then filter (λ o, orderChannel o = c) orders
      else orders
  | None => orders
  end.

Definition aggregate (env : Env.t) (form : Form.t)
    (allOrders : list Order.t) : Dash.t :=
  foldl (accumulate env form) (initial env) (filterChannel form allOrders).

(** Some accumulated order of the (channel-filtered) feed falls into week
    [w]. *)
Definition accumulatedIn (env : Env.t) (form : Form.t)
    (orders : list Order.t) (w : Z) : Prop :=
  ∃ o, o ∈ filterChannel form orders
       ∧ accumulated form o = true
       ∧ getWeekNumber env (Order.createdAtTime o) = w.

(** ** Dashboard action: the weekly chart and the totals *)

Module ChartRow.
Record t := mk {
  week : Z;
  weekLabel : string;
  grossRevenue : Qc;
  discounts : Qc;
  netRevenue : Qc;
  grossProfit : Qc;
  cm2 : Qc;
  orderCount : Z;
  shippingRevenue : Qc;
  itemCount : Z;
}.
End ChartRow.

(** The callback of [Array.from(weeklyData.entries()).map(...)], with the
    cost assumptions declared just above it. *)
Definition chartRow (week : Z) (data : Bucket.t) : ChartRow.t :=
  let costPercent := JS.dec 40 1 in
  let shippingCostPerOrder := JS.dec 5 1 in
  let txFeePercent := JS.dec 29 10 in
  let txFeeFlat := JS.dec 30 100 in
  let orderCount := JS.ofZ (Bucket.orderCount data) in
  let netRev :=
    (Bucket.grossRevenue data - Bucket.discounts data
     + Bucket.shippingRevenue data)%Qc in
  let cogs :=
    ((Bucket.grossRevenue data - Bucket.discounts data)
     * (costPercent / JS.dec 100 1))%Qc in
  let gp := (netRev - cogs)%Qc in
  let fulfill :=
    (orderCount * shippingCostPerOrder + netRev * txFeePercent / JS.dec 100 1
     + orderCount * txFeeFlat)%Qc in
  ChartRow.mk week ("W" +:+ pretty week)
    (round2 (Bucket.grossRevenue data))
    (round2 (Bucket.discounts data))
    (round2 netRev)
    (round2 gp)
    (round2 (gp - fulfill))
    (Bucket.orderCount data)
    (round2 (Bucket.shippingRevenue data))
    (Bucket.itemCount data).

(** [.sort((a, b) => a.week - b.week)] *)
Definition weekLe (a b : ChartRow.t) : Prop :=
  ChartRow.week a ≤ ChartRow.week b.

#[global] Instance weekLe_dec : RelDecision weekLe :=
  λ a b, decide (ChartRow.week a ≤ ChartRow.week b).

Definition chartData (st : Dash.t) : list ChartRow.t :=
  merge_sort weekLe (uncurry chartRow <$> map_to_list (Dash.weeklyData st)).

Definition sumQc {A} (f : A → Qc) (l : list A) : Qc :=
  foldl (λ sum w, sum + f w)%Qc 0%Qc l.

Definition sumZ {A} (f : A → Z) (l : list A) : Z :=
  foldl (λ sum w, sum + f w) 0 l.

(** ** LTV analysis and first orders (same action) *)

(** [order.customer?.id || fallback] *)
Definition customerKey (fallback : string) (order : Order.t) : string :=
  match Order.customer order with
  | Some c => if JS.truthyStr c then c else fallback
  | None => fallback
  end.

Definition customerSpend (allOrders : list Order.t) : gmap string Qc :=
  foldl (λ m order,
           let customerId := customerKey "guest" order in
           let orderTotal := amount (Order.totalPriceSet order) in
           <[customerId := (default 0%Qc (m !! customerId) + orderTotal)%Qc]> m)
        ∅ allOrders.

Module LTVBucket.
(** [max = None] is [Infinity]. *)
Record t := mk {
  range : string;
  count : Z;
  min : Qc;
  max : option Qc;
}.
End LTVBucket.

Definition ltvBuckets0 : list LTVBucket.t :=
  [ LTVBucket.mk "$0-25" 0 (JS.dec 0 1) (Some (JS.dec 25 1));
    LTVBucket.mk "$25-50" 0 (JS.dec 25 1) (Some (JS.dec 50 1));
    LTVBucket.mk "$50-100" 0 (JS.dec 50 1) (Some (JS.dec 100 1));
    LTVBucket.mk "$100-200" 0 (JS.dec 100 1) (Some (JS.dec 200 1));
    LTVBucket.mk "$200-500" 0 (JS.dec 200 1) (Some (JS.dec 500 1));
    LTVBucket.mk "$500-1K" 0 (JS.dec 500 1) (Some (JS.dec 1000 1));
    LTVBucket.mk "$1K+" 0 (JS.dec 1000 1) None ].

(** [spend >= bucket.min && spend < bucket.max] *)
Definition inBucket (spend : Qc) (bucket : LTVBucket.t) : bool :=
  bool_decide (LTVBucket.min bucket ≤ spend)%Qc
  && match LTVBucket.max bucket with
     | Some hi => bool_decide (spend < hi)%Qc
     | None => true
     end.

(** The inner loop: the first bucket containing [spend] is incremented. *)
Fixpoint countSpend (spend : Qc) (buckets : list LTVBucket.t)
    : list LTVBucket.t :=
  match buckets with
  | bucket :: rest =>
      if inBucket spend bucket
      then LTVBucket.mk (LTVBucket.range bucket) (LTVBucket.count bucket + 1)
             (LTVBucket.min bucket) (LTVBucket.max bucket) :: rest
      else bucket :: countSpend spend rest
  | [] => []
  end.

Definition ltvBuckets (allOrders : list Order.t) : list LTVBucket.t :=
  foldl (λ buckets entry, countSpend entry.2 buckets) ltvBuckets0
        (map_to_list (customerSpend allOrders)).

(** [totalCustomers: customerSpend.size] *)
Definition totalCustomers (allOrders : list Order.t) : nat :=
  size (customerSpend allOrders).

(** UTC calendar date of a day number counted from 1970-01-01. *)
Definition civilFromDays (z : Z) : Z * Z * Z :=
  let z := z + 719468 in
  let era := z `div` 146097 in
  let doe := z - era * 146097 in
  let yoe :=
    (doe - doe `div` 1460 + doe `div` 36524 - doe `div` 146096) `div` 365 in
  let doy := doe - (365 * yoe + yoe `div` 4 - yoe `div` 100) in
  let mp := (5 * doy + 2) `div` 153 in
  let d := doy - (153 * mp + 2) `div` 5 + 1 in
  let m := if bool_decide (mp < 10) then mp + 3 else mp - 9 in
  let y := yoe + era * 400 in
  (if bool_decide (m ≤ 2) then y + 1 else y, m, d).

Definition pad2 (n : Z) : string :=
  if bool_decide (n < 10) then "0" +:+ pretty n else pretty n.

Definition pad4 (n : Z) : string :=
  if bool_decide (n < 10) then "000" +:+ pretty n
  else if bool_decide (n < 100) then "00" +:+ pretty n
  else if bool_decide (n < 1000) then "0" +:+ pretty n
  else pretty n.

(** [date.toISOString().split('T')[0]] for years 0 to 9999. *)
Definition toISODate (time : Z) : string :=
  let '(y, m, d) := civilFromDays (time `div` (1000 * 60 * 60 * 24)) in
  pad4 y +:+ "-" +:+ pad2 m +:+ "-" +:+ pad2 d.

Module FirstOrder.
Record t := mk {
  week : Z;
  date : string;
  discount : Qc;
}.
End FirstOrder.

Definition customerFirstOrder (env : Env.t) (allOrders : list Order.t)
    : gmap string FirstOrder.t :=
  foldl (λ m order,
           let customerId :=
             customerKey ("guest-" +:+ Order.id order) order in
           let weekNum := getWeekNumber env (Order.createdAtTime order) in
           let dateStr := toISODate (Order.createdAtTime order) in
           let discount := amount (Order.totalDiscountsSet order) in
           match m !! customerId with
           | Some existing =>
               if String.ltb dateStr (FirstOrder.date existing)
               then <[customerId := FirstOrder.mk weekNum dateStr discount]> m
               else m
           | None => <[customerId := FirstOrder.mk weekNum dateStr discount]> m
           end)
        ∅ allOrders.

(** ** Dashboard action: result, and the metrics the page derives from it *)

Module DashboardData.
Record t := mk {
  chartData : list ChartRow.t;
  totalRevenue : Qc;
  totalDiscounts : Qc;
  totalOrders : Z;
  totalShippingRevenue : Qc;
  totalItemCount : Z;
  totalCustomers : nat;
}.
End DashboardData.

Definition dashboard (env : Env.t) (form : Form.t)
    (fetched : list Order.t) : DashboardData.t :=
  let allOrders := filterChannel form fetched in
  let st := foldl (accumulate env form) (initial env) allOrders in
  let chart := chartData st in
  let totalRevenue := sumQc ChartRow.grossRevenue chart in
  let totalDiscounts := sumQc ChartRow.discounts chart in
  let totalOrders := sumZ ChartRow.orderCount chart in
  DashboardData.mk chart
    (round2 totalRevenue)
    (round2 totalDiscounts)
    totalOrders
    (round2 (Dash.totalShippingRevenue st))
    (Dash.totalItemCount st)
    (totalCustomers allOrders).

(** [netRevenue > 0 ? (x / netRevenue) * 100 : 0] *)
Definition percentOf (x netRevenue : Qc) : JS.number :=
  if JS.gt0 netRevenue
  then JS.times (JS.div x netRevenue) (JS.dec 100 1)
  else JS.Finite 0%Qc.

Module Metrics.
Record t := mk {
  netRevenue : Qc;
  productCost : Qc;
  shippingCost : Qc;
  transactionFees : Qc;
  fulfillmentCost : Qc;
  grossProfit : Qc;
  cm2 : Qc;
  cm3 : Qc;
  grossProfitPercent : JS.number;
  cm2Percent : JS.number;
  cm3Percent : JS.number;
}.
End Metrics.

(** "Calculated metrics - using default cost assumptions" of the page. *)
Definition metrics (d : DashboardData.t) : Metrics.t :=
  let totalRevenue := DashboardData.totalRevenue d in
  let totalDiscounts := DashboardData.totalDiscounts d in
  let totalOrders := JS.ofZ (DashboardData.totalOrders d) in
  let netRevenue :=
    (totalRevenue - totalDiscounts + DashboardData.totalShippingRevenue d)%Qc in
  let productCostPercent := JS.dec 40 1 in
  let productCost :=
    ((totalRevenue - totalDiscounts) * (productCostPercent / JS.dec 100 1))%Qc in
  let shippingCostPerOrder := JS.dec 5 1 in
  let shippingCost := (totalOrders * shippingCostPerOrder)%Qc in
  let transactionFeePercent := JS.dec 29 10 in
  let transactionFeeFlat := JS.dec 30 100 in
  let transactionFees :=
    (netRevenue * (transactionFeePercent / JS.dec 100 1)
     + totalOrders * transactionFeeFlat)%Qc in
  let fulfillmentCost := (shippingCost + transactionFees)%Qc in
  let grossProfit := (netRevenue - productCost)%Qc in
  let cm2 := (grossProfit - fulfillmentCost)%Qc in
  let adSpend := 0%Qc in
  let cm3 := (cm2 - adSpend)%Qc in
  Metrics.mk netRevenue productCost shippingCost transactionFees
    fulfillmentCost grossProfit cm2 cm3
    (percentOf grossProfit netRevenue)
    (percentOf cm2 netRevenue)
    (percentOf cm3 netRevenue).

(** ** Dashboard action: the daily, monthly and quarterly charts *)

Module PeriodChartRow.
(** [key] is the row's [date], [month] or [quarter]; the monthly label is
    absent when the month is not one of the twelve. *)
Record t := mk {
  key : string;
  label : option string;
  grossRevenue : Qc;
  discounts : Qc;
  netRevenue : Qc;
  grossProfit : Qc;
  cm2 : Qc;
  orderCount : Z;
}.
End PeriodChartRow.







(** ** Dashboard page: the metrics of the comparison period *)

Module CompMetrics.
Record t := mk {
  compNetRevenue : Qc;
  compProductCost : Qc;
  compShippingCost : Qc;
  compTransactionFees : Qc;
  compFulfillmentCost : Qc;
  compGrossProfit : Qc;
  compCm2 : Qc;
  compCm3 : Qc;
}.
End CompMetrics.


(** ** Profit by product (action "profitByProduct") *)

Module ProductAgg.
Record t := mk {
  title : string;
  productType : string;
  tags : list string;
  grossRevenue : Qc;
  discounts : Qc;
  orderCount : Z;
  itemCount : Z;
}.
End ProductAgg.

Module ByProduct.
Record t := mk {
  productData : gmap string ProductAgg.t;
  orderProductIds : gmap string (gset string);
}.
Definition empty : t := mk ∅ ∅.
End ByProduct.

(** [x || fallback] on an optional string. *)
Definition orStr (x : option string) (fallback : string) : string :=
  match x with
  | Some s => if JS.truthyStr s then s else fallback
  | None => fallback
  end.

(** [tags.includes(filter)] *)
Definition tagsInclude (tags : list string) (filter : option string) : bool :=
  match filter with
  | Some t => bool_decide (t ∈ tags)
  | None => false
  end.

(** Body of the inner loop over line items.  The two [continue] guards come
    first; a line item without a product id is skipped. *)
Definition productStep (productTypeFilter productTagFilter : option string)
    (orderId : string) (st : ByProduct.t) (lineItem : LineItem.t)
    : ByProduct.t :=
  let productId := Product.id <$> LineItem.product lineItem in
  let productTitle :=
    orStr (Product.title <$> LineItem.product lineItem) "Unknown Product" in
  let productType :=
    orStr (Product.productType <$> LineItem.product lineItem) EmptyString in
  let tags := default [] (Product.tags <$> LineItem.product lineItem) in
  if isFilter productTypeFilter
     && negb (bool_decide (Some productType = productTypeFilter))
  then st
  else if isFilter productTagFilter
          && negb (tagsInclude tags productTagFilter)
  then st
  else
    match productId with
    | Some productId =>
        if JS.truthyStr productId then
          let existing :=
            default (ProductAgg.mk productTitle productType tags 0%Qc 0%Qc 0 0)
                    (ByProduct.productData st !! productId) in
          let ids :=
            default ∅ (ByProduct.orderProductIds st !! productId) in
          let counted := bool_decide (orderId ∈ ids) in
          let existing' :=
            ProductAgg.mk
              (ProductAgg.title existing)
              (ProductAgg.productType existing)
              (ProductAgg.tags existing)
              (ProductAgg.grossRevenue existing
               + amount (LineItem.originalTotalSet lineItem))%Qc
              (ProductAgg.discounts existing
               + amount (LineItem.totalDiscountSet lineItem))%Qc
              (if counted then ProductAgg.orderCount existing
               else ProductAgg.orderCount existing + 1)
              (ProductAgg.itemCount existing + LineItem.quantity lineItem) in
          let ids' := if counted then ids else {[orderId]} ∪ ids in
          ByProduct.mk
            (<[productId := existing']> (ByProduct.productData st))
            (<[productId := ids']> (ByProduct.orderProductIds st))
        else st
    | None => st
    end.

Definition productOrder (productTypeFilter productTagFilter : option string)
    (st : ByProduct.t) (order : Order.t) : ByProduct.t :=
  foldl (productStep productTypeFilter productTagFilter (Order.id order))
        st (Order.lineItems order).

Definition productData (productTypeFilter productTagFilter : option string)
    (allOrders : list Order.t) : ByProduct.t :=
  foldl (productOrder productTypeFilter productTagFilter)
        ByProduct.empty allOrders.

(** [orderCount] of a key, 0 while the key has no entry. *)
Definition productOrderCount (st : ByProduct.t) (productId : string) : Z :=
  default 0 (ProductAgg.orderCount <$> ByProduct.productData st !! productId).

(** The product id [productStep] updates for a line item: none when a
    [continue] guard fires or the item has no product id. *)
Definition productKey (productTypeFilter productTagFilter : option string)
    (lineItem : LineItem.t) : option string :=
  let productType :=
    orStr (Product.productType <$> LineItem.product lineItem) EmptyString in
  let tags := default [] (Product.tags <$> LineItem.product lineItem) in
  if isFilter productTypeFilter
     && negb (bool_decide (Some productType = productTypeFilter))
  then None
  else if isFilter productTagFilter
          && negb (tagsInclude tags productTagFilter)
  then None
  else
    match Product.id <$> LineItem.product lineItem with
    | Some productId => if JS.truthyStr productId then Some productId else None
    | None => None
    end.

(** [orderProductIds.get(productId)], empty while the key has no set. *)
Definition productIds (st : ByProduct.t) (productId : string) : gset string :=
  default ∅ (ByProduct.orderProductIds st !! productId).

Module ReportRow.
(** Row shape shared by the product, product-type and SKU reports
    ([key] is the product id, the product type or the SKU; [count] is
    [orderCount], or [quantity] for the SKU report). *)
Record t := mk {
  key : string;
  grossRevenue : Qc;
  discounts : Qc;
  returns : Qc;
  netRevenue : Qc;
  cogs : Qc;
  grossProfit : Qc;
  fulfillmentCost : Qc;
  cm2 : Qc;
  count : Z;
}.
End ReportRow.



(** ** Profit by product type (action "profitByProductType") *)

Module TypeAgg.
Record t := mk {
  grossRevenue : Qc;
  discounts : Qc;
  orderCount : Z;
  products : gset string;
}.
End TypeAgg.

Module ByType.
Record t := mk {
  productTypeData : gmap string TypeAgg.t;
  orderTypeIds : gmap string (gset string);
}.
Definition empty : t := mk ∅ ∅.
End ByType.

Definition typeStep (orderId : string) (st : ByType.t)
    (lineItem : LineItem.t) : ByType.t :=
  let productType :=
    orStr (Product.productType <$> LineItem.product lineItem) EmptyString in
  let productId := Product.id <$> LineItem.product lineItem in
  let existing :=
    default (TypeAgg.mk 0%Qc 0%Qc 0 ∅)
            (ByType.productTypeData st !! productType) in
  let ids := default ∅ (ByType.orderTypeIds st !! productType) in
  let counted := bool_decide (orderId ∈ ids) in
  let existing' :=
    TypeAgg.mk
      (TypeAgg.grossRevenue existing
       + amount (LineItem.originalTotalSet lineItem))%Qc
      (TypeAgg.discounts existing
       + amount (LineItem.totalDiscountSet lineItem))%Qc
      (if counted then TypeAgg.orderCount existing
       else TypeAgg.orderCount existing + 1)
      (match productId with
       | Some p => if JS.truthyStr p then {[p]} ∪ TypeAgg.products existing
                   else TypeAgg.products existing
       | None => TypeAgg.products existing
       end) in
  let ids' := if counted then ids else {[orderId]} ∪ ids in
  ByType.mk
    (<[productType := existing']> (ByType.productTypeData st))
    (<[productType := ids']> (ByType.orderTypeIds st)).

Definition typeOrder (st : ByType.t) (order : Order.t) : ByType.t :=
  foldl (typeStep (Order.id order)) st (Order.lineItems order).

Definition productTypeData (allOrders : list Order.t) : ByType.t :=
  foldl typeOrder ByType.empty allOrders.

Definition typeOrderCount (st : ByType.t) (productType : string) : Z :=
  default 0
    (TypeAgg.orderCount <$> ByType.productTypeData st !! productType).

(** The product type [typeStep] updates for a line item. *)
Definition typeKey (lineItem : LineItem.t) : string :=
  orStr (Product.productType <$> LineItem.product lineItem) EmptyString.

Definition typeIds (st : ByType.t) (productType : string) : gset string :=
  default ∅ (ByType.orderTypeIds st !! productType).


(** The ids of the orders that have a line item booked under a product id,
    and under a product type. *)
Definition ordersOfProduct (productTypeFilter productTagFilter : option string)
    (productId : string) (allOrders : list Order.t) : gset string :=
  list_to_set
    (Order.id
       <$> filter (λ o, Exists (λ li, productKey productTypeFilter
                                        productTagFilter li = Some productId)
                               (Order.lineItems o))
                  allOrders).

Definition ordersOfType (productType : string) (allOrders : list Order.t)
    : gset string :=
  list_to_set
    (Order.id
       <$> filter (λ o, Exists (λ li, typeKey li = productType)
                               (Order.lineItems o))
                  allOrders).

(** ** Profit by SKU (action "profitBySKU") *)

Module SkuAgg.
Record t := mk {
  sku : string;
  title : string;
  grossRevenue : Qc;
  discounts : Qc;
  quantity : Z;
}.
End SkuAgg.

Definition skuStep (st : gmap string SkuAgg.t) (lineItem : LineItem.t)
    : gmap string SkuAgg.t :=
  let sku := orStr (LineItem.sku lineItem) EmptyString in
  let productTitle :=
    orStr (Product.title <$> LineItem.product lineItem)
          (orStr (LineItem.title lineItem) "Unknown") in
  let variantTitle :=
    match LineItem.variantTitle lineItem with
    | Some v => if JS.truthyStr v then " - " +:+ v else EmptyString
    | None => EmptyString
    end in
  let fullTitle := productTitle +:+ variantTitle in
  let existing := default (SkuAgg.mk sku fullTitle 0%Qc 0%Qc 0) (st !! sku) in
  <[sku := SkuAgg.mk (SkuAgg.sku existing) (SkuAgg.title existing)
             (SkuAgg.grossRevenue existing
              + amount (LineItem.originalTotalSet lineItem))%Qc
             (SkuAgg.discounts existing
              + amount (LineItem.totalDiscountSet lineItem))%Qc
             (SkuAgg.quantity existing + LineItem.quantity lineItem)]> st.

Definition skuData (allOrders : list Order.t) : gmap string SkuAgg.t :=
  foldl (λ st order, foldl skuStep st (Order.lineItems order)) ∅ allOrders.


(** ** Profit by order: server rows (action "profitByOrder") *)

Module OrderRow.
(** [shippingLineCost] is always [undefined] in the rows the action builds;
    the page still tests it. *)
Record t := mk {
  orderId : string;
  orderName : option string;
  createdAt : string;
  channel : string;
  grossSales : Qc;
  discounts : Qc;
  netSales : Qc;
  shippingRevenue : Qc;
  netRevenue : Qc;
  itemCount : Z;
  paymentGateway : option string;
  shippingLineCost : option Qc;
}.
End OrderRow.

Definition orderReportRow (order : Order.t) : OrderRow.t :=
  let subtotal := amount (Order.subtotalPriceSet order) in
  let discounts := amount (Order.totalDiscountsSet order) in
  let shippingRevenue := amount (Order.totalShippingPriceSet order) in
  let itemCount := sumQuantity (Order.lineItems order) in
  let grossSales := (subtotal + discounts)%Qc in
  let netSales := (grossSales - discounts)%Qc in
  let netRevenue := (netSales + shippingRevenue)%Qc in
  let paymentGateway :=
    orStr (head (Order.paymentGatewayNames order)) "unknown" in
  OrderRow.mk (Order.id order) (Order.name order) (Order.createdAt order)
    (orderChannel order)
    (round2 grossSales) (round2 discounts) (round2 netSales)
    (round2 shippingRevenue) (round2 netRevenue)
    itemCount (Some paymentGateway) None.

(** ** Profit by order: the page (function ProfitByOrderReport) *)

Inductive ShippingMethod := flat | perItem | noMethod.

Module ShippingSettings.
Record t := mk {
  method : ShippingMethod;
  flatRate : Qc;
  perItemRate : Qc;
}.
End ShippingSettings.

Module ShippingCostEntry.
Record t := mk {
  orderId : string;
  orderName : string;
  shippingCost : Qc;
  source : string;
  uploadedAt : string;
}.
End ShippingCostEntry.

Module GatewayFee.
Record t := mk {
  rate : Qc;
  fixedFee : Qc;
  enabled : bool;
}.
End GatewayFee.

Module AdditionalGateway.
Record t := mk {
  id : string;
  name : string;
  apiName : string;
  rate : Qc;
  fixedFee : Qc;
}.
End AdditionalGateway.

Module TransactionFeeSettings.
(** [shopifyPayments] has no [enabled] flag in the source; the field of the
    shared record is unused for it. *)
Record t := mk {
  quickSetup : string;
  shopifyPayments : GatewayFee.t;
  paypal : GatewayFee.t;
  stripe : GatewayFee.t;
  shopifySurcharge : Qc;
  usesShopifyPayments : bool;
  additionalGateways : list AdditionalGateway.t;
}.
End TransactionFeeSettings.

(** The three keys [forEach] stores for one uploaded entry. *)
Definition entryKeys (e : ShippingCostEntry.t) : list string :=
  let normalized := JS.trim (JS.stripHash (ShippingCostEntry.orderId e)) in
  [ShippingCostEntry.orderId e; normalized; "#" +:+ normalized].

Definition csvShippingCostMap (shippingCostData : list ShippingCostEntry.t)
    : gmap string Qc :=
  foldl (λ m e,
           let normalized :=
             JS.trim (JS.stripHash (ShippingCostEntry.orderId e)) in
           <["#" +:+ normalized := ShippingCostEntry.shippingCost e]>
             (<[normalized := ShippingCostEntry.shippingCost e]>
                (<[ShippingCostEntry.orderId e
                   := ShippingCostEntry.shippingCost e]> m)))
        ∅ shippingCostData.

(** [a || b] where both are numbers or [undefined]. *)
Definition orNum (a b : option Qc) : option Qc :=
  match a with
  | Some x => if JS.truthy x then a else b
  | None => b
  end.

(** [order.orderName || order.name || ''] (the empty string): the rows
    carry no [name]. *)
Definition displayName (order : OrderRow.t) : string :=
  orStr (OrderRow.orderName order) EmptyString.

(** The three keys [getShippingCost] tries, in order. *)
Definition lookupKeys (orderName : string) : list string :=
  let normalizedOrderName := JS.trim (JS.stripHash orderName) in
  [orderName; normalizedOrderName; "#" +:+ normalizedOrderName].

(** An uploaded entry touches an order when one of the keys stored for the
    entry is one of the keys looked up for the order's name. *)
Definition touches (e : ShippingCostEntry.t) (orderName : string) : Prop :=
  ∃ k, k ∈ entryKeys e ∧ k ∈ lookupKeys orderName.

(** [order.shippingLineCost !== undefined && ... !== null && ... > 0] *)
Definition labelCost (order : OrderRow.t) : option Qc :=
  match OrderRow.shippingLineCost order with
  | Some c => if JS.gt0 c then Some c else None
  | None => None
  end.

Definition getShippingCost (shippingSettings : ShippingSettings.t)
    (shippingCostData : list ShippingCostEntry.t) (order : OrderRow.t)
    : Qc * string :=
  let csvShippingCostMap := csvShippingCostMap shippingCostData in
  match labelCost order with
  | Some c => (c, "shopify")
  | None =>
      let orderName := displayName order in
      let normalizedOrderName := JS.trim (JS.stripHash orderName) in
      let csvCost :=
        orNum (csvShippingCostMap !! orderName)
          (orNum (csvShippingCostMap !! normalizedOrderName)
                 (csvShippingCostMap !! ("#" +:+ normalizedOrderName))) in
      match csvCost with
      | Some c => (c, "csv")
      | None =>
          match ShippingSettings.method shippingSettings with
          | flat => (ShippingSettings.flatRate shippingSettings, "estimate")
          | perItem =>
              let itemCount :=
                if bool_decide (OrderRow.itemCount order = 0) then 1
                else OrderRow.itemCount order in
              ((ShippingSettings.perItemRate shippingSettings
                * JS.ofZ itemCount)%Qc, "estimate")
          | noMethod => (0%Qc, "none")
          end
      end
  end.

Definition getTransactionFees (s : TransactionFeeSettings.t)
    (netRevenue : Qc) (gateway : option string) : Qc :=
  let gatewayLower := JS.toLowerCase (orStr gateway EmptyString) in
  let shopify := TransactionFeeSettings.shopifyPayments s in
  let '(rate, fixedFee, surcharge) :=
    if JS.includes gatewayLower "paypal"
       && GatewayFee.enabled (TransactionFeeSettings.paypal s)
    then (GatewayFee.rate (TransactionFeeSettings.paypal s),
          GatewayFee.fixedFee (TransactionFeeSettings.paypal s),
          if negb (TransactionFeeSettings.usesShopifyPayments s)
          then TransactionFeeSettings.shopifySurcharge s else 0%Qc)
    else if JS.includes gatewayLower "stripe"
            && GatewayFee.enabled (TransactionFeeSettings.stripe s)
    then (GatewayFee.rate (TransactionFeeSettings.stripe s),
          GatewayFee.fixedFee (TransactionFeeSettings.stripe s),
          TransactionFeeSettings.shopifySurcharge s)
    else if JS.includes gatewayLower "shopify"
            || JS.includes gatewayLower "shop_pay"
    then (GatewayFee.rate shopify, GatewayFee.fixedFee shopify, 0%Qc)
    else
      match List.find
              (λ g, JS.includes gatewayLower
                      (JS.toLowerCase (AdditionalGateway.apiName g)))
              (TransactionFeeSettings.additionalGateways s) with
      | Some additionalGateway =>
          (AdditionalGateway.rate additionalGateway,
           AdditionalGateway.fixedFee additionalGateway,
           TransactionFeeSettings.shopifySurcharge s)
      | None => (GatewayFee.rate shopify, GatewayFee.fixedFee shopify, 0%Qc)
      end in
  (netRevenue * ((rate + surcharge) / JS.dec 100 1) + fixedFee)%Qc.

Module Enriched.
(** What [enrichedData] computes for a row ([{ ...o, ... }]).  The order page
    emits all of it; the channel page and the stand-alone order component
    keep [shippingCost] and [transactionFees] as locals and have no
    [shippingSource]. *)
Record t := mk {
  grossRevenue : Qc;
  discounts : Qc;
  netRevenue : Qc;
  cogs : Qc;
  grossProfit : Qc;
  shippingCost : Qc;
  shippingSource : option string;
  transactionFees : Qc;
  fulfillmentCost : Qc;
  cm2 : Qc;
  margin : JS.number;
}.
End Enriched.

Definition enrichOrder (shippingSettings : ShippingSettings.t)
    (shippingCostData : list ShippingCostEntry.t)
    (transactionFeeSettings : TransactionFeeSettings.t)
    (o : OrderRow.t) : Enriched.t :=
  let productCostPercent := JS.dec 40 1 in
  let grossRevenue := (OrderRow.grossSales o + OrderRow.shippingRevenue o)%Qc in
  let netRevenue := (grossRevenue - OrderRow.discounts o)%Qc in
  let cogs := (netRevenue * (productCostPercent / JS.dec 100 1))%Qc in
  let grossProfit := (netRevenue - cogs)%Qc in
  let '(shippingCost, shippingSource) :=
    getShippingCost shippingSettings shippingCostData o in
  let transactionFees :=
    getTransactionFees transactionFeeSettings netRevenue
      (OrderRow.paymentGateway o) in
  let fulfillmentCost := (shippingCost + transactionFees)%Qc in
  let cm2 := (grossProfit - fulfillmentCost)%Qc in
  let margin := percentOf cm2 netRevenue in
  Enriched.mk grossRevenue (OrderRow.discounts o) netRevenue cogs grossProfit
    shippingCost (Some shippingSource) transactionFees fulfillmentCost cm2
    margin.

(** The stand-alone report component (components/reports), which carries the
    default cost assumptions as constants. *)
Definition enrichOrderDefault (o : OrderRow.t) : Enriched.t :=
  let productCostPercent := JS.dec 40 1 in
  let shippingCostPerOrder := JS.dec 5 1 in
  let transactionFeePercent := JS.dec 29 10 in
  let transactionFeeFlat := JS.dec 30 100 in
  let grossRevenue := (OrderRow.grossSales o + OrderRow.shippingRevenue o)%Qc in
  let netRevenue := (grossRevenue - OrderRow.discounts o)%Qc in
  let cogs := (netRevenue * (productCostPercent / JS.dec 100 1))%Qc in
  let grossProfit := (netRevenue - cogs)%Qc in
  let shippingCost := shippingCostPerOrder in
  let transactionFees :=
    (netRevenue * (transactionFeePercent / JS.dec 100 1)
     + transactionFeeFlat)%Qc in
  let fulfillmentCost := (shippingCost + transactionFees)%Qc in
  let cm2 := (grossProfit - fulfillmentCost)%Qc in
  let margin := percentOf cm2 netRevenue in
  Enriched.mk grossRevenue (OrderRow.discounts o) netRevenue cogs grossProfit
    shippingCost None transactionFees fulfillmentCost cm2 margin.

Module Totals.
Record t := mk {
  grossRevenue : Qc;
  discounts : Qc;
  netRevenue : Qc;
  cogs : Qc;
  grossProfit : Qc;
  fulfillmentCost : Qc;
  cm2 : Qc;
}.
Definition zero : t := mk 0%Qc 0%Qc 0%Qc 0%Qc 0%Qc 0%Qc 0%Qc.
End Totals.

(** [enrichedData.reduce(...)] *)
Definition totals (enrichedData : list Enriched.t) : Totals.t :=
  foldl (λ acc o,
           Totals.mk
             (Totals.grossRevenue acc + Enriched.grossRevenue o)%Qc
             (Totals.discounts acc + Enriched.discounts o)%Qc
             (Totals.netRevenue acc + Enriched.netRevenue o)%Qc
             (Totals.cogs acc + Enriched.cogs o)%Qc
             (Totals.grossProfit acc + Enriched.grossProfit o)%Qc
             (Totals.fulfillmentCost acc + Enriched.fulfillmentCost o)%Qc
             (Totals.cm2 acc + Enriched.cm2 o)%Qc)
        Totals.zero enrichedData.

Definition totalMargin (t : Totals.t) : JS.number :=
  percentOf (Totals.cm2 t) (Totals.netRevenue t).

(** ** Profit by channel: the page (function ProfitByChannelReport) *)

Module ChannelRow.
Record t := mk {
  channel : string;
  grossRevenue : Qc;
  discounts : Qc;
  orderCount : Z;
}.
End ChannelRow.

Definition enrichChannel (c : ChannelRow.t) : Enriched.t :=
  let productCostPercent := JS.dec 40 1 in
  let shippingCostPerOrder := JS.dec 5 1 in
  let transactionFeePercent := JS.dec 29 10 in
  let transactionFeeFlat := JS.dec 30 100 in
  let orderCount := JS.ofZ (ChannelRow.orderCount c) in
  let netRevenue := (ChannelRow.grossRevenue c - ChannelRow.discounts c)%Qc in
  let cogs := (netRevenue * (productCostPercent / JS.dec 100 1))%Qc in
  let grossProfit := (netRevenue - cogs)%Qc in
  let shippingCost := (orderCount * shippingCostPerOrder)%Qc in
  let transactionFees :=
    (netRevenue * (transactionFeePercent / JS.dec 100 1)
     + orderCount * transactionFeeFlat)%Qc in
  let fulfillmentCost := (shippingCost + transactionFees)%Qc in
  let cm2 := (grossProfit - fulfillmentCost)%Qc in
  let margin := percentOf cm2 netRevenue in
  Enriched.mk (ChannelRow.grossRevenue c) (ChannelRow.discounts c) netRevenue
    cogs grossProfit shippingCost None transactionFees fulfillmentCost cm2
    margin.

(** ** Sums over the values of a map *)

Definition mapSumZ `{Countable K} {V} (f : V → Z) (m : gmap K V) : Z :=
  sumZ (λ kv, f kv.2) (map_to_list m).

Definition mapSumQc `{Countable K} {V} (f : V → Qc) (m : gmap K V) : Qc :=
  sumQc (λ kv, f kv.2) (map_to_list m).

(** The callback of [ltvBuckets.filter((b, i) => ...)]:
    [i < 4 || b.count > 0 || ltvBuckets.slice(i).some(bb => bb.count > 0)]. *)
Definition ltvShown (ltvBuckets : list LTVBucket.t) (i : nat)
    (b : LTVBucket.t) : Prop :=
  (i < 4)%nat ∨ 0 < LTVBucket.count b
  ∨ Exists (λ bb, 0 < LTVBucket.count bb) (drop i ltvBuckets).

#[global] Instance ltvShown_dec ltvBuckets i b
    : Decision (ltvShown ltvBuckets i b) :=
  decide ((i < 4)%nat ∨ 0 < LTVBucket.count b
          ∨ Exists (λ bb, 0 < LTVBucket.count bb) (drop i ltvBuckets)).

(** The buckets shown on the page. *)
Definition ltvData (ltvBuckets : list LTVBucket.t) : list LTVBucket.t :=
  snd <$> filter (λ ib, ltvShown ltvBuckets ib.1 ib.2) (imap pair ltvBuckets).

(** ** Cost management: payment gateways (lib/constants.ts and the
    transaction-fee card) *)

Module Gateway.
Record t := mk {
  id : string;
  name : string;
  apiName : string;
  defaultRate : Qc;
  defaultFee : Qc;
}.
End Gateway.

Definition KNOWN_GATEWAYS : list Gateway.t :=
  [ Gateway.mk "amazon_payments" "Amazon Pay" "amazon_payments"
      (JS.dec 29 10) (JS.dec 30 100);
    Gateway.mk "klarna" "Klarna" "klarna" (JS.dec 329 100) (JS.dec 30 100);
    Gateway.mk "afterpay" "Afterpay" "afterpay" (JS.dec 60 10) (JS.dec 30 100);
    Gateway.mk "affirm" "Affirm" "affirm" (JS.dec 599 100) (JS.dec 30 100);
    Gateway.mk "sezzle" "Sezzle" "sezzle" (JS.dec 60 10) (JS.dec 30 100);
    Gateway.mk "zip" "Zip (Quadpay)" "zip" (JS.dec 60 10) (JS.dec 30 100);
    Gateway.mk "clearpay" "Clearpay" "clearpay" (JS.dec 60 10) (JS.dec 30 100);
    Gateway.mk "authorize_net" "Authorize.net" "authorize_net"
      (JS.dec 29 10) (JS.dec 30 100);
    Gateway.mk "braintree" "Braintree" "braintree"
      (JS.dec 259 100) (JS.dec 49 100);
    Gateway.mk "square" "Square" "square" (JS.dec 29 10) (JS.dec 30 100);
    Gateway.mk "2checkout" "2Checkout" "2checkout"
      (JS.dec 35 10) (JS.dec 35 100);
    Gateway.mk "worldpay" "Worldpay" "worldpay"
      (JS.dec 275 100) (JS.dec 30 100) ].

(** [{ ...transactionFeeSettings, additionalGateways: l }] *)
Definition withAdditionalGateways (s : TransactionFeeSettings.t)
    (l : list AdditionalGateway.t) : TransactionFeeSettings.t :=
  TransactionFeeSettings.mk
    (TransactionFeeSettings.quickSetup s)
    (TransactionFeeSettings.shopifyPayments s)
    (TransactionFeeSettings.paypal s)
    (TransactionFeeSettings.stripe s)
    (TransactionFeeSettings.shopifySurcharge s)
    (TransactionFeeSettings.usesShopifyPayments s)
    l.

(** The gateways offered by the "add gateway" select:
    [KNOWN_GATEWAYS.filter(g => !additionalGateways.find(ag => ag.id === g.id))]. *)
Definition addableGateways (s : TransactionFeeSettings.t) : list Gateway.t :=
  filter (λ g, ¬ is_Some
                   (List.find
                      (λ ag, bool_decide (AdditionalGateway.id ag
                                          = Gateway.id g))
                      (TransactionFeeSettings.additionalGateways s)))
         KNOWN_GATEWAYS.

(** The "Add Gateway" button, [selectedNewGateway] being the select's
    value. *)
Definition addGateway (s : TransactionFeeSettings.t)
    (selectedNewGateway : string) : TransactionFeeSettings.t :=
  match List.find (λ g, bool_decide (Gateway.id g = selectedNewGateway))
                  KNOWN_GATEWAYS with
  | Some gateway =>
      withAdditionalGateways s
        (TransactionFeeSettings.additionalGateways s
         ++ [AdditionalGateway.mk (Gateway.id gateway) (Gateway.name gateway)
               (Gateway.apiName gateway) (Gateway.defaultRate gateway)
               (Gateway.defaultFee gateway)])
  | None => s
  end.

(** The "Remove" button of a gateway row. *)
Definition removeGateway (s : TransactionFeeSettings.t) (id : string)
    : TransactionFeeSettings.t :=
  withAdditionalGateways s
    (filter (λ g, AdditionalGateway.id g ≠ id)
            (TransactionFeeSettings.additionalGateways s)).

(** The rate and fixed-fee fields of a gateway row
    ([parseFloat(value) || 0] is the number passed here). *)
Definition setGatewayRate (s : TransactionFeeSettings.t) (id : string)
    (rate : Qc) : TransactionFeeSettings.t :=
  withAdditionalGateways s
    ((λ g, if bool_decide (AdditionalGateway.id g = id)
           then AdditionalGateway.mk (AdditionalGateway.id g)
                  (AdditionalGateway.name g) (AdditionalGateway.apiName g)
                  rate (AdditionalGateway.fixedFee g)
           else g)
       <$> TransactionFeeSettings.additionalGateways s).

Definition setGatewayFixedFee (s : TransactionFeeSettings.t) (id : string)
    (fixedFee : Qc) : TransactionFeeSettings.t :=
  withAdditionalGateways s
    ((λ g, if bool_decide (AdditionalGateway.id g = id)
           then AdditionalGateway.mk (AdditionalGateway.id g)
                  (AdditionalGateway.name g) (AdditionalGateway.apiName g)
                  (AdditionalGateway.rate g) fixedFee
           else g)
       <$> TransactionFeeSettings.additionalGateways s).

(** Settings whose merchant-added gateways all stem from the known list, as
    every sequence of the four handlers above produces. *)
Definition fromKnownGateways (s : TransactionFeeSettings.t) : Prop :=
  Forall (λ a, ∃ k, k ∈ KNOWN_GATEWAYS
                    ∧ AdditionalGateway.id a = Gateway.id k
                    ∧ AdditionalGateway.apiName a = Gateway.apiName k)
         (TransactionFeeSettings.additionalGateways s).

(** ** Dashboard page: lift against the comparison period *)

(** [calcLift]; [None] is [undefined]. *)
Definition calcLift (current previous : Qc) (isMultiYear : bool)
    : option JS.number :=
  if isMultiYear then None
  else if bool_decide (previous = 0%Qc)
  then Some (JS.Finite (if JS.gt0 current then JS.dec 100 1 else 0%Qc))
  else Some (JS.times (JS.div (current - previous) previous) (JS.dec 100 1)).

(** ** Operating expenses (lib/utils.ts, the dashboard page and the
    expenses report) *)

Module Expense.
Record t := mk {
  id : string;
  name : string;
  category : string;
  amount : Qc;
  frequency : string;
  startDate : string;
  endDate : option string;
}.
End Expense.

Definition getMonthlyEquivalent (expense : Expense.t) : Qc :=
  let frequency := Expense.frequency expense in
  if bool_decide (frequency = "one-time") then Expense.amount expense
  else if bool_decide (frequency = "monthly") then Expense.amount expense
  else if bool_decide (frequency = "quarterly")
  then (Expense.amount expense / JS.dec 3 1)%Qc
  else if bool_decide (frequency = "annual")
  then (Expense.amount expense / JS.dec 12 1)%Qc
  else Expense.amount expense.

(** [expenses.reduce((sum, e) => sum + getMonthlyEquivalent(e), 0)] *)
Definition totalMonthlyExpenses (expenses : list Expense.t) : Qc :=
  sumQc getMonthlyEquivalent expenses.

(** [Math.ceil(a / b)] on integers. *)
Definition ceilDiv (a b : Z) : Z := - ((- a) `div` b).

(** [startTime] and [endTime] are [new Date(startDate).getTime()] and
    [new Date(endDate).getTime()]. *)
Definition daysDiff (startTime endTime : Z) : Z :=
  Z.max 1 (ceilDiv (endTime - startTime) (1000 * 60 * 60 * 24) + 1).

Definition proratedOpex (expenses : list Expense.t) (startTime endTime : Z)
    : Qc :=
  let dailyOpex := (totalMonthlyExpenses expenses / JS.dec 30 1)%Qc in
  (dailyOpex * JS.ofZ (daysDiff startTime endTime))%Qc.

(** The categories of the expense form and of lib/constants.ts, as
    [(label, value)] pairs. *)
Definition EXPENSE_CATEGORIES : list (string * string) :=
  [ ("Advertising & Marketing", "advertising");
    ("Software & Subscriptions", "software");
    ("Rent & Warehousing", "rent");
    ("Payroll & Contractors", "payroll");
    ("Professional Services", "professional");
    ("Shipping & Fulfillment", "shipping");
    ("Other", "other") ].

Module CategoryRow.
Record t := mk {
  category : string;
  categoryKey : string;
  expenses : list Expense.t;
  monthlyTotal : Qc;
  annualTotal : Qc;
}.
End CategoryRow.

(** The grouping of the stand-alone expenses report component, over the
    table above. *)
Definition expensesByCategory (expenses : list Expense.t)
    : list CategoryRow.t :=
  filter (λ c, (0 < length (CategoryRow.expenses c))%nat)
    ((λ cat : string * string,
        let categoryExpenses :=
          filter (λ e, Expense.category e = cat.2) expenses in
        let monthlyTotal := sumQc getMonthlyEquivalent categoryExpenses in
        CategoryRow.mk cat.1 cat.2 categoryExpenses monthlyTotal
          (monthlyTotal * JS.dec 12 1)%Qc)
       <$> EXPENSE_CATEGORIES).

(** The expenses report the page renders (function [ExpensesReport] of
    app._index.tsx).  It declares a category table of its own, which lacks
    the "shipping" category of the expense form, and its own copy of
    [getMonthlyEquivalent], the same [switch] as above. *)
Module ExpensesReport.

(** [(label, value)] pairs. *)
Definition EXPENSE_CATEGORIES : list (string * string) :=
  [ ("Advertising & Marketing", "advertising");
    ("Software & Subscriptions", "software");
    ("Rent & Warehousing", "rent");
    ("Payroll & Contractors", "payroll");
    ("Professional Services", "professional");
    ("Other", "other") ].

Definition expensesByCategory (expenses : list Expense.t)
    : list CategoryRow.t :=
  filter (λ c, (0 < length (CategoryRow.expenses c))%nat)
    ((λ cat : string * string,
        let categoryExpenses :=
          filter (λ e, Expense.category e = cat.2) expenses in
        let monthlyTotal := sumQc getMonthlyEquivalent categoryExpenses in
        CategoryRow.mk cat.1 cat.2 categoryExpenses monthlyTotal
          (monthlyTotal * JS.dec 12 1)%Qc)
       <$> EXPENSE_CATEGORIES).

Definition totalMonthly (expenses : list Expense.t) : Qc :=
  sumQc getMonthlyEquivalent expenses.

End ExpensesReport.

(** ** Cost management: the shipping-cost upload *)

Module Merge.
Record t := mk {
  updatedData : list ShippingCostEntry.t;
  updatedCount : Z;
  addedCount : Z;
}.
End Merge.

(** The callback of [newEntries.forEach]: the first stored entry with the
    same [orderId] is replaced in place, an entry with a new [orderId] is
    pushed. *)
Definition mergeEntry (st : Merge.t) (entry : ShippingCostEntry.t)
    : Merge.t :=
  match list_find (λ e, ShippingCostEntry.orderId e
                        = ShippingCostEntry.orderId entry)
                  (Merge.updatedData st) with
  | Some (existingIndex, _) =>
      Merge.mk (<[existingIndex := entry]> (Merge.updatedData st))
        (Merge.updatedCount st + 1) (Merge.addedCount st)
  | None =>
      Merge.mk (Merge.updatedData st ++ [entry])
        (Merge.updatedCount st) (Merge.addedCount st + 1)
  end.

Definition mergeUpload (shippingCostData newEntries : list ShippingCostEntry.t)
    : Merge.t :=
  foldl mergeEntry (Merge.mk shippingCostData 0 0) newEntries.

(** [new Set(shippingCostData.map(e => e.orderId))] *)
Definition uploadedOrderIds (shippingCostData : list ShippingCostEntry.t)
    : gset string :=
  list_to_set (ShippingCostEntry.orderId <$> shippingCostData).

Module NeededOrder.
Record t := mk {
  orderId : string;
  orderName : string;
  orderDate : string;
}.
End NeededOrder.

Definition ordersMissingShippingCosts
    (ordersNeedingShippingCosts : list NeededOrder.t)
    (shippingCostData : list ShippingCostEntry.t) : list NeededOrder.t :=
  filter (λ o, NeededOrder.orderId o ∉ uploadedOrderIds shippingCostData)
         ordersNeedingShippingCosts.

(** ** Cost management: the accuracy score *)

Module AccuracyItem.
Record t := mk {
  label : string;
  complete : bool;
  partial : bool;
}.
End AccuracyItem.

(** [products] holds the product ids, [productCosts] the costs entered. *)
Definition productAccuracy (products : list string)
    (productCosts : gmap string Qc) : Qc :=
  let productsWithCost :=
    length (filter (λ p, is_Some (productCosts !! p)) products) in
  if bool_decide (0 < length products)%nat
  then (JS.ofZ (Z.of_nat productsWithCost)
        / JS.ofZ (Z.of_nat (length products)) * JS.dec 100 1)%Qc
  else 0%Qc.

Definition accuracyItems (products : list string)
    (productCosts : gmap string Qc)
    (ordersNeedingShippingCosts : list NeededOrder.t)
    (shippingCostData : list ShippingCostEntry.t)
    (shippingSettings : ShippingSettings.t)
    (expenses : list Expense.t) : list AccuracyItem.t :=
  let productAccuracy := productAccuracy products productCosts in
  let missingShippingCostCount :=
    length (ordersMissingShippingCosts ordersNeedingShippingCosts
              shippingCostData) in
  let hasExpenses := bool_decide (0 < length expenses)%nat in
  let hasShippingCostsConfigured :=
    bool_decide (missingShippingCostCount = 0%nat)
    || match ShippingSettings.method shippingSettings with
       | noMethod => false
       | _ => true
       end in
  let hasPartialShippingData :=
    bool_decide (0 < length shippingCostData)%nat
    && bool_decide (0 < missingShippingCostCount)%nat in
  [ AccuracyItem.mk "Product costs"
      (bool_decide (productAccuracy = JS.dec 100 1))
      (JS.gt0 productAccuracy);
    AccuracyItem.mk "Shipping costs" hasShippingCostsConfigured
      hasPartialShippingData;
    AccuracyItem.mk "Transaction fees" true false;
    AccuracyItem.mk "Operating expenses" hasExpenses false ].

Definition overallAccuracy (accuracyItems : list AccuracyItem.t) : Qc :=
  let completedItems :=
    length (filter (λ i, AccuracyItem.complete i = true) accuracyItems) in
  JS.Math_round
    (JS.ofZ (Z.of_nat completedItems)
     / JS.ofZ (Z.of_nat (length accuracyItems)) * JS.dec 100 1)%Qc.

(** ** Dashboard action: top products *)

Module ProductStat.
Record t := mk {
  productId : string;
  title : string;
  grossRevenue : Qc;
  discounts : Qc;
  orderCount : Z;
  itemCount : Z;
}.
End ProductStat.

(** The product id a line item is booked under in [productStats]: none
    when the product is missing or its id is empty. *)
Definition statKey (lineItem : LineItem.t) : option string :=
  match Product.id <$> LineItem.product lineItem with
  | Some productId => if JS.truthyStr productId then Some productId else None
  | None => None
  end.

(** Body of the inner loop; the second component is [orderProductIds], the
    set created afresh for every order. *)
Definition statStep (st : gmap string ProductStat.t * gset string)
    (lineItem : LineItem.t) : gmap string ProductStat.t * gset string :=
  let productStats := st.1 in
  let orderProductIds := st.2 in
  let productTitle :=
    orStr (Product.title <$> LineItem.product lineItem) "Unknown Product" in
  match Product.id <$> LineItem.product lineItem with
  | Some productId =>
      if JS.truthyStr productId then
        let existing :=
          default (ProductStat.mk productId productTitle 0%Qc 0%Qc 0 0)
                  (productStats !! productId) in
        let counted := bool_decide (productId ∈ orderProductIds) in
        (<[productId :=
             ProductStat.mk
               (ProductStat.productId existing)
               (ProductStat.title existing)
               (ProductStat.grossRevenue existing
                + amount (LineItem.originalTotalSet lineItem))%Qc
               (ProductStat.discounts existing
                + amount (LineItem.totalDiscountSet lineItem))%Qc
               (if counted then ProductStat.orderCount existing
                else ProductStat.orderCount existing + 1)
               (ProductStat.itemCount existing + LineItem.quantity lineItem)]>
           productStats,
         if counted then orderProductIds else {[productId]} ∪ orderProductIds)
      else st
  | None => st
  end.

Definition statOrder (productStats : gmap string ProductStat.t)
    (order : Order.t) : gmap string ProductStat.t :=
  (foldl statStep (productStats, ∅) (Order.lineItems order)).1.

Definition productStats (allOrders : list Order.t)
    : gmap string ProductStat.t :=
  foldl statOrder ∅ allOrders.

Definition statOrderCount (productStats : gmap string ProductStat.t)
    (productId : string) : Z :=
  default 0 (ProductStat.orderCount <$> productStats !! productId).

Module TopProduct.
Record t := mk {
  productId : string;
  title : string;
  netRevenue : Qc;
  aov : Qc;
  avgDiscount : Qc;
  grossProfitRate : Qc;
  orderCount : Z;
}.
End TopProduct.

(** The callback of [Array.from(productStats.values()).map(...)].  Each
    division stands behind the guard the source gives it. *)
Definition topProductRow (p : ProductStat.t) : TopProduct.t :=
  let netRevenue := (ProductStat.grossRevenue p - ProductStat.discounts p)%Qc in
  let aov :=
    if bool_decide (0 < ProductStat.orderCount p)
    then (netRevenue / JS.ofZ (ProductStat.orderCount p))%Qc else 0%Qc in
  let avgDiscount :=
    if bool_decide (0 < ProductStat.orderCount p)
    then (ProductStat.discounts p / JS.ofZ (ProductStat.orderCount p))%Qc
    else 0%Qc in
  let grossProfitRate :=
    if JS.gt0 netRevenue
    then ((netRevenue - netRevenue * JS.dec 4 10) / netRevenue
          * JS.dec 100 1)%Qc
    else 0%Qc in
  TopProduct.mk (ProductStat.productId p) (ProductStat.title p)
    (round2 netRevenue) (round2 aov) (round2 avgDiscount)
    (round1 grossProfitRate) (ProductStat.orderCount p).

(** ** Dashboard action: customer acquisition *)

(** The key of [customerFirstOrder]: [order.customer?.id || `guest-${order.id}`]. *)
Definition firstOrderKey (order : Order.t) : string :=
  customerKey ("guest-" +:+ Order.id order) order.

(** The entry [customerFirstOrder] stores for an order. *)
Definition firstOrderOf (env : Env.t) (order : Order.t) : FirstOrder.t :=
  FirstOrder.mk (getWeekNumber env (Order.createdAtTime order))
    (toISODate (Order.createdAtTime order))
    (amount (Order.totalDiscountsSet order)).

Module Acq.
Record t := mk {
  newBuyers : Z;
  totalDiscounts : Qc;
}.
Definition zero : t := mk 0 0%Qc.
End Acq.

Module AcqMaps.
Record t := mk {
  weeklyAcquisitionMap : gmap Z Acq.t;
  dailyAcquisitionMap : gmap string Acq.t;
}.
End AcqMaps.

(** [for (let i = 1; i <= maxWeek; i++) weeklyAcquisitionMap.set(i, zero)] *)
Definition seedAcquisition (n : Z) : gmap Z Acq.t :=
  foldl (λ m i, <[i := Acq.zero]> m) ∅ (seqZ 1 n).

(** One iteration of [for (const [, data] of customerFirstOrder)]: the week
    is only updated when it was seeded, the day is created on demand. *)
Definition acquisitionStep (st : AcqMaps.t) (data : FirstOrder.t)
    : AcqMaps.t :=
  let weekly :=
    match AcqMaps.weeklyAcquisitionMap st !! FirstOrder.week data with
    | Some existingWeek =>
        <[FirstOrder.week data :=
            Acq.mk (Acq.newBuyers existingWeek + 1)
              (Acq.totalDiscounts existingWeek + FirstOrder.discount data)%Qc]>
          (AcqMaps.weeklyAcquisitionMap st)
    | None => AcqMaps.weeklyAcquisitionMap st
    end in
  let existingDay :=
    default Acq.zero
      (AcqMaps.dailyAcquisitionMap st !! FirstOrder.date data) in
  AcqMaps.mk weekly
    (<[FirstOrder.date data :=
         Acq.mk (Acq.newBuyers existingDay + 1)
           (Acq.totalDiscounts existingDay + FirstOrder.discount data)%Qc]>
       (AcqMaps.dailyAcquisitionMap st)).

(** The loop runs over the entries of [customerFirstOrder]; the sums it
    forms do not depend on the order of the entries. *)
Definition acquisitionMaps (env : Env.t) (allOrders : list Order.t)
    : AcqMaps.t :=
  foldl acquisitionStep (AcqMaps.mk (seedAcquisition (maxWeek env)) ∅)
        ((map_to_list (customerFirstOrder env allOrders)).*2).

(** [avgCAC] of a chart row. *)
Definition avgCAC (data : Acq.t) : Qc :=
  if bool_decide (0 < Acq.newBuyers data)
  then round2 (Acq.totalDiscounts data / JS.ofZ (Acq.newBuyers data))%Qc
  else 0%Qc.

(** ** Profit by vendor (action "profitByVendor") *)

Module ByVendor.
(** The values of [vendorData] have the shape of the product-type
    buckets. *)
Record t := mk {
  vendorData : gmap string TypeAgg.t;
  orderVendorIds : gmap string (gset string);
}.
Definition empty : t := mk ∅ ∅.
End ByVendor.

(** [lineItem.product?.vendor || ''] (the empty string) *)
Definition vendorKey (lineItem : LineItem.t) : string :=
  orStr (Product.vendor <$> LineItem.product lineItem) EmptyString.

Definition vendorStep (orderId : string) (st : ByVendor.t)
    (lineItem : LineItem.t) : ByVendor.t :=
  let vendor :=
    orStr (Product.vendor <$> LineItem.product lineItem) EmptyString in
  let productId := Product.id <$> LineItem.product lineItem in
  let existing :=
    default (TypeAgg.mk 0%Qc 0%Qc 0 ∅) (ByVendor.vendorData st !! vendor) in
  let ids := default ∅ (ByVendor.orderVendorIds st !! vendor) in
  let counted := bool_decide (orderId ∈ ids) in
  let existing' :=
    TypeAgg.mk
      (TypeAgg.grossRevenue existing
       + amount (LineItem.originalTotalSet lineItem))%Qc
      (TypeAgg.discounts existing
       + amount (LineItem.totalDiscountSet lineItem))%Qc
      (if counted then TypeAgg.orderCount existing
       else TypeAgg.orderCount existing + 1)
      (match productId with
       | Some p => if JS.truthyStr p then {[p]} ∪ TypeAgg.products existing
                   else TypeAgg.products existing
       | None => TypeAgg.products existing
       end) in
  let ids' := if counted then ids else {[orderId]} ∪ ids in
  ByVendor.mk
    (<[vendor := existing']> (ByVendor.vendorData st))
    (<[vendor := ids']> (ByVendor.orderVendorIds st)).

Definition vendorOrder (st : ByVendor.t) (order : Order.t) : ByVendor.t :=
  foldl (vendorStep (Order.id order)) st (Order.lineItems order).

Definition vendorData (allOrders : list Order.t) : ByVendor.t :=
  foldl vendorOrder ByVendor.empty allOrders.

Definition vendorOrderCount (st : ByVendor.t) (vendor : string) : Z :=
  default 0 (TypeAgg.orderCount <$> ByVendor.vendorData st !! vendor).

Definition vendorIds (st : ByVendor.t) (vendor : string) : gset string :=
  default ∅ (ByVendor.orderVendorIds st !! vendor).

(** [data.products], empty while the vendor has no bucket. *)
Definition vendorProducts (st : ByVendor.t) (vendor : string) : gset string :=
  default ∅ (TypeAgg.products <$> ByVendor.vendorData st !! vendor).

(** [productCount: data.products.size] *)
Definition vendorProductCount (st : ByVendor.t) (vendor : string) : nat :=
  size (vendorProducts st vendor).


(** The ids of the orders, and of the products, that have a line item of a
    vendor. *)
Definition ordersOfVendor (vendor : string) (allOrders : list Order.t)
    : gset string :=
  list_to_set
    (Order.id
       <$> filter (λ o, Exists (λ li, vendorKey li = vendor)
                               (Order.lineItems o))
                  allOrders).

Definition productsOfVendor (vendor : string) (allOrders : list Order.t)
    : gset string :=
  list_to_set
    (omap statKey
       (filter (λ li, vendorKey li = vendor)
               (concat (Order.lineItems <$> allOrders)))).

(** ** Profit and loss (action "pl") and profit by channel (action
    "profitByChannel"): the server side *)

Module PeriodAgg.
Record t := mk {
  grossSales : Qc;
  discounts : Qc;
  shippingRevenue : Qc;
  orderCount : Z;
  itemCount : Z;
}.
Definition zero : t := mk 0%Qc 0%Qc 0%Qc 0 0.
End PeriodAgg.

(** The body both actions run for every order, [key] being the period key
    of the order's date or the order's channel name.  There is no guard:
    every order of the feed is booked. *)
Definition periodStep (key : Order.t → string)
    (m : gmap string PeriodAgg.t) (order : Order.t)
    : gmap string PeriodAgg.t :=
  let subtotal := amount (Order.subtotalPriceSet order) in
  let discounts := amount (Order.totalDiscountsSet order) in
  let shippingRevenue := amount (Order.totalShippingPriceSet order) in
  let itemCount := sumQuantity (Order.lineItems order) in
  let existing := default PeriodAgg.zero (m !! key order) in
  <[key order :=
      PeriodAgg.mk
        (PeriodAgg.grossSales existing + subtotal + discounts)%Qc
        (PeriodAgg.discounts existing + discounts)%Qc
        (PeriodAgg.shippingRevenue existing + shippingRevenue)%Qc
        (PeriodAgg.orderCount existing + 1)
        (PeriodAgg.itemCount existing + itemCount)]> m.

Definition channelData (allOrders : list Order.t) : gmap string PeriodAgg.t :=
  foldl (periodStep orderChannel) ∅ allOrders.

(** What the server's time zone contributes to the period keys: the local
    year and month (0 to 11) of an instant, and the instant at which a local
    year starts, [new Date(year, 0, 1).getTime()]. *)
Module Zone.
Record t := mk {
  getFullYear : Z → Z;
  getMonth : Z → Z;
  yearStart : Z → Z;
}.
End Zone.

(** The [getWeekNumber] local to the action: weeks of the date's own
    year. *)
Definition plWeekNumber (zone : Zone.t) (date : Z) : Z :=
  let startOfYear := Zone.yearStart zone (Zone.getFullYear zone date) in
  let diffInMs := date - startOfYear in
  let diffInDays := JS.floorDiv diffInMs (1000 * 60 * 60 * 24) in
  JS.floorDiv diffInDays 7 + 1.

Definition getQuarter (zone : Zone.t) (date : Z) : Z :=
  JS.floorDiv (Zone.getMonth zone date) 3 + 1.

(** [String(n).padStart(2, '0')] is [pad2 n] for the non-negative numbers
    it is applied to. *)
Definition getPeriodKey (zone : Zone.t) (groupBy : string) (date : Z)
    : string :=
  let year := pretty (Zone.getFullYear zone date) in
  let month := year +:+ "-" +:+ pad2 (Zone.getMonth zone date + 1) in
  if bool_decide (groupBy = "day") then toISODate date
  else if bool_decide (groupBy = "week")
  then year +:+ "-W" +:+ pad2 (plWeekNumber zone date)
  else if bool_decide (groupBy = "month") then month
  else if bool_decide (groupBy = "quarter")
  then year +:+ "-Q" +:+ pretty (getQuarter zone date)
  else if bool_decide (groupBy = "year") then year
  else month.

Definition periodData (zone : Zone.t) (groupBy : string)
    (allOrders : list Order.t) : gmap string PeriodAgg.t :=
  foldl (periodStep (λ order,
                       getPeriodKey zone groupBy (Order.createdAtTime order)))
        ∅ allOrders.

Module PLPeriod.
(** A row of [plData]; the display label of the period is left out. *)
Record t := mk {
  period : string;
  grossSales : Qc;
  discounts : Qc;
  netSales : Qc;
  shippingRevenue : Qc;
  netRevenue : Qc;
  orderCount : Z;
  itemCount : Z;
}.
End PLPeriod.

Definition plRow (period : string) (data : PeriodAgg.t) : PLPeriod.t :=
  let netSales := (PeriodAgg.grossSales data - PeriodAgg.discounts data)%Qc in
  let netRevenue := (netSales + PeriodAgg.shippingRevenue data)%Qc in
  PLPeriod.mk period
    (round2 (PeriodAgg.grossSales data))
    (round2 (PeriodAgg.discounts data))
    (round2 netSales)
    (round2 (PeriodAgg.shippingRevenue data))
    (round2 netRevenue)
    (PeriodAgg.orderCount data)
    (PeriodAgg.itemCount data).

(** The part of a [channelReport] row that the channel page reads. *)
Definition channelReportRow (channel : string) (data : PeriodAgg.t)
    : ChannelRow.t :=
  let grossRevenue :=
    (PeriodAgg.grossSales data + PeriodAgg.shippingRevenue data)%Qc in
  ChannelRow.mk channel (round2 grossRevenue)
    (round2 (PeriodAgg.discounts data)) (PeriodAgg.orderCount data).

(** ** Profit and loss: the page (function PLReport) *)

Module PLSettings.
(** [shippingFlat] is [shippingCostMethod === "flat"]. *)
Record t := mk {
  productCostPercent : Qc;
  shippingFlat : bool;
  flatShippingCost : Qc;
  perItemShippingCost : Qc;
  transactionFeePercent : Qc;
  transactionFeeFlat : Qc;
  adSpend : Qc;
  opex : Qc;
}.
End PLSettings.

Module PLEnriched.
Record t := mk {
  grossRevenue : Qc;
  discounts : Qc;
  returns : Qc;
  netRevenue : Qc;
  cogs : Qc;
  grossProfit : Qc;
  grossProfitPercent : Qc;
  shippingCost : Qc;
  transactionFees : Qc;
  fulfillmentCost : Qc;
  cm2 : Qc;
  cm2Percent : Qc;
  adSpendPerPeriod : Qc;
  cm3 : Qc;
  cm3Percent : Qc;
  opexPerPeriod : Qc;
  netProfit : Qc;
  netProfitPercent : Qc;
}.
End PLEnriched.

(** [x / (plData.length || 1)] *)
Definition perPeriod (x : Qc) (periods : nat) : Qc :=
  (x / JS.ofZ (if bool_decide (periods = 0%nat) then 1
               else Z.of_nat periods))%Qc.

(** [netRevenue > 0 ? (x / netRevenue) * 100 : 0], the division standing
    behind its guard. *)
Definition percentOr0 (x netRevenue : Qc) : Qc :=
  if JS.gt0 netRevenue then (x / netRevenue * JS.dec 100 1)%Qc else 0%Qc.

(** The callback of [plData.map] on the page; [periods] is
    [plData.length]. *)
Definition plEnrich (s : PLSettings.t) (totalRefunds : Qc) (periods : nat)
    (m : PLPeriod.t) : PLEnriched.t :=
  let grossRevenue := (PLPeriod.grossSales m + PLPeriod.shippingRevenue m)%Qc in
  let returnsPerPeriod := perPeriod totalRefunds periods in
  let netRevenue :=
    (grossRevenue - PLPeriod.discounts m - returnsPerPeriod)%Qc in
  let cogs :=
    ((PLPeriod.grossSales m - PLPeriod.discounts m)
     * (PLSettings.productCostPercent s / JS.dec 100 1))%Qc in
  let grossProfit := (netRevenue - cogs)%Qc in
  let grossProfitPercent := percentOr0 grossProfit netRevenue in
  let shippingCost :=
    if PLSettings.shippingFlat s
    then (JS.ofZ (PLPeriod.orderCount m) * PLSettings.flatShippingCost s)%Qc
    else (JS.ofZ (PLPeriod.itemCount m)
          * PLSettings.perItemShippingCost s)%Qc in
  let transactionFees :=
    (netRevenue * (PLSettings.transactionFeePercent s / JS.dec 100 1)
     + JS.ofZ (PLPeriod.orderCount m) * PLSettings.transactionFeeFlat s)%Qc in
  let fulfillmentCost := (shippingCost + transactionFees)%Qc in
  let cm2 := (grossProfit - fulfillmentCost)%Qc in
  let cm2Percent := percentOr0 cm2 netRevenue in
  let adSpendPerPeriod := perPeriod (PLSettings.adSpend s) periods in
  let cm3 := (cm2 - adSpendPerPeriod)%Qc in
  let cm3Percent := percentOr0 cm3 netRevenue in
  let opexPerPeriod := perPeriod (PLSettings.opex s) periods in
  let netProfit := (cm3 - opexPerPeriod)%Qc in
  let netProfitPercent := percentOr0 netProfit netRevenue in
  PLEnriched.mk (round2 grossRevenue) (PLPeriod.discounts m)
    (round2 returnsPerPeriod) (round2 netRevenue) (round2 cogs)
    (round2 grossProfit) (round1 grossProfitPercent) (round2 shippingCost)
    (round2 transactionFees) (round2 fulfillmentCost) (round2 cm2)
    (round1 cm2Percent) (round2 adSpendPerPeriod) (round2 cm3)
    (round1 cm3Percent) (round2 opexPerPeriod) (round2 netProfit)
    (round1 netProfitPercent).

Definition plEnrichedData (s : PLSettings.t) (totalRefunds : Qc)
    (plData : list PLPeriod.t) : list PLEnriched.t :=
  plEnrich s totalRefunds (length plData) <$> plData.

(** [totals.returns] of the page: the sum of the rounded per-period
    returns. *)
Definition plTotalReturns (enrichedData : list PLEnriched.t) : Qc :=
  sumQc PLEnriched.returns enrichedData.

(** ** IEEE 754 binary64

    The numbers of JavaScript as they are: doubles, with the operations
    rounding to nearest, ties to even.  Used where a property depends on
    the digits the arithmetic produces. *)

Module F64.

Definition t : Type := spec_float.

Definition prec : Z := 53.
Definition emax : Z := 1024.

Definition zero : t := S754_zero false.

(** [x + y], [x - y], [x * y], [x / y] *)
Definition add : t → t → t := SFadd prec emax.
Definition sub : t → t → t := SFsub prec emax.
Definition mul : t → t → t := SFmul prec emax.
Definition div : t → t → t := SFdiv prec emax.

(** An integer as a number (exact below 2^53). *)
Definition ofZ (n : Z) : t := binary_normalize prec emax n 0 false.

(** The double nearest to the rational [n / d]: the value of a decimal
    literal and of [parseFloat] on a decimal string. *)
Definition dec (n : Z) (d : positive) : t :=
  match n with
  | Z0 => zero
  | Zpos p => div (S754_finite false p 0) (S754_finite false d 0)
  | Zneg p => div (S754_finite true p 0) (S754_finite false d 0)
  end.

Definition ofQc (q : Qc) : t := dec (Qnum q) (Qden q).

(** [x > y]; false when either is NaN. *)
Definition gtb (x y : t) : bool :=
  match SFcompare x y with
  | Some Gt => true
  | _ => false
  end.

Definition gt0 (x : t) : bool := gtb x zero.

(** The exact value of a finite double. *)
Definition toQ (x : t) : option Q :=
  match x with
  | S754_zero _ => Some 0%Q
  | S754_finite s m e =>
      let v := (inject_Z (Z.pos m) * Qpower 2 e)%Q in
      Some (if s then Qopp v else v)
  | S754_infinity _ | S754_nan => None
  end.

(** [Math.round(x)]: the integer nearest to [x], ties towards +infinity
    (the sign of a zero result is not kept). *)
Definition Math_round (x : t) : t :=
  match toQ x with
  | Some q => ofZ (Qfloor (q + (1 # 2))%Q)
  | None => x
  end.

(** [x.toFixed(1)] for [|x| < 1e21]: the decimal with one fractional digit
    nearest to [x], the larger one on a tie. *)
Definition toFixed1 (x : t) : string :=
  match toQ x with
  | Some q =>
      let n := Qfloor (Qabs q * 10 + (1 # 2))%Q in
      let digits := pretty (n `div` 10) +:+ "." +:+ pretty (n `mod` 10) in
      if Qlt_le_dec q 0 then "-" +:+ digits else digits
  | None =>
      match x with
      | S754_infinity false => "Infinity"
      | S754_infinity true => "-Infinity"
      | _ => "NaN"
      end
  end.

End F64.

(** ** The dashboard over doubles

    The accumulation loop, the weekly chart, the totals and the page
    metrics once more, with every number a double.  The loop's daily,
    monthly and quarterly maps are filled like the weekly one and are read
    by other charts only; they are left out here. *)

Module Binary64.

(** [parseFloat(x?.shopMoney?.amount || "0")] on a decimal amount. *)
Definition amount (a : option Qc) : F64.t := F64.ofQc (default 0%Qc a).

(** [Math.round(x * 100) / 100] *)
Definition round2 (x : F64.t) : F64.t :=
  F64.div (F64.Math_round (F64.mul x (F64.ofZ 100))) (F64.ofZ 100).

Module Figures.
Record t := mk {
  grossRevenue : F64.t;
  discounts : F64.t;
  shippingRevenue : F64.t;
  itemCount : Z;
}.
Definition zero : t := mk F64.zero F64.zero F64.zero 0.
End Figures.

(** The body of [for (const lineItemEdge of order.lineItems.edges)]. *)
Definition lineItemStep (form : Form.t) (order : Order.t)
    (acc : Figures.t) (li : LineItem.t) : Figures.t :=
  let orderSubtotal := amount (Order.subtotalPriceSet order) in
  let orderTotalDiscount := amount (Order.totalDiscountsSet order) in
  let lineItemCount := length (Order.lineItems order) in
  if matchesProduct form li && matchesType form li then
    let lineItemOriginalTotal := amount (LineItem.originalTotalSet li) in
    let lineItemDiscount := amount (LineItem.totalDiscountSet li) in
    let discounts :=
      if F64.gt0 lineItemDiscount
      then F64.add (Figures.discounts acc) lineItemDiscount
      else if F64.gt0 orderTotalDiscount && F64.gt0 orderSubtotal then
        if bool_decide (lineItemCount = 1%nat)
        then F64.add (Figures.discounts acc) orderTotalDiscount
        else
          let lineItemShare :=
            F64.div lineItemOriginalTotal
              (F64.add orderSubtotal orderTotalDiscount) in
          F64.add (Figures.discounts acc)
            (F64.mul orderTotalDiscount lineItemShare)
      else Figures.discounts acc in
    Figures.mk
      (F64.add (Figures.grossRevenue acc) lineItemOriginalTotal)
      discounts
      (Figures.shippingRevenue acc)
      (Figures.itemCount acc + LineItem.quantity li)
  else acc.

Definition orderFigures (form : Form.t) (order : Order.t) : Figures.t :=
  if hasProductFilter form || hasProductTypeFilter form then
    foldl (lineItemStep form order) Figures.zero (Order.lineItems order)
  else
    let subtotal := amount (Order.subtotalPriceSet order) in
    let discounts := amount (Order.totalDiscountsSet order) in
    Figures.mk (F64.add subtotal discounts) discounts
      (amount (Order.totalShippingPriceSet order))
      (sumQuantity (Order.lineItems order)).

Module Bucket.
Record t := mk {
  grossRevenue : F64.t;
  discounts : F64.t;
  orderCount : Z;
  shippingRevenue : F64.t;
  itemCount : Z;
}.
Definition zero : t := mk F64.zero F64.zero 0 F64.zero 0.

Definition add (existing : t) (f : Figures.t) : t :=
  mk (F64.add (grossRevenue existing) (Figures.grossRevenue f))
     (F64.add (discounts existing) (Figures.discounts f))
     (orderCount existing + 1)
     (F64.add (shippingRevenue existing) (Figures.shippingRevenue f))
     (itemCount existing + Figures.itemCount f).
End Bucket.

Module Dash.
Record t := mk {
  weeklyData : gmap Z Bucket.t;
  totalShippingRevenue : F64.t;
  totalItemCount : Z;
}.
End Dash.

(** One iteration of [for (const edge of allOrders)]. *)
Definition accumulate (env : Env.t) (form : Form.t)
    (st : Dash.t) (order : Order.t) : Dash.t :=
  let weekNum := getWeekNumber env (Order.createdAtTime order) in
  let f := orderFigures form order in
  if F64.gt0 (Figures.grossRevenue f) || F64.gt0 (Figures.discounts f) then
    let existingWeek :=
      default Bucket.zero (Dash.weeklyData st !! weekNum) in
    Dash.mk
      (<[weekNum := Bucket.add existingWeek f]> (Dash.weeklyData st))
      (F64.add (Dash.totalShippingRevenue st) (Figures.shippingRevenue f))
      (Dash.totalItemCount st + Figures.itemCount f)
  else st.

(** [for (let i = 1; i <= maxWeek; i++) weeklyData.set(i, zero)] *)
Definition seedWeeks (n : Z) : gmap Z Bucket.t :=
  foldl (λ m i, <[i := Bucket.zero]> m) ∅ (seqZ 1 n).

Definition initial (env : Env.t) : Dash.t :=
  Dash.mk (seedWeeks (maxWeek env)) F64.zero 0.

Definition aggregate (env : Env.t) (form : Form.t)
    (allOrders : list Order.t) : Dash.t :=
  foldl (accumulate env form) (initial env) (filterChannel form allOrders).

Module ChartRow.
Record t := mk {
  week : Z;
  weekLabel : string;
  grossRevenue : F64.t;
  discounts : F64.t;
  netRevenue : F64.t;
  grossProfit : F64.t;
  cm2 : F64.t;
  orderCount : Z;
  shippingRevenue : F64.t;
  itemCount : Z;
}.
End ChartRow.

Definition chartRow (week : Z) (data : Bucket.t) : ChartRow.t :=
  let costPercent := F64.ofZ 40 in
  let shippingCostPerOrder := F64.ofZ 5 in
  let txFeePercent := F64.dec 29 10 in
  let txFeeFlat := F64.dec 30 100 in
  let orderCount := F64.ofZ (Bucket.orderCount data) in
  let netRev :=
    F64.add (F64.sub (Bucket.grossRevenue data) (Bucket.discounts data))
      (Bucket.shippingRevenue data) in
  let cogs :=
    F64.mul (F64.sub (Bucket.grossRevenue data) (Bucket.discounts data))
      (F64.div costPercent (F64.ofZ 100)) in
  let gp := F64.sub netRev cogs in
  let fulfill :=
    F64.add
      (F64.add (F64.mul orderCount shippingCostPerOrder)
         (F64.div (F64.mul netRev txFeePercent) (F64.ofZ 100)))
      (F64.mul orderCount txFeeFlat) in
  ChartRow.mk week ("W" +:+ pretty week)
    (round2 (Bucket.grossRevenue data))
    (round2 (Bucket.discounts data))
    (round2 netRev)
    (round2 gp)
    (round2 (F64.sub gp fulfill))
    (Bucket.orderCount data)
    (round2 (Bucket.shippingRevenue data))
    (Bucket.itemCount data).

Definition weekLe (a b : ChartRow.t) : Prop :=
  ChartRow.week a ≤ ChartRow.week b.

#[global] Instance weekLe_dec : RelDecision weekLe :=
  λ a b, decide (ChartRow.week a ≤ ChartRow.week b).

Definition chartData (st : Dash.t) : list ChartRow.t :=
  merge_sort weekLe (uncurry chartRow <$> map_to_list (Dash.weeklyData st)).

(** [l.reduce((sum, w) => sum + f(w), 0)] *)
Definition sum {A} (f : A → F64.t) (l : list A) : F64.t :=
  foldl (λ sum w, F64.add sum (f w)) F64.zero l.

Module DashboardData.
Record t := mk {
  chartData : list ChartRow.t;
  totalRevenue : F64.t;
  totalDiscounts : F64.t;
  totalOrders : Z;
  totalShippingRevenue : F64.t;
  totalItemCount : Z;
}.
End DashboardData.

Definition dashboard (env : Env.t) (form : Form.t)
    (fetched : list Order.t) : DashboardData.t :=
  let st := aggregate env form fetched in
  let chart := chartData st in
  let totalRevenue := sum ChartRow.grossRevenue chart in
  let totalDiscounts := sum ChartRow.discounts chart in
  let totalOrders := sumZ ChartRow.orderCount chart in
  DashboardData.mk chart
    (round2 totalRevenue)
    (round2 totalDiscounts)
    totalOrders
    (round2 (Dash.totalShippingRevenue st))
    (Dash.totalItemCount st).

(** [dashboardData?.x || 0] on a number that came through JSON, where NaN
    and the infinities travel as null. *)
Definition orZero (x : F64.t) : F64.t :=
  match x with
  | S754_finite _ _ _ => x
  | _ => F64.zero
  end.

(** [netRevenue > 0 ? (x / netRevenue) * 100 : 0] *)
Definition percentOf (x netRevenue : F64.t) : F64.t :=
  if F64.gt0 netRevenue
  then F64.mul (F64.div x netRevenue) (F64.ofZ 100)
  else F64.zero.

Module Metrics.
Record t := mk {
  netRevenue : F64.t;
  productCost : F64.t;
  shippingCost : F64.t;
  transactionFees : F64.t;
  fulfillmentCost : F64.t;
  grossProfit : F64.t;
  cm2 : F64.t;
  cm3 : F64.t;
  grossProfitPercent : F64.t;
  cm2Percent : F64.t;
  cm3Percent : F64.t;
}.
End Metrics.

(** "Calculated metrics - using default cost assumptions" of the page. *)
Definition metrics (d : DashboardData.t) : Metrics.t :=
  let totalRevenue := orZero (DashboardData.totalRevenue d) in
  let totalDiscounts := orZero (DashboardData.totalDiscounts d) in
  let totalOrders := F64.ofZ (DashboardData.totalOrders d) in
  let totalShippingRevenue := orZero (DashboardData.totalShippingRevenue d) in
  let netRevenue :=
    F64.add (F64.sub totalRevenue totalDiscounts) totalShippingRevenue in
  let productCostPercent := F64.ofZ 40 in
  let productCost :=
    F64.mul (F64.sub totalRevenue totalDiscounts)
      (F64.div productCostPercent (F64.ofZ 100)) in
  let shippingCostPerOrder := F64.ofZ 5 in
  let shippingCost := F64.mul totalOrders shippingCostPerOrder in
  let transactionFeePercent := F64.dec 29 10 in
  let transactionFeeFlat := F64.dec 30 100 in
  let transactionFees :=
    F64.add
      (F64.mul netRevenue (F64.div transactionFeePercent (F64.ofZ 100)))
      (F64.mul totalOrders transactionFeeFlat) in
  let fulfillmentCost := F64.add shippingCost transactionFees in
  let grossProfit := F64.sub netRevenue productCost in
  let cm2 := F64.sub grossProfit fulfillmentCost in
  let adSpend := F64.zero in
  let cm3 := F64.sub cm2 adSpend in
  Metrics.mk netRevenue productCost shippingCost transactionFees
    fulfillmentCost grossProfit cm2 cm3
    (percentOf grossProfit netRevenue)
    (percentOf cm2 netRevenue)
    (percentOf cm3 netRevenue).

(** Operating expenses of the dashboard page; [expense.amount] is the
    double read from the expense form. *)
Definition getMonthlyEquivalent (expense : Expense.t) : F64.t :=
  let frequency := Expense.frequency expense in
  let amount := F64.ofQc (Expense.amount expense) in
  if bool_decide (frequency = "one-time") then amount
  else if bool_decide (frequency = "monthly") then amount
  else if bool_decide (frequency = "quarterly")
  then F64.div amount (F64.ofZ 3)
  else if bool_decide (frequency = "annual")
  then F64.div amount (F64.ofZ 12)
  else amount.

Definition totalMonthlyExpenses (expenses : list Expense.t) : F64.t :=
  sum getMonthlyEquivalent expenses.

Definition proratedOpex (expenses : list Expense.t) (startTime endTime : Z)
    : F64.t :=
  let dailyOpex := F64.div (totalMonthlyExpenses expenses) (F64.ofZ 30) in
  F64.mul dailyOpex (F64.ofZ (daysDiff startTime endTime)).

End Binary64.

(** ** Concrete inputs used in the examples below *)

(** A server in UTC on 2025-06-01. *)
Definition utcJune2025 : Env.t := Env.mk 1735689600000 1748736000000 2025.

(** A server in UTC on 2025-03-05, which lies in week 10. *)
Definition utcWeek10 : Env.t := Env.mk 1735689600000 1741132800000 2025.

Definition noFilter : Form.t := Form.mk None None None.

Definition item (productId productType : string) (qty : Z)
    (original discount : Qc) : LineItem.t :=
  LineItem.mk (Some (Product.mk productId "Widget" productType [] "Acme"))
    qty (Some original) (Some discount) (Some "SKU-1") (Some "Widget") None.

(** The order of the end-to-end scenario: subtotal $100, order discount $10,
    shipping $5, paid through the shop's own processor on 2025-03-14. *)
Definition scenarioOrder : Order.t :=
  Order.mk "gid://shopify/Order/1" (Some "#1001")
    "2025-03-14T10:00:00Z" 1741946400000
    (Some "gid://shopify/Customer/7") None
    (Some (JS.dec 105 1)) (Some (JS.dec 10 1)) (Some (JS.dec 100 1))
    (Some (JS.dec 5 1)) ["shopify_payments"]
    [item "gid://shopify/Product/1" "Gadgets" 1 (JS.dec 110 1) 0%Qc].

Definition defaultShippingSettings : ShippingSettings.t :=
  ShippingSettings.mk flat (JS.dec 5 1) (JS.dec 2 1).

Definition defaultTransactionFeeSettings : TransactionFeeSettings.t :=
  TransactionFeeSettings.mk "us-basic"
    (GatewayFee.mk (JS.dec 29 10) (JS.dec 30 100) true)
    (GatewayFee.mk (JS.dec 299 100) (JS.dec 49 100) true)
    (GatewayFee.mk (JS.dec 29 10) (JS.dec 30 100) false)
    (JS.dec 2 1) true [].

(** A zero-priced order that only carries $7 of shipping revenue. *)
Definition shippingOnlyOrder : Order.t :=
  Order.mk "gid://shopify/Order/2" (Some "#1002")
    "2025-02-03T15:00:00Z" 1738594800000
    None None
    (Some (JS.dec 7 1)) (Some 0%Qc) (Some 0%Qc)
    (Some (JS.dec 7 1)) ["shopify_payments"]
    [item "gid://shopify/Product/2" "Samples" 1 0%Qc 0%Qc].

(** A fully discounted order row: $10 of goods, $10 discount, no shipping,
    paid through a gateway the settings do not know. *)
Definition freeOrderRow : OrderRow.t :=
  OrderRow.mk "gid://shopify/Order/3" (Some "#1003") "2025-02-03T15:00:00Z"
    "Online Store" (JS.dec 10 1) (JS.dec 10 1) 0%Qc 0%Qc 0%Qc 1
    (Some "Cash on Delivery (COD)") None.

Definition freeChannelRow : ChannelRow.t :=
  ChannelRow.mk "Online Store" (JS.dec 10 1) (JS.dec 10 1) 1.

(** The default fee settings plus one merchant-added gateway. *)
Definition klarnaSettings : TransactionFeeSettings.t :=
  TransactionFeeSettings.mk "us-basic"
    (GatewayFee.mk (JS.dec 29 10) (JS.dec 30 100) true)
    (GatewayFee.mk (JS.dec 299 100) (JS.dec 49 100) true)
    (GatewayFee.mk (JS.dec 29 10) (JS.dec 30 100) false)
    (JS.dec 2 1) false
    [AdditionalGateway.mk "klarna" "Klarna" "klarna"
       (JS.dec 329 100) (JS.dec 30 100)].

(** A two-item order: $60 and $40 of merchandise, a $10 order-level discount
    (subtotal $90), no line-level discounts. *)
Definition twoItemOrder : Order.t :=
  Order.mk "gid://shopify/Order/4" (Some "#1004")
    "2025-01-25T12:00:00Z" 1737806400000
    (Some "gid://shopify/Customer/9") None
    (Some (JS.dec 90 1)) (Some (JS.dec 10 1)) (Some (JS.dec 90 1))
    (Some 0%Qc) ["paypal"]
    [item "gid://shopify/Product/1" "Gadgets" 1 (JS.dec 60 1) 0%Qc;
     item "gid://shopify/Product/2" "Gadgets" 2 (JS.dec 40 1) 0%Qc].

Definition gadgetsFilter : Form.t := Form.mk None (Some "Gadgets") None.

(** An order with three line items of one product. *)
Definition tripleOrder : Order.t :=
  Order.mk "gid://shopify/Order/5" (Some "#1005")
    "2025-01-10T09:30:00Z" 1736501400000
    (Some "gid://shopify/Customer/9") None
    (Some (JS.dec 60 1)) (Some 0%Qc) (Some (JS.dec 60 1))
    (Some 0%Qc) ["shopify_payments"]
    [item "gid://shopify/Product/1" "Gadgets" 1 (JS.dec 10 1) 0%Qc;
     item "gid://shopify/Product/1" "Gadgets" 2 (JS.dec 20 1) 0%Qc;
     item "gid://shopify/Product/1" "Gadgets" 3 (JS.dec 30 1) 0%Qc].

Definition order1007 : OrderRow.t :=
  OrderRow.mk "gid://shopify/Order/1007" (Some "#1007")
    "2025-03-14T10:00:00Z" "Online Store"
    (JS.dec 110 1) (JS.dec 10 1) (JS.dec 100 1) (JS.dec 5 1) (JS.dec 105 1)
    2 (Some "shopify_payments") None.

Definition entry1007 : ShippingCostEntry.t :=
  ShippingCostEntry.mk "1007" "1007" (JS.dec 850 100) "csv"
    "2025-03-20T08:00:00.000Z".

Definition entry1008 : ShippingCostEntry.t :=
  ShippingCostEntry.mk "#1008" "#1008" (JS.dec 1225 100) "csv"
    "2025-03-20T08:00:00.000Z".

(** A second order of the scenario's customer, placed later on the same day,
    without a discount. *)
Definition sameDayOrder : Order.t :=
  Order.mk "gid://shopify/Order/8" (Some "#1008")
    "2025-03-14T18:30:00Z" 1741977000000
    (Some "gid://shopify/Customer/7") None
    (Some (JS.dec 20 1)) (Some 0%Qc) (Some (JS.dec 20 1))
    (Some 0%Qc) ["shopify_payments"]
    [item "gid://shopify/Product/1" "Gadgets" 1 (JS.dec 20 1) 0%Qc].

(** Two expenses entered through the expense form: a warehouse rent of
    $1200 a year and a monthly fulfillment fee of $50 filed under the form's
    "shipping" category. *)
Definition rentExpense : Expense.t :=
  Expense.mk "exp-1" "Warehouse" "rent" (JS.dec 1200 1) "annual"
    "2025-01-01" None.

Definition fulfillmentExpense : Expense.t :=
  Expense.mk "exp-2" "3PL" "shipping" (JS.dec 50 1) "monthly"
    "2025-01-01" None.

(** Three items of $10 each under an order-level discount of $7 (subtotal
    $23), no line-level discounts. *)
Definition threeTensOrder : Order.t :=
  Order.mk "gid://shopify/Order/6" (Some "#1006")
    "2025-01-27T12:00:00Z" 1737979200000
    (Some "gid://shopify/Customer/9") None
    (Some (JS.dec 23 1)) (Some (JS.dec 7 1)) (Some (JS.dec 23 1))
    (Some 0%Qc) ["shopify_payments"]
    [item "gid://shopify/Product/1" "Gadgets" 1 (JS.dec 10 1) 0%Qc;
     item "gid://shopify/Product/2" "Gadgets" 1 (JS.dec 10 1) 0%Qc;
     item "gid://shopify/Product/3" "Gadgets" 1 (JS.dec 10 1) 0%Qc].

(** A subscription of $31 a month. *)
Definition subscriptionExpense : Expense.t :=
  Expense.mk "exp-3" "Helpdesk" "software" (JS.dec 31 1) "monthly"
    "2025-01-01" None.


(** The row of the scenario order, paid through PayPal. *)
Definition paypalOrderRow : OrderRow.t :=
  OrderRow.mk "gid://shopify/Order/1009" (Some "#1009")
    "2025-03-14T10:00:00Z" "Online Store"
    (JS.dec 110 1) (JS.dec 10 1) (JS.dec 100 1) (JS.dec 5 1) (JS.dec 105 1)
    1 (Some "paypal") None.

(** A second upload for order 1007, keyed with the '#'. *)
Definition entryHash1007 : ShippingCostEntry.t :=
  ShippingCostEntry.mk "#1007" "#1007" (JS.dec 7 1) "csv"
    "2025-03-21T08:00:00.000Z".

(** A guest order (no customer) with the given id and total price. *)
Definition guestOrder (id : string) (total : Qc) : Order.t :=
  Order.mk id None "2025-02-03T15:00:00Z" 1738594800000
    None None (Some total) (Some 0%Qc) (Some total) (Some 0%Qc)
    ["shopify_payments"]
    [item "gid://shopify/Product/1" "Gadgets" 1 total 0%Qc].

Definition twoGuests : list Order.t :=
  [guestOrder "gid://shopify/Order/11" (JS.dec 30 1);
   guestOrder "gid://shopify/Order/12" (JS.dec 30 1)].

(** * Properties *)

(** ** Arithmetic helpers *)

Ltac qc_compute := apply Qc_is_canon; vm_compute; reflexivity.

Lemma gt0_spec (x : Qc) : JS.gt0 x = true ↔ (0 < x)%Qc.
Proof. unfold JS.gt0. apply bool_decide_eq_true. Qed.

Lemma gt0_zero : JS.gt0 0%Qc = false.
Proof. reflexivity. Qed.

Lemma round2_zero : round2 0%Qc = 0%Qc.
Proof. qc_compute. Qed.

Lemma percentOf_zero (x : Qc) : percentOf x 0%Qc = JS.Finite 0%Qc.
Proof. unfold percentOf. by rewrite gt0_zero. Qed.

(** A percentage of net revenue is always a finite number: the division is
    only evaluated under the guard [netRevenue > 0]. *)
Lemma percentOf_finite (x n : Qc) : percentOf x n ≠ JS.NotFinite.
Proof.
  unfold percentOf. destruct (JS.gt0 n) eqn:Hn; [|done].
  apply gt0_spec in Hn. unfold JS.div.
  rewrite bool_decide_eq_false_2; [done|].
  intros ->. by apply (irreflexivity Qclt 0%Qc).
Qed.

Lemma filter_all {A} (P : A → Prop) `{!∀ x, Decision (P x)} (l : list A) :
  Forall P l → filter P l = l.
Proof.
  induction 1 as [|x l Hx _ IH]; [done|].
  by rewrite filter_cons, decide_True, IH.
Qed.

(** ** Zero-value orders are dropped by the accumulation guard *)

Lemma accumulate_guard_false env form st order :
  JS.gt0 (Figures.grossRevenue (orderFigures form order)) = false →
  JS.gt0 (Figures.discounts (orderFigures form order)) = false →
  accumulate env form st order = st.
Proof. intros Hg Hd. unfold accumulate. by rewrite Hg, Hd. Qed.

Lemma foldl_accumulate_skip env form st l1 l2 order :
  accumulate env form (foldl (accumulate env form) st l1) order
  = foldl (accumulate env form) st l1 →
  foldl (accumulate env form) st (l1 ++ order :: l2)
  = foldl (accumulate env form) st (l1 ++ l2).
Proof. intros H. rewrite !foldl_app. simpl. by rewrite H. Qed.

(** With a product filter that no line item of the order matches, the
    figures of the order are all zero. *)
Lemma orderFigures_no_match form order :
  hasProductFilter form || hasProductTypeFilter form = true →
  Forall (λ li, matchesProduct form li && matchesType form li = false)
         (Order.lineItems order) →
  orderFigures form order = Figures.zero.
Proof.
  intros Hf Hall. unfold orderFigures. rewrite Hf.
  generalize Figures.zero.
  induction Hall as [|li l Hli _ IH]; intros acc; [done|].
  simpl. unfold lineItemStep at 2. rewrite Hli. apply IH.
Qed.

(** Without a filter, an order with zero subtotal and zero discount has zero
    gross revenue whatever shipping it carries. *)
Lemma orderFigures_shipping_only form order :
  hasProductFilter form || hasProductTypeFilter form = false →
  amount (Order.subtotalPriceSet order) = 0%Qc →
  amount (Order.totalDiscountsSet order) = 0%Qc →
  Figures.grossRevenue (orderFigures form order) = 0%Qc
  ∧ Figures.discounts (orderFigures form order) = 0%Qc
  ∧ Figures.shippingRevenue (orderFigures form order)
    = amount (Order.totalShippingPriceSet order).
Proof.
  intros Hf Hs Hd. unfold orderFigures. rewrite Hf. simpl.
  rewrite Hs, Hd. split; [qc_compute|done].
Qed.

Lemma filterChannel_app form l1 l2 :
  filterChannel form (l1 ++ l2)
  = filterChannel form l1 ++ filterChannel form l2.
Proof.
  unfold filterChannel. destruct (Form.channel form) as [c|]; [|done].
  destruct (JS.truthyStr c && _); [|done]. apply filter_app.
Qed.

Lemma filterChannel_cons form order l :
  filterChannel form (order :: l) = order :: filterChannel form l
  ∨ filterChannel form (order :: l) = filterChannel form l.
Proof.
  unfold filterChannel. destruct (Form.channel form) as [c|]; [|by left].
  destruct (JS.truthyStr c && _); [|by left].
  rewrite filter_cons. destruct (decide (orderChannel order = c)); auto.
Qed.

(** C10. An order whose computed gross revenue and discounts are both 0 is
    skipped by the dashboard loop: the weekly, daily, monthly and quarterly
    accumulators and the running shipping-revenue and item-count totals are
    all left as they were, so the aggregation of an order feed is the one of
    the feed without that order. *)
Theorem zero_value_order_dropped env form st order l1 l2 :
  Figures.grossRevenue (orderFigures form order) = 0%Qc →
  Figures.discounts (orderFigures form order) = 0%Qc →
  accumulate env form st order = st
  ∧ aggregate env form (l1 ++ order :: l2) = aggregate env form (l1 ++ l2).
Proof.
  intros Hg Hd.
  assert (∀ s, accumulate env form s order = s) as Hskip.
  { intros s. apply accumulate_guard_false; rewrite ?Hg, ?Hd; apply gt0_zero. }
  split; [apply Hskip|]. unfold aggregate.
  rewrite !filterChannel_app.
  destruct (filterChannel_cons form order l2) as [-> | ->]; [|done].
  apply foldl_accumulate_skip, Hskip.
Qed.

Lemma zero_value_order_dropped_witness :
  Figures.grossRevenue (orderFigures noFilter shippingOnlyOrder) = 0%Qc
  ∧ Figures.discounts (orderFigures noFilter shippingOnlyOrder) = 0%Qc
  ∧ accumulate utcJune2025 noFilter (initial utcJune2025) shippingOnlyOrder
    = initial utcJune2025
  ∧ aggregate utcJune2025 noFilter ([scenarioOrder] ++ shippingOnlyOrder :: [])
    = aggregate utcJune2025 noFilter ([scenarioOrder] ++ []).
Proof.
  assert (Figures.grossRevenue (orderFigures noFilter shippingOnlyOrder)
          = 0%Qc) as Hg by qc_compute.
  assert (Figures.discounts (orderFigures noFilter shippingOnlyOrder)
          = 0%Qc) as Hd by qc_compute.
  split; [exact Hg|]. split; [exact Hd|].
  exact (zero_value_order_dropped utcJune2025 noFilter (initial utcJune2025)
           shippingOnlyOrder [scenarioOrder] [] Hg Hd).
Defined.

(** The dropped order's $7 of shipping and its one item are not in the
    totals of the run, although the order is in the feed. *)
Example shipping_only_order_not_in_totals :
  let d := dashboard utcJune2025 noFilter [scenarioOrder; shippingOnlyOrder] in
  DashboardData.totalOrders d = 1
  ∧ DashboardData.totalItemCount d = 1
  ∧ DashboardData.totalShippingRevenue d = JS.dec 5 1.
Proof. repeat split; [vm_compute; reflexivity..|qc_compute]. Qed.

(** ** Percent-of-net-revenue fields *)

(** C7. In the per-order rows (both versions of the order report), the
    per-channel rows, the totals row and the dashboard totals, a bucket whose
    net revenue is 0 has every percent-of-net-revenue field exactly 0: the
    percentage is a finite number, never NaN or an infinity. *)
Theorem zero_net_revenue_margin_is_zero :
  (∀ ss sd ts o,
     Enriched.netRevenue (enrichOrder ss sd ts o) = 0%Qc →
     Enriched.margin (enrichOrder ss sd ts o) = JS.Finite 0%Qc)
  ∧ (∀ o,
       Enriched.netRevenue (enrichOrderDefault o) = 0%Qc →
       Enriched.margin (enrichOrderDefault o) = JS.Finite 0%Qc)
  ∧ (∀ c,
       Enriched.netRevenue (enrichChannel c) = 0%Qc →
       Enriched.margin (enrichChannel c) = JS.Finite 0%Qc)
  ∧ (∀ t,
       Totals.netRevenue t = 0%Qc → totalMargin t = JS.Finite 0%Qc)
  ∧ (∀ d,
       Metrics.netRevenue (metrics d) = 0%Qc →
       Metrics.grossProfitPercent (metrics d) = JS.Finite 0%Qc
       ∧ Metrics.cm2Percent (metrics d) = JS.Finite 0%Qc
       ∧ Metrics.cm3Percent (metrics d) = JS.Finite 0%Qc).
Proof.
  split; [|split; [|split; [|split]]].
  - intros ss sd ts o. unfold enrichOrder.
    destruct (getShippingCost ss sd o) as [cost src]. simpl.
    intros ->. apply percentOf_zero.
  - intros o. unfold enrichOrderDefault. simpl.
    intros ->. apply percentOf_zero.
  - intros c. unfold enrichChannel. simpl.
    intros ->. apply percentOf_zero.
  - intros t. unfold totalMargin. intros ->. apply percentOf_zero.
  - intros d. unfold metrics.
    cbn [Metrics.netRevenue Metrics.grossProfitPercent Metrics.cm2Percent
         Metrics.cm3Percent].
    intros ->. repeat split; apply percentOf_zero.
Qed.

Lemma zero_net_revenue_margin_is_zero_witness :
  Enriched.netRevenue
    (enrichOrder defaultShippingSettings [] defaultTransactionFeeSettings
       freeOrderRow) = 0%Qc
  ∧ Enriched.margin
      (enrichOrder defaultShippingSettings [] defaultTransactionFeeSettings
         freeOrderRow) = JS.Finite 0%Qc
  ∧ Enriched.margin (enrichOrderDefault freeOrderRow) = JS.Finite 0%Qc
  ∧ Enriched.margin (enrichChannel freeChannelRow) = JS.Finite 0%Qc
  ∧ totalMargin (totals [enrichChannel freeChannelRow]) = JS.Finite 0%Qc.
Proof.
  destruct zero_net_revenue_margin_is_zero as (Ho & Hd & Hc & Ht & _).
  assert (Enriched.netRevenue
            (enrichOrder defaultShippingSettings []
               defaultTransactionFeeSettings freeOrderRow) = 0%Qc) as H0
    by qc_compute.
  split; [exact H0|].
  split; [exact (Ho _ _ _ _ H0)|].
  split; [apply Hd; qc_compute|].
  split; [apply Hc; qc_compute|].
  apply Ht; qc_compute.
Defined.

(** ** Transaction fees *)

(** C5. When the lower-cased gateway name contains none of "paypal",
    "stripe", "shopify", "shop_pay" nor the API name of any merchant-added
    gateway, the fee is the Shopify Payments rate with no surcharge:
    netRevenue * rate / 100 + fixedFee.  [getTransactionFees] is a total
    function, so there is no input on which it fails. *)
Theorem unresolved_gateway_uses_default_rate s netRevenue gateway :
  let gatewayLower := JS.toLowerCase (orStr gateway EmptyString) in
  JS.includes gatewayLower "paypal" = false →
  JS.includes gatewayLower "stripe" = false →
  JS.includes gatewayLower "shopify" = false →
  JS.includes gatewayLower "shop_pay" = false →
  Forall (λ g, JS.includes gatewayLower
                 (JS.toLowerCase (AdditionalGateway.apiName g)) = false)
         (TransactionFeeSettings.additionalGateways s) →
  getTransactionFees s netRevenue gateway
  = (netRevenue
     * GatewayFee.rate (TransactionFeeSettings.shopifyPayments s)
     / JS.dec 100 1
     + GatewayFee.fixedFee (TransactionFeeSettings.shopifyPayments s))%Qc.
Proof.
  intros g Hpaypal Hstripe Hshopify Hshoppay Hadd.
  unfold getTransactionFees. fold g.
  rewrite Hpaypal, Hstripe, Hshopify, Hshoppay. simpl.
  assert (List.find
            (λ a, JS.includes g (JS.toLowerCase (AdditionalGateway.apiName a)))
            (TransactionFeeSettings.additionalGateways s) = None) as ->.
  { induction Hadd as [|a l Ha _ IH]; [done|]. simpl. by rewrite Ha. }
  unfold Qcdiv. ring.
Qed.

Lemma unresolved_gateway_uses_default_rate_witness :
  getTransactionFees klarnaSettings (JS.dec 105 1)
    (Some "Cash on Delivery (COD)")
  = (JS.dec 105 1 * JS.dec 29 10 / JS.dec 100 1 + JS.dec 30 100)%Qc.
Proof.
  apply (unresolved_gateway_uses_default_rate klarnaSettings
           (JS.dec 105 1) (Some "Cash on Delivery (COD)"));
    [reflexivity|reflexivity|reflexivity|reflexivity|].
  apply Forall_cons_2; [reflexivity|apply Forall_nil_2].
Defined.

(** The same order paid through the merchant-added gateway is charged that
    gateway's rate plus the surcharge, so the hypotheses above matter. *)
Example klarna_gateway_is_resolved :
  getTransactionFees klarnaSettings (JS.dec 105 1) (Some "Klarna")
  = (JS.dec 105 1 * (JS.dec 329 100 + JS.dec 2 1) / JS.dec 100 1
     + JS.dec 30 100)%Qc.
Proof. qc_compute. Qed.

(** ** Default cost assumptions *)

Ltac qc_neq :=
  let H := fresh in
  intros H; apply (f_equal this) in H; vm_compute in H; discriminate H.





(** On the order page the initial fee settings have PayPal enabled at
    2.99% + $0.49: the scenario order paid through PayPal is charged
    105 * 2.99% + 0.49 in fees, not the 105 * 2.9% + 0.30 of the default
    rate. *)
Example paypal_order_under_initial_settings :
  let e :=
    enrichOrder defaultShippingSettings [] defaultTransactionFeeSettings
      paypalOrderRow in
  Enriched.netRevenue e = JS.dec 105 1
  ∧ Enriched.transactionFees e
    = (JS.dec 105 1 * JS.dec 299 10000 + JS.dec 49 100)%Qc
  ∧ Enriched.transactionFees e
    ≠ (JS.dec 105 1 * JS.dec 29 1000 + JS.dec 30 100)%Qc.
Proof.
  split; [qc_compute|]. split; [qc_compute|]. qc_neq.
Qed.

(** ** Discount proration *)

Lemma foldl_sumQc {A} (f : A → Qc) (l : list A) (a : Qc) :
  foldl (λ sum w, sum + f w)%Qc a l = (a + sumQc f l)%Qc.
Proof.
  unfold sumQc. revert a.
  induction l as [|x l IH]; intros a; simpl; [ring|].
  rewrite IH, (IH (0 + f x)%Qc). ring.
Qed.

Lemma sumQc_nil {A} (f : A → Qc) : sumQc f [] = 0%Qc.
Proof. reflexivity. Qed.

Lemma sumQc_cons {A} (f : A → Qc) (x : A) (l : list A) :
  sumQc f (x :: l) = (f x + sumQc f l)%Qc.
Proof. unfold sumQc at 1. simpl. rewrite foldl_sumQc. ring. Qed.

Lemma sumQc_ext {A} (f g : A → Qc) (l : list A) :
  (∀ x, x ∈ l → f x = g x) → sumQc f l = sumQc g l.
Proof.
  induction l as [|x l IH]; intros H; [done|].
  rewrite !sumQc_cons, IH, (H x); [done|by left|].
  intros y Hy. apply H. by right.
Qed.

Lemma sumQc_scale {A} (f : A → Qc) (c d : Qc) (l : list A) :
  sumQc (λ x, c * (f x / d))%Qc l = (c * (sumQc f l / d))%Qc.
Proof.
  induction l as [|x l IH].
  - rewrite !sumQc_nil. unfold Qcdiv. ring.
  - rewrite !sumQc_cons, IH. unfold Qcdiv. ring.
Qed.

(** What the allocation is when the item has no discount of its own and the
    order has a positive discount and subtotal. *)
Lemma allocatedDiscount_prorated (S D : Qc) (n : nat) (li : LineItem.t) :
  (0 < D)%Qc → (0 < S)%Qc →
  amount (LineItem.totalDiscountSet li) = 0%Qc →
  allocatedDiscount S D n li
  = if bool_decide (n = 1%nat) then D
    else (D * (originalTotal li / (S + D)))%Qc.
Proof.
  intros HD HS Hli. unfold allocatedDiscount. rewrite Hli, gt0_zero.
  apply gt0_spec in HD, HS. by rewrite HD, HS.
Qed.

(** The guard: with a subtotal or an order discount that is not positive,
    an item without a discount of its own is allocated nothing (and nothing
    is divided). *)
Lemma allocatedDiscount_guarded (S D : Qc) (n : nat) (li : LineItem.t) :
  (S ≤ 0)%Qc ∨ (D ≤ 0)%Qc →
  amount (LineItem.totalDiscountSet li) = 0%Qc →
  allocatedDiscount S D n li = 0%Qc.
Proof.
  intros Hle Hli. unfold allocatedDiscount. rewrite Hli, gt0_zero.
  destruct (JS.gt0 D) eqn:HD; [|done].
  destruct (JS.gt0 S) eqn:HS; [|done].
  apply gt0_spec in HD, HS.
  destruct Hle as [Hle|Hle]; by apply Qcle_not_lt in Hle.
Qed.

(** In per-line-item mode the loop adds exactly the allocated amounts of the
    matching line items to the order's discounts. *)
Lemma orderFigures_discounts form order :
  hasProductFilter form || hasProductTypeFilter form = true →
  Figures.discounts (orderFigures form order)
  = sumQc (allocatedDiscount (amount (Order.subtotalPriceSet order))
             (amount (Order.totalDiscountsSet order))
             (length (Order.lineItems order)))
          (filter (λ li, matchesProduct form li && matchesType form li = true)
                  (Order.lineItems order)).
Proof.
  intros Hf. unfold orderFigures. rewrite Hf.
  set (alloc := allocatedDiscount _ _ _).
  assert (∀ l acc,
            Figures.discounts (foldl (lineItemStep form order) acc l)
            = (Figures.discounts acc
               + sumQc alloc
                   (filter (λ li, matchesProduct form li
                                  && matchesType form li = true) l))%Qc)
    as Hgen.
  { induction l as [|li l IH]; intros acc; cbn [foldl].
    - rewrite filter_nil, sumQc_nil. ring.
    - rewrite IH. unfold lineItemStep at 1. fold alloc.
      rewrite filter_cons.
      destruct (matchesProduct form li && matchesType form li) eqn:Hm.
      + rewrite decide_True by done. rewrite sumQc_cons.
        cbn [Figures.discounts]. ring.
      + rewrite decide_False by done. done. }
  rewrite Hgen. cbn [Figures.discounts Figures.zero]. ring.
Qed.

(** ** Doubles: sums with zeros *)

(** Adding +0 changes no double but -0. *)
Lemma F64_add_zero_r (x : F64.t) :
  x ≠ S754_zero true → F64.add x F64.zero = x.
Proof. by destruct x as [[]| | |]. Qed.

Lemma F64_add_zero_l (x : F64.t) :
  x ≠ S754_zero true → F64.add F64.zero x = x.
Proof. by destruct x as [[]| | |]. Qed.

Lemma F64_gt0_not_neg_zero (x : F64.t) :
  F64.gt0 x = true → x ≠ S754_zero true.
Proof. by intros H ->. Qed.

Lemma F64_foldl_zeros {A} (f : A → F64.t) (l : list A) (a : F64.t) :
  a ≠ S754_zero true →
  Forall (λ x, f x = F64.zero) l →
  foldl (λ sum w, F64.add sum (f w)) a l = a.
Proof.
  intros Ha. induction 1 as [|x l Hx _ IH]; [done|].
  cbn [foldl]. by rewrite Hx, F64_add_zero_r.
Qed.

(** The sum of a list in which one element carries [f r] and every other
    element a zero. *)
Lemma F64_sum_single {A} (f : A → F64.t) (l zs : list A) (r : A) :
  l ≡ₚ r :: zs →
  Forall (λ x, f x = F64.zero) zs →
  f r ≠ S754_zero true →
  Binary64.sum f l = f r.
Proof.
  intros Hperm Hzs Hr.
  assert (r ∈ l) as Hin by (rewrite Hperm; by left).
  apply list_elem_of_split in Hin as (l1 & l2 & ->).
  rewrite <-Permutation_middle in Hperm.
  apply Permutation_cons_inv in Hperm.
  rewrite <-Hperm in Hzs. apply Forall_app in Hzs as [Hz1 Hz2].
  unfold Binary64.sum. rewrite foldl_app. cbn [foldl].
  rewrite (F64_foldl_zeros f l1) by done.
  rewrite F64_add_zero_l by done.
  by apply F64_foldl_zeros.
Qed.

(** Over doubles [Math.round(x * 100) / 100] is not always the cent nearest
    to [x]: the double 0.615 lies below 0.615, so 0.61 is the nearer cent,
    but 0.615 * 100 is 61.5 in binary64 and the result is 0.62. *)
Example round2_of_0_615_in_binary64 :
  (∃ q, F64.toQ (F64.dec 615 1000) = Some q ∧ (q < 615 # 1000)%Q)
  ∧ F64.mul (F64.dec 615 1000) (F64.ofZ 100) = F64.dec 615 10
  ∧ Binary64.round2 (F64.dec 615 1000) = F64.dec 62 100.
Proof.
  split; [eexists; split; [vm_compute; reflexivity|reflexivity]|].
  split; vm_compute; reflexivity.
Qed.

(** ** Discount proration over doubles *)

(** In per-line-item mode the loop's [discounts] is the left-to-right sum of
    what the steps add for the matching line items. *)
Lemma Binary64_orderFigures_discounts form order (alloc : LineItem.t → F64.t) :
  hasProductFilter form || hasProductTypeFilter form = true →
  (∀ acc li,
     matchesProduct form li && matchesType form li = true →
     li ∈ Order.lineItems order →
     Binary64.Figures.discounts (Binary64.lineItemStep form order acc li)
     = F64.add (Binary64.Figures.discounts acc) (alloc li)) →
  Binary64.Figures.discounts (Binary64.orderFigures form order)
  = Binary64.sum alloc
      (filter (λ li, matchesProduct form li && matchesType form li = true)
              (Order.lineItems order)).
Proof.
  intros Hf Hstep. unfold Binary64.orderFigures, Binary64.sum. rewrite Hf.
  change F64.zero with (Binary64.Figures.discounts Binary64.Figures.zero)
    at 1.
  generalize Binary64.Figures.zero.
  revert Hstep. generalize (Order.lineItems order).
  induction l as [|li l IH]; intros Hstep acc; cbn [foldl]; [done|].
  rewrite filter_cons.
  destruct (matchesProduct form li && matchesType form li) eqn:Hm.
  - rewrite decide_True by done. cbn [foldl].
    rewrite <-Hstep by (done || by left).
    apply IH. intros acc' li' Hm' Hin. apply Hstep; [done|by right].
  - rewrite decide_False by done.
    assert (Binary64.lineItemStep form order acc li = acc) as ->.
    { unfold Binary64.lineItemStep. by rewrite Hm. }
    apply IH. intros acc' li' Hm' Hin. apply Hstep; [done|by right].
Qed.

(** C2 (as amended). In per-line-item mode, for an order with a positive
    order-level discount D and a positive subtotal S, none of whose line
    items carries a positive discount of its own, every matching line item
    adds to the order's discounts: the whole of D when the order has a
    single line item, and D * (lineItemOriginalTotal / (S + D)) when it has
    more; a line item that does not match adds nothing.  So the discounts
    booked for the order are D for a single matching item, and otherwise
    the left-to-right binary64 sum of the matching items' shares.  Read
    over exact rationals, the shares of an order whose items all match and
    whose original totals add up to S + D sum to D. *)
Theorem discount_proration form order :
  let S := Binary64.amount (Order.subtotalPriceSet order) in
  let D := Binary64.amount (Order.totalDiscountsSet order) in
  let items := Order.lineItems order in
  let matches li := matchesProduct form li && matchesType form li = true in
  let share li :=
    F64.mul D
      (F64.div (Binary64.amount (LineItem.originalTotalSet li))
         (F64.add S D)) in
  hasProductFilter form || hasProductTypeFilter form = true →
  F64.gt0 D = true → F64.gt0 S = true →
  Forall (λ li, F64.gt0 (Binary64.amount (LineItem.totalDiscountSet li))
                = false) items →
  (∀ acc li,
     li ∈ items → matches li →
     Binary64.Figures.discounts (Binary64.lineItemStep form order acc li)
     = F64.add (Binary64.Figures.discounts acc)
         (if bool_decide (length items = 1%nat) then D else share li))
  ∧ (∀ acc li, ¬ matches li → Binary64.lineItemStep form order acc li = acc)
  ∧ (∀ li, items = [li] → matches li →
       Binary64.Figures.discounts (Binary64.orderFigures form order) = D)
  ∧ ((1 < length items)%nat →
     Binary64.Figures.discounts (Binary64.orderFigures form order)
     = Binary64.sum share (filter matches items))
  ∧ ((0 < amount (Order.totalDiscountsSet order))%Qc →
     (0 < amount (Order.subtotalPriceSet order))%Qc →
     Forall (λ li, amount (LineItem.totalDiscountSet li) = 0%Qc) items →
     Forall matches items →
     sumQc originalTotal items
     = (amount (Order.subtotalPriceSet order)
        + amount (Order.totalDiscountsSet order))%Qc →
     Figures.discounts (orderFigures form order)
     = amount (Order.totalDiscountsSet order)).
Proof.
  intros S D items matches share Hf HD HS Hown.
  rewrite Forall_forall in Hown.
  assert (∀ acc li,
            li ∈ items → matches li →
            Binary64.Figures.discounts
              (Binary64.lineItemStep form order acc li)
            = F64.add (Binary64.Figures.discounts acc)
                (if bool_decide (length items = 1%nat) then D else share li))
    as Hstep.
  { intros acc li Hin Hm. unfold Binary64.lineItemStep. rewrite Hm.
    cbn [Binary64.Figures.discounts]. rewrite (Hown li Hin).
    fold S D. rewrite HD, HS. cbn [andb]. fold items.
    by case_bool_decide. }
  split; [exact Hstep|]. split; [|split; [|split]].
  - intros acc li Hm. unfold matches in Hm. unfold Binary64.lineItemStep.
    destruct (matchesProduct form li && matchesType form li);
      [by destruct Hm|done].
  - intros li Hitems Hm.
    rewrite (Binary64_orderFigures_discounts form order
               (λ li, if bool_decide (length items = 1%nat) then D
                      else share li) Hf) by (intros; by apply Hstep).
    fold items. rewrite Hitems, filter_cons, decide_True by done.
    rewrite filter_nil. cbn. apply F64_add_zero_l.
    by apply F64_gt0_not_neg_zero.
  - intros Hlen.
    rewrite (Binary64_orderFigures_discounts form order share Hf); [done|].
    intros acc li Hm Hin. rewrite Hstep by done.
    rewrite bool_decide_eq_false_2; [done|lia].
  - intros HDq HSq Hownq Hall Hsum.
    rewrite orderFigures_discounts by done. fold items.
    rewrite filter_all by done.
    set (Sq := amount (Order.subtotalPriceSet order)) in *.
    set (Dq := amount (Order.totalDiscountsSet order)) in *.
    assert (Sq + Dq ≠ 0)%Qc as Hden.
    { intros Heq. pose proof (Qcplus_pos_pos _ _ HSq HDq) as Hpos.
      rewrite Heq in Hpos. by apply (irreflexivity Qclt 0%Qc). }
    rewrite Forall_forall in Hownq.
    rewrite (sumQc_ext _ (λ li, if bool_decide (length items = 1%nat) then Dq
                                else (Dq * (originalTotal li / (Sq + Dq)))%Qc))
      by (intros; apply allocatedDiscount_prorated; auto).
    case_bool_decide as Hn.
    + destruct items as [|li [|? ?]]; try done.
      rewrite sumQc_cons, sumQc_nil. ring.
    + rewrite sumQc_scale, Hsum. field. done.
Qed.

Lemma discount_proration_witness :
  let D := F64.ofZ 10 in
  let S := F64.ofZ 90 in
  let share li :=
    F64.mul D
      (F64.div (Binary64.amount (LineItem.originalTotalSet li))
         (F64.add S D)) in
  share <$> Order.lineItems twoItemOrder = [F64.ofZ 6; F64.ofZ 4]
  ∧ Binary64.Figures.discounts
      (Binary64.orderFigures gadgetsFilter twoItemOrder)
    = Binary64.sum share (Order.lineItems twoItemOrder)
  ∧ Binary64.Figures.discounts
      (Binary64.orderFigures gadgetsFilter twoItemOrder)
    = D.
Proof.
  intros D S share.
  destruct (discount_proration gadgetsFilter twoItemOrder)
    as (_ & _ & _ & Hmany & _);
    [reflexivity|reflexivity|reflexivity|repeat constructor|].
  split; [vm_compute; reflexivity|].
  split; [apply Hmany; simpl; lia|].
  vm_compute. reflexivity.
Defined.

(** C2, counterexample. A discount of $7 over three items of $10 (subtotal
    $23): the hypotheses of the claim hold, the original totals add up to
    S + D = 30, each item is allocated 7 * (10 / 30), and the three shares
    add up to 6.999999999999999, not to 7. *)
Lemma discount_proration_sum_is_not_exact :
  let D := Binary64.amount (Order.totalDiscountsSet threeTensOrder) in
  let S := Binary64.amount (Order.subtotalPriceSet threeTensOrder) in
  let items := Order.lineItems threeTensOrder in
  (D = F64.ofZ 7 ∧ S = F64.ofZ 23
   ∧ Forall (λ li, Binary64.amount (LineItem.totalDiscountSet li) = F64.zero
                   ∧ matchesType gadgetsFilter li = true) items
   ∧ Binary64.sum (λ li, Binary64.amount (LineItem.originalTotalSet li)) items
     = F64.add S D)
  ∧ Binary64.Figures.discounts
      (Binary64.orderFigures gadgetsFilter threeTensOrder)
    = F64.dec 6999999999999999 1000000000000000
  ∧ Binary64.Figures.discounts
      (Binary64.orderFigures gadgetsFilter threeTensOrder)
    ≠ D.
Proof.
  intros D S items.
  split; [repeat split; repeat constructor|].
  split; [vm_compute; reflexivity|].
  intros H. vm_compute in H. discriminate H.
Qed.

(** The two-item order run through the loop over exact rationals, with a
    product-type filter that both items match: $6 and $4 are allocated,
    $10 in all. *)
Example twoItemOrder_discounts :
  Figures.discounts (orderFigures gadgetsFilter twoItemOrder) = JS.dec 10 1
  ∧ allocatedDiscount (JS.dec 90 1) (JS.dec 10 1) 2
      (item "gid://shopify/Product/1" "Gadgets" 1 (JS.dec 60 1) 0%Qc)
    = JS.dec 6 1.
Proof. split; qc_compute. Qed.

(** ** Order counts per dimension key *)

Lemma existsb_Exists {A} (P : A → Prop) `{!∀ x, Decision (P x)} (l : list A) :
  existsb (λ x, bool_decide (P x)) l = bool_decide (Exists P l).
Proof.
  induction l as [|x l IH]; cbn [existsb].
  - symmetry. apply bool_decide_eq_false_2. by intros ?%Exists_nil.
  - rewrite IH. destruct (decide (P x)).
    + rewrite (bool_decide_eq_true_2 (P x)) by done.
      symmetry. apply bool_decide_eq_true_2. by left.
    + rewrite (bool_decide_eq_false_2 (P x)) by done.
      apply bool_decide_ext. rewrite Exists_cons. tauto.
Qed.

(** The counting pattern shared by the product and product-type loops, for
    one order (id [oid]) and one key: [cnt] is the key's [orderCount], [ids]
    the key's "already counted" set, [hit] says a line item is booked under
    the key. *)
Section CountOnce.
Context {St Item : Type}.
Variable step : St → Item → St.
Variable cnt : St → Z.
Variable ids : St → gset string.
Variable oid : string.
Variable hit : Item → bool.

Hypothesis step_miss : ∀ st li,
  hit li = false → cnt (step st li) = cnt st ∧ ids (step st li) = ids st.
Hypothesis step_hit : ∀ st li,
  hit li = true →
  ids (step st li) = {[oid]} ∪ ids st
  ∧ cnt (step st li)
    = cnt st + (if bool_decide (oid ∈ ids st) then 0 else 1).

Lemma count_once_fold st l :
  ids (foldl step st l)
  = (if existsb hit l then {[oid]} ∪ ids st else ids st)
  ∧ cnt (foldl step st l)
    = cnt st + (if existsb hit l && negb (bool_decide (oid ∈ ids st))
                then 1 else 0).
Proof.
  revert st. induction l as [|li l IH]; intros st; simpl.
  - split; [done|lia].
  - destruct (IH (step st li)) as [-> ->]. destruct (hit li) eqn:Hh.
    + destruct (step_hit st li Hh) as [-> ->]. simpl.
      rewrite (bool_decide_eq_true_2 (oid ∈ {[oid]} ∪ ids st))
        by set_solver.
      rewrite andb_false_r. split.
      * destruct (existsb hit l); set_solver.
      * destruct (bool_decide (oid ∈ ids st)); simpl; lia.
    + by destruct (step_miss st li Hh) as [-> ->].
Qed.

Lemma count_once_size st l :
  cnt st = Z.of_nat (size (ids st)) →
  cnt (foldl step st l) = Z.of_nat (size (ids (foldl step st l))).
Proof.
  intros Hinv. destruct (count_once_fold st l) as [-> ->].
  destruct (existsb hit l); simpl; [|lia].
  case_bool_decide as Hin; simpl.
  - replace ({[oid]} ∪ ids st) with (ids st) by set_solver. lia.
  - rewrite size_union by set_solver. rewrite size_singleton. lia.
Qed.
End CountOnce.

Lemma productStep_miss tf tg oid st li k :
  productKey tf tg li ≠ Some k →
  productOrderCount (productStep tf tg oid st li) k = productOrderCount st k
  ∧ productIds (productStep tf tg oid st li) k = productIds st k.
Proof.
  unfold productStep, productKey.
  destruct (isFilter tf && _); [done|].
  destruct (isFilter tg && _); [done|].
  destruct (Product.id <$> LineItem.product li) as [pid|]; [|done].
  destruct (JS.truthyStr pid); [|done].
  intros Hne. assert (pid ≠ k) by congruence.
  unfold productOrderCount, productIds. simpl.
  by rewrite !lookup_insert_ne.
Qed.

Lemma productStep_hit tf tg oid st li k :
  productKey tf tg li = Some k →
  productIds (productStep tf tg oid st li) k = {[oid]} ∪ productIds st k
  ∧ productOrderCount (productStep tf tg oid st li) k
    = productOrderCount st k
      + (if bool_decide (oid ∈ productIds st k) then 0 else 1).
Proof.
  unfold productStep, productKey.
  destruct (isFilter tf && _); [done|].
  destruct (isFilter tg && _); [done|].
  destruct (Product.id <$> LineItem.product li) as [pid|]; [|done].
  destruct (JS.truthyStr pid); [|done].
  intros [= ->].
  unfold productOrderCount, productIds. simpl.
  rewrite !lookup_insert_eq. simpl.
  destruct (ByProduct.productData st !! k) as [existing|];
    destruct (ByProduct.orderProductIds st !! k) as [ids|]; simpl;
    case_bool_decide; simpl; split; try set_solver; lia.
Qed.

Lemma typeStep_miss oid st li k :
  typeKey li ≠ k →
  typeOrderCount (typeStep oid st li) k = typeOrderCount st k
  ∧ typeIds (typeStep oid st li) k = typeIds st k.
Proof.
  intros Hne. unfold typeStep, typeOrderCount, typeIds. fold (typeKey li).
  simpl. by rewrite !lookup_insert_ne.
Qed.

Lemma typeStep_hit oid st li k :
  typeKey li = k →
  typeIds (typeStep oid st li) k = {[oid]} ∪ typeIds st k
  ∧ typeOrderCount (typeStep oid st li) k
    = typeOrderCount st k + (if bool_decide (oid ∈ typeIds st k) then 0 else 1).
Proof.
  intros <-. unfold typeStep, typeOrderCount, typeIds. fold (typeKey li).
  simpl. rewrite !lookup_insert_eq. simpl.
  destruct (ByType.productTypeData st !! typeKey li) as [existing|];
    destruct (ByType.orderTypeIds st !! typeKey li) as [ids|]; simpl;
    case_bool_decide; simpl; split; try set_solver; lia.
Qed.

(** One order in the product loop, for one key: the order id joins the
    key's set when some line item is booked under the key, and the count
    rises by 1 exactly when that happens for an id not yet in the set. *)
Lemma productOrder_count tf tg st order k :
  let booked :=
    bool_decide (Exists (λ li, productKey tf tg li = Some k)
                        (Order.lineItems order)) in
  let st' := productOrder tf tg st order in
  productIds st' k
  = (if booked then {[Order.id order]} ∪ productIds st k
     else productIds st k)
  ∧ productOrderCount st' k
    = productOrderCount st k
      + (if booked && negb (bool_decide (Order.id order ∈ productIds st k))
         then 1 else 0)
  ∧ (productOrderCount st k = Z.of_nat (size (productIds st k)) →
     productOrderCount st' k = Z.of_nat (size (productIds st' k))).
Proof.
  intros booked st'. unfold booked, st', productOrder.
  rewrite <-existsb_Exists.
  set (hit := λ li, bool_decide (productKey tf tg li = Some k)).
  set (step := productStep tf tg (Order.id order)).
  assert (∀ s li, hit li = false →
            productOrderCount (step s li) k = productOrderCount s k
            ∧ productIds (step s li) k = productIds s k) as Hmiss.
  { intros s li Hh%bool_decide_eq_false. by apply productStep_miss. }
  assert (∀ s li, hit li = true →
            productIds (step s li) k = {[Order.id order]} ∪ productIds s k
            ∧ productOrderCount (step s li) k
              = productOrderCount s k
                + (if bool_decide (Order.id order ∈ productIds s k)
                   then 0 else 1)) as Hhit.
  { intros s li Hh%bool_decide_eq_true. by apply productStep_hit. }
  destruct (count_once_fold step (λ s, productOrderCount s k)
              (λ s, productIds s k) (Order.id order) hit Hmiss Hhit
              st (Order.lineItems order)) as [Hids Hcnt].
  split; [exact Hids|]. split; [exact Hcnt|].
  apply (count_once_size step (λ s, productOrderCount s k)
           (λ s, productIds s k) (Order.id order) hit Hmiss Hhit).
Qed.

Lemma typeOrder_count st order k :
  let booked :=
    bool_decide (Exists (λ li, typeKey li = k) (Order.lineItems order)) in
  let st' := typeOrder st order in
  typeIds st' k
  = (if booked then {[Order.id order]} ∪ typeIds st k else typeIds st k)
  ∧ typeOrderCount st' k
    = typeOrderCount st k
      + (if booked && negb (bool_decide (Order.id order ∈ typeIds st k))
         then 1 else 0)
  ∧ (typeOrderCount st k = Z.of_nat (size (typeIds st k)) →
     typeOrderCount st' k = Z.of_nat (size (typeIds st' k))).
Proof.
  intros booked st'. unfold booked, st', typeOrder.
  rewrite <-existsb_Exists.
  set (hit := λ li, bool_decide (typeKey li = k)).
  set (step := typeStep (Order.id order)).
  assert (∀ s li, hit li = false →
            typeOrderCount (step s li) k = typeOrderCount s k
            ∧ typeIds (step s li) k = typeIds s k) as Hmiss.
  { intros s li Hh%bool_decide_eq_false. by apply typeStep_miss. }
  assert (∀ s li, hit li = true →
            typeIds (step s li) k = {[Order.id order]} ∪ typeIds s k
            ∧ typeOrderCount (step s li) k
              = typeOrderCount s k
                + (if bool_decide (Order.id order ∈ typeIds s k)
                   then 0 else 1)) as Hhit.
  { intros s li Hh%bool_decide_eq_true. by apply typeStep_hit. }
  destruct (count_once_fold step (λ s, typeOrderCount s k)
              (λ s, typeIds s k) (Order.id order) hit Hmiss Hhit
              st (Order.lineItems order)) as [Hids Hcnt].
  split; [exact Hids|]. split; [exact Hcnt|].
  apply (count_once_size step (λ s, typeOrderCount s k)
           (λ s, typeIds s k) (Order.id order) hit Hmiss Hhit).
Qed.

(** After the whole loop a key's count is the number of distinct order ids
    with a line item booked under the key. *)
Lemma productData_distinct tf tg orders k :
  productIds (productData tf tg orders) k = ordersOfProduct tf tg k orders
  ∧ productOrderCount (productData tf tg orders) k
    = Z.of_nat (size (ordersOfProduct tf tg k orders)).
Proof.
  assert (∀ st,
            productOrderCount st k = Z.of_nat (size (productIds st k)) →
            productIds (foldl (productOrder tf tg) st orders) k
            = productIds st k ∪ ordersOfProduct tf tg k orders
            ∧ productOrderCount (foldl (productOrder tf tg) st orders) k
              = Z.of_nat
                  (size (productIds (foldl (productOrder tf tg) st orders) k)))
    as Hgen.
  { unfold ordersOfProduct.
    induction orders as [|o orders IH]; intros st Hinv; simpl.
    - split; [set_solver|done].
    - destruct (productOrder_count tf tg st o k) as (Hids & _ & Hsize).
      destruct (IH (productOrder tf tg st o) (Hsize Hinv)) as [-> ->].
      split; [|done]. rewrite Hids, filter_cons.
      case_bool_decide as Hb.
      + rewrite decide_True by done. set_solver.
      + rewrite decide_False by done. set_solver. }
  assert (productIds ByProduct.empty k = ∅) as Hempty.
  { unfold productIds. simpl. by rewrite lookup_empty. }
  destruct (Hgen ByProduct.empty) as [Hids Hcnt].
  { unfold productOrderCount. rewrite Hempty. simpl. by rewrite lookup_empty. }
  unfold productData. rewrite Hcnt, Hids, Hempty.
  by rewrite !(left_id_L ∅ (∪)).
Qed.

Lemma productTypeData_distinct orders k :
  typeIds (productTypeData orders) k = ordersOfType k orders
  ∧ typeOrderCount (productTypeData orders) k
    = Z.of_nat (size (ordersOfType k orders)).
Proof.
  assert (∀ st,
            typeOrderCount st k = Z.of_nat (size (typeIds st k)) →
            typeIds (foldl typeOrder st orders) k
            = typeIds st k ∪ ordersOfType k orders
            ∧ typeOrderCount (foldl typeOrder st orders) k
              = Z.of_nat (size (typeIds (foldl typeOrder st orders) k)))
    as Hgen.
  { unfold ordersOfType.
    induction orders as [|o orders IH]; intros st Hinv; simpl.
    - split; [set_solver|done].
    - destruct (typeOrder_count st o k) as (Hids & _ & Hsize).
      destruct (IH (typeOrder st o) (Hsize Hinv)) as [-> ->].
      split; [|done]. rewrite Hids, filter_cons.
      case_bool_decide as Hb.
      + rewrite decide_True by done. set_solver.
      + rewrite decide_False by done. set_solver. }
  assert (typeIds ByType.empty k = ∅) as Hempty.
  { unfold typeIds. simpl. by rewrite lookup_empty. }
  destruct (Hgen ByType.empty) as [Hids Hcnt].
  { unfold typeOrderCount. rewrite Hempty. simpl. by rewrite lookup_empty. }
  unfold productTypeData. rewrite Hcnt, Hids, Hempty.
  by rewrite !(left_id_L ∅ (∪)).
Qed.

(** C3. In the profit-by-product and profit-by-product-type aggregations,
    processing one order raises the [orderCount] of any key by at most 1,
    however many of its line items are booked under that key; after the
    whole loop a key's [orderCount] is the number of distinct orders with a
    line item booked under it; and an order not yet counted for a key whose
    three line items are all booked under that key raises the key's
    [orderCount] by exactly 1. *)
Theorem order_count_once_per_order :
  (∀ tf tg st order k,
     productOrderCount st k
     ≤ productOrderCount (productOrder tf tg st order) k
     ≤ productOrderCount st k + 1)
  ∧ (∀ st order k,
       typeOrderCount st k
       ≤ typeOrderCount (typeOrder st order) k
       ≤ typeOrderCount st k + 1)
  ∧ (∀ tf tg orders k,
       productOrderCount (productData tf tg orders) k
       = Z.of_nat (size (ordersOfProduct tf tg k orders)))
  ∧ (∀ orders k,
       typeOrderCount (productTypeData orders) k
       = Z.of_nat (size (ordersOfType k orders)))
  ∧ (∀ tf tg st order k a b c,
       Order.lineItems order = [a; b; c] →
       productKey tf tg a = Some k →
       productKey tf tg b = Some k →
       productKey tf tg c = Some k →
       Order.id order ∉ productIds st k →
       productOrderCount (productOrder tf tg st order) k
       = productOrderCount st k + 1)
  ∧ (∀ st order k a b c,
       Order.lineItems order = [a; b; c] →
       typeKey a = k → typeKey b = k → typeKey c = k →
       Order.id order ∉ typeIds st k →
       typeOrderCount (typeOrder st order) k = typeOrderCount st k + 1).
Proof.
  split; [|split; [|split; [|split; [|split]]]].
  - intros tf tg st order k.
    destruct (productOrder_count tf tg st order k) as (_ & -> & _).
    destruct (_ && _); lia.
  - intros st order k.
    destruct (typeOrder_count st order k) as (_ & -> & _).
    destruct (_ && _); lia.
  - intros tf tg orders k. apply productData_distinct.
  - intros orders k. apply productTypeData_distinct.
  - intros tf tg st order k a b c Hl Ha Hb Hc Hnew.
    destruct (productOrder_count tf tg st order k) as (_ & -> & _).
    rewrite Hl, bool_decide_eq_true_2 by (by left).
    by rewrite bool_decide_eq_false_2.
  - intros st order k a b c Hl Ha Hb Hc Hnew.
    destruct (typeOrder_count st order k) as (_ & -> & _).
    rewrite Hl, bool_decide_eq_true_2 by (by left).
    by rewrite bool_decide_eq_false_2.
Qed.

Lemma order_count_once_per_order_witness :
  productOrderCount (productData None None [tripleOrder])
    "gid://shopify/Product/1" = 1
  ∧ typeOrderCount (productTypeData [tripleOrder]) "Gadgets" = 1.
Proof.
  destruct order_count_once_per_order as (_ & _ & _ & _ & Hp & Ht).
  split.
  - apply (Hp None None ByProduct.empty tripleOrder "gid://shopify/Product/1"
             _ _ _ eq_refl eq_refl eq_refl eq_refl).
    vm_compute. set_solver.
  - apply (Ht ByType.empty tripleOrder "Gadgets" _ _ _ eq_refl eq_refl
             eq_refl eq_refl).
    vm_compute. set_solver.
Defined.

(** The item counts of the three lines still add up: the product bucket of
    that order holds 6 units and $60 in one order. *)
Example tripleOrder_bucket :
  (λ d, (ProductAgg.orderCount d, ProductAgg.itemCount d))
    <$> ByProduct.productData (productData None None [tripleOrder])
          !! "gid://shopify/Product/1"
  = Some (1, 6).
Proof. vm_compute. reflexivity. Qed.

(** ** Shipping cost overrides *)

Lemma csvShippingCostMap_snoc data e :
  csvShippingCostMap (data ++ [e])
  = <["#" +:+ JS.trim (JS.stripHash (ShippingCostEntry.orderId e))
      := ShippingCostEntry.shippingCost e]>
      (<[JS.trim (JS.stripHash (ShippingCostEntry.orderId e))
         := ShippingCostEntry.shippingCost e]>
         (<[ShippingCostEntry.orderId e := ShippingCostEntry.shippingCost e]>
            (csvShippingCostMap data))).
Proof. unfold csvShippingCostMap. by rewrite foldl_app. Qed.

Lemma elem_of_entryKeys k e :
  k ∈ entryKeys e ↔
  k = ShippingCostEntry.orderId e
  ∨ k = JS.trim (JS.stripHash (ShippingCostEntry.orderId e))
  ∨ k = "#" +:+ JS.trim (JS.stripHash (ShippingCostEntry.orderId e)).
Proof. unfold entryKeys. set_solver. Qed.

(** Every value in the lookup map is the cost of an entry stored under that
    key. *)
Lemma csv_lookup_Some data k c :
  csvShippingCostMap data !! k = Some c →
  ∃ e, e ∈ data ∧ k ∈ entryKeys e ∧ ShippingCostEntry.shippingCost e = c.
Proof.
  induction data as [|e data IH] using rev_ind; [done|].
  rewrite csvShippingCostMap_snoc. intros Hk.
  destruct (decide (k ∈ entryKeys e)) as [Hin|Hnin].
  - exists e. split; [set_solver|]. split; [done|].
    apply elem_of_entryKeys in Hin.
    repeat (rewrite lookup_insert in Hk; case_decide); naive_solver.
  - rewrite elem_of_entryKeys in Hnin.
    rewrite !lookup_insert_ne in Hk by naive_solver.
    destruct (IH Hk) as (e' & ? & ? & ?). exists e'. set_solver.
Qed.

(** Every key of every entry is present in the lookup map. *)
Lemma csv_lookup_is_Some data e k :
  e ∈ data → k ∈ entryKeys e → is_Some (csvShippingCostMap data !! k).
Proof.
  induction data as [|e' data IH] using rev_ind; [set_solver|].
  rewrite csvShippingCostMap_snoc. intros He Hk.
  rewrite !lookup_insert_is_Some'.
  apply elem_of_app in He as [He|He%list_elem_of_singleton].
  - auto.
  - subst e'. apply elem_of_entryKeys in Hk. naive_solver.
Qed.

Lemma orNum_Some a b :
  is_Some b → ∃ y, orNum a b = Some y ∧ (a = Some y ∨ b = Some y).
Proof.
  intros [x ->]. unfold orNum.
  destruct a as [xa|]; [destruct (JS.truthy xa)|]; eauto.
Qed.

(** Whenever some entry's key equals the order's name up to a leading '#',
    the cost comes from the upload and is the cost of an entry touching the
    order. *)
Lemma csv_override_source ss data o e :
  labelCost o = None →
  e ∈ data →
  JS.stripHash (ShippingCostEntry.orderId e) = JS.stripHash (displayName o) →
  ∃ e', e' ∈ data ∧ touches e' (displayName o)
        ∧ getShippingCost ss data o
          = (ShippingCostEntry.shippingCost e', "csv").
Proof.
  intros Hlabel He Hstrip. unfold getShippingCost. rewrite Hlabel.
  set (name := displayName o) in *.
  set (n := JS.trim (JS.stripHash name)).
  assert (n ∈ entryKeys e ∧ "#" +:+ n ∈ entryKeys e) as [Hn Hhn].
  { unfold n. rewrite <-Hstrip, !elem_of_entryKeys. auto. }
  destruct (csv_lookup_is_Some data e _ He Hhn) as [c Hc].
  assert (∃ x, orNum (csvShippingCostMap data !! name)
                 (orNum (csvShippingCostMap data !! n)
                        (csvShippingCostMap data !! ("#" +:+ n))) = Some x
               ∧ ∃ k, k ∈ lookupKeys name
                      ∧ csvShippingCostMap data !! k = Some x)
    as (x & -> & k & Hk & Hx).
  { destruct (orNum_Some (csvShippingCostMap data !! n)
                (csvShippingCostMap data !! ("#" +:+ n)))
      as (y & Hy & Hfrom); [by eexists|].
    destruct (orNum_Some (csvShippingCostMap data !! name)
                (orNum (csvShippingCostMap data !! n)
                       (csvShippingCostMap data !! ("#" +:+ n))))
      as (x & Hx & Hfrom'); [by eexists|].
    exists x. split; [done|]. unfold lookupKeys. fold n.
    destruct Hfrom' as [?|Hxy]; [exists name; set_solver|].
    rewrite Hy in Hxy. injection Hxy as <-.
    destruct Hfrom; [exists n|exists ("#" +:+ n)]; set_solver. }
  destruct (csv_lookup_Some data k x Hx) as (e' & He' & Hke' & <-).
  exists e'. split; [done|]. split; [by exists k|done].
Qed.

(** Under every key the lookup map holds the cost of the last uploaded
    entry stored under that key. *)
Lemma csv_lookup_last data k :
  csvShippingCostMap data !! k
  = ShippingCostEntry.shippingCost
      <$> last (filter (λ e, k ∈ entryKeys e) data).
Proof.
  induction data as [|e data IH] using rev_ind; [done|].
  rewrite csvShippingCostMap_snoc, filter_app, filter_cons, filter_nil.
  destruct (decide (k ∈ entryKeys e)) as [Hin|Hnin].
  - rewrite last_snoc. cbn [fmap option_fmap option_map].
    apply elem_of_entryKeys in Hin.
    repeat (rewrite lookup_insert; case_decide); naive_solver.
  - rewrite app_nil_r, <-IH. rewrite elem_of_entryKeys in Hnin.
    rewrite !lookup_insert_ne by naive_solver. done.
Qed.

(** C4 (as amended). For an order without a usable shipping-label cost, if
    the upload holds an entry whose order key equals the order's display
    name up to an optional leading '#' on either side, the cost comes from
    the upload with source "csv", ahead of the configured estimate.  It is
    read under the order's name as given, else under the name without '#'
    and trimmed, else under that name with '#' in front (the first of the
    three that holds a cost other than 0, else the last), and what is
    stored under a key is the cost of the last uploaded entry that has this
    key, as given or normalised.  So it is the cost of an entry stored under one
    of the order's lookup keys, and the matching entry's own cost whenever
    no other such entry carries a different one. *)
Theorem csv_override_found ss data o e :
  labelCost o = None →
  e ∈ data →
  JS.stripHash (ShippingCostEntry.orderId e) = JS.stripHash (displayName o) →
  let orderName := displayName o in
  let normalizedOrderName := JS.trim (JS.stripHash orderName) in
  let stored k :=
    ShippingCostEntry.shippingCost
      <$> last (filter (λ e', k ∈ entryKeys e') data) in
  (∃ c, orNum (stored orderName)
          (orNum (stored normalizedOrderName)
                 (stored ("#" +:+ normalizedOrderName))) = Some c
        ∧ getShippingCost ss data o = (c, "csv"))
  ∧ (∃ e', e' ∈ data ∧ touches e' orderName
           ∧ getShippingCost ss data o
             = (ShippingCostEntry.shippingCost e', "csv"))
  ∧ ((∀ e', e' ∈ data → touches e' orderName →
            ShippingCostEntry.shippingCost e'
            = ShippingCostEntry.shippingCost e) →
     getShippingCost ss data o = (ShippingCostEntry.shippingCost e, "csv")).
Proof.
  intros Hlabel He Hstrip orderName normalizedOrderName stored.
  destruct (csv_override_source ss data o e Hlabel He Hstrip)
    as (e' & He' & Ht & Hcost).
  split; [|split; [by exists e'|]].
  - exists (ShippingCostEntry.shippingCost e'). split; [|done].
    unfold stored. rewrite <-!csv_lookup_last.
    revert Hcost. unfold getShippingCost. rewrite Hlabel.
    fold orderName normalizedOrderName.
    destruct (orNum _ _) as [c|]; [by intros [= ->]|].
    by destruct (ShippingSettings.method ss).
  - intros Hsame. by rewrite Hcost, (Hsame e' He' Ht).
Qed.

Lemma csv_override_found_witness :
  getShippingCost defaultShippingSettings [entry1008; entry1007] order1007
  = (JS.dec 850 100, "csv").
Proof.
  apply (csv_override_found defaultShippingSettings [entry1008; entry1007]
           order1007 entry1007).
  - reflexivity.
  - apply list_elem_of_In. simpl. auto.
  - reflexivity.
  - intros e' He' (k & Hk & Hl).
    apply list_elem_of_In in He'. apply list_elem_of_In in Hk.
    apply list_elem_of_In in Hl. simpl in He'.
    destruct He' as [<-|[<-|[]]]; [|reflexivity].
    vm_compute in Hk, Hl.
    destruct Hk as [<-|[<-|[<-|[]]]]; destruct Hl as [Hl|[Hl|[Hl|[]]]];
      discriminate Hl.
Defined.

(** C4, counterexample. Two uploaded entries for order #1007, keyed "1007"
    ($8.50) and "#1007" ($7.00): the order has no label cost and the first
    entry's key equals its name up to the '#', yet the cost returned is the
    $7.00 of the entry uploaded last, not the first entry's $8.50; in the
    other upload order it is the $8.50. *)
Lemma csv_override_last_wins :
  labelCost order1007 = None
  ∧ JS.stripHash (ShippingCostEntry.orderId entry1007)
    = JS.stripHash (displayName order1007)
  ∧ ShippingCostEntry.shippingCost entry1007 = JS.dec 850 100
  ∧ getShippingCost defaultShippingSettings [entry1007; entryHash1007]
      order1007
    = (JS.dec 7 1, "csv")
  ∧ getShippingCost defaultShippingSettings [entry1007; entryHash1007]
      order1007
    ≠ (ShippingCostEntry.shippingCost entry1007, "csv")
  ∧ getShippingCost defaultShippingSettings [entryHash1007; entry1007]
      order1007
    = (JS.dec 850 100, "csv").
Proof.
  split; [reflexivity|]. split; [reflexivity|]. split; [reflexivity|].
  split; [vm_compute; reflexivity|]. split.
  - intros H. vm_compute in H. discriminate H.
  - vm_compute. reflexivity.
Qed.

(** The other direction: an entry keyed "#1008" is found for an order whose
    name is "1008"; costs that are zero are found as well; uploaded keys are
    trimmed of white space, the no-break space included; and without any
    matching entry the flat estimate is used. *)
Example csv_override_vice_versa :
  let o name :=
    OrderRow.mk "gid://shopify/Order/1008" (Some name) EmptyString "Online Store"
      0%Qc 0%Qc 0%Qc 0%Qc 0%Qc 1 None None in
  getShippingCost defaultShippingSettings [entry1008; entry1007] (o "1008")
  = (JS.dec 1225 100, "csv")
  ∧ getShippingCost defaultShippingSettings
      [ShippingCostEntry.mk "1008" EmptyString 0%Qc "manual" EmptyString] (o "#1008")
    = (0%Qc, "csv")
  ∧ getShippingCost defaultShippingSettings
      [ShippingCostEntry.mk ("1008" +:+ JS.ofBytes [194; 160]%nat)
         EmptyString (JS.dec 9 1) "csv" EmptyString] (o "#1008")
    = (JS.dec 9 1, "csv")
  ∧ getShippingCost defaultShippingSettings [entry1008; entry1007] (o "#1009")
    = (JS.dec 5 1, "estimate").
Proof. repeat split; vm_compute; reflexivity. Qed.

(** ** The weekly chart *)

#[global] Instance weekLe_total : Total weekLe.
Proof. intros a b. unfold weekLe. lia. Qed.

#[global] Instance weekLe_trans : Transitive weekLe.
Proof. intros a b c. unfold weekLe. lia. Qed.

Lemma chartRow_week w b : ChartRow.week (chartRow w b) = w.
Proof. reflexivity. Qed.

Lemma chartData_perm st :
  chartData st ≡ₚ uncurry chartRow <$> map_to_list (Dash.weeklyData st).
Proof. apply merge_sort_Permutation. Qed.

Lemma chartData_sorted st : Sorted weekLe (chartData st).
Proof. apply (Sorted_merge_sort weekLe). Qed.

Lemma chartData_weeks st :
  ChartRow.week <$> chartData st ≡ₚ (map_to_list (Dash.weeklyData st)).*1.
Proof.
  rewrite chartData_perm, <-list_fmap_compose.
  erewrite (list_fmap_ext _ fst); [done|]. by intros i [w b].
Qed.

Lemma chartData_NoDup st : NoDup (ChartRow.week <$> chartData st).
Proof. rewrite chartData_weeks. apply NoDup_fst_map_to_list. Qed.

Lemma elem_of_chartData st row :
  row ∈ chartData st ↔
  ∃ b, Dash.weeklyData st !! ChartRow.week row = Some b
       ∧ row = chartRow (ChartRow.week row) b.
Proof.
  rewrite chartData_perm, list_elem_of_fmap. split.
  - intros ([w b] & -> & Hin). exists b.
    by apply elem_of_map_to_list in Hin.
  - intros (b & Hb & Hrow). exists (ChartRow.week row, b).
    split; [done|]. by apply elem_of_map_to_list.
Qed.

(** Lookups in the seeded map. *)
Lemma foldl_insert_lookup (l : list Z) (m : gmap Z Bucket.t) (z : Bucket.t) w :
  foldl (λ m i, <[i := z]> m) m l !! w
  = if decide (w ∈ l) then Some z else m !! w.
Proof.
  revert m. induction l as [|i l IH]; intros m; cbn [foldl].
  - destruct (decide (w ∈ [])); [set_solver|done].
  - rewrite IH.
    destruct (decide (w ∈ l)), (decide (w ∈ i :: l)); try done.
    + set_solver.
    + assert (w = i) as -> by set_solver. by rewrite lookup_insert_eq.
    + rewrite lookup_insert_ne; [done|set_solver].
Qed.

Lemma seedWeeks_lookup n w :
  seedWeeks n !! w = if decide (1 ≤ w ≤ n) then Some Bucket.zero else None.
Proof.
  unfold seedWeeks. rewrite foldl_insert_lookup, lookup_empty.
  destruct (decide (w ∈ seqZ 1 n)) as [Hin|Hin];
    rewrite elem_of_seqZ in Hin; case_decide; done || lia.
Qed.

(** How one iteration changes the weekly map. *)
Lemma accumulate_weekly env form st order w :
  Dash.weeklyData (accumulate env form st order) !! w
  = if accumulated form order
       && bool_decide (getWeekNumber env (Order.createdAtTime order) = w)
    then Some (Bucket.add (default Bucket.zero (Dash.weeklyData st !! w))
                 (orderFigures form order))
    else Dash.weeklyData st !! w.
Proof.
  unfold accumulate, accumulated.
  destruct (JS.gt0 _ || JS.gt0 _); [|done]. simpl. unfold bump.
  case_bool_decide as Hw.
  - subst w. by rewrite lookup_insert_eq.
  - by rewrite lookup_insert_ne.
Qed.

Lemma fold_weekly_is_Some env form st l w :
  is_Some (Dash.weeklyData st !! w) →
  is_Some (Dash.weeklyData (foldl (accumulate env form) st l) !! w).
Proof.
  revert st. induction l as [|o l IH]; intros st Hs; [done|].
  simpl. apply IH. rewrite accumulate_weekly.
  by destruct (accumulated form o && _).
Qed.

Lemma fold_weekly_untouched env form st l w :
  (∀ o, o ∈ l → accumulated form o = true →
        getWeekNumber env (Order.createdAtTime o) ≠ w) →
  Dash.weeklyData (foldl (accumulate env form) st l) !! w
  = Dash.weeklyData st !! w.
Proof.
  revert st. induction l as [|o l IH]; intros st Hl; [done|].
  simpl. rewrite IH by (intros; apply Hl; set_solver).
  rewrite accumulate_weekly.
  destruct (accumulated form o) eqn:Ha; [|done]. simpl.
  rewrite bool_decide_eq_false_2; [done|]. apply Hl; [set_solver|done].
Qed.

Lemma fold_weekly_dom env form st l w :
  is_Some (Dash.weeklyData (foldl (accumulate env form) st l) !! w) →
  is_Some (Dash.weeklyData st !! w)
  ∨ ∃ o, o ∈ l ∧ accumulated form o = true
         ∧ getWeekNumber env (Order.createdAtTime o) = w.
Proof.
  revert st. induction l as [|o l IH]; intros st Hs; [by left|].
  simpl in Hs. destruct (IH _ Hs) as [Hst|(o' & ? & ? & ?)].
  - rewrite accumulate_weekly in Hst.
    destruct (accumulated form o) eqn:Ha; simpl in Hst; [|by left].
    case_bool_decide; [|by left]. right. exists o. set_solver.
  - right. exists o'. set_solver.
Qed.

Lemma dashboard_chartData env form orders :
  DashboardData.chartData (dashboard env form orders)
  = chartData (aggregate env form orders).
Proof. reflexivity. Qed.

Lemma maxWeek_2025 env :
  Env.currentYear env = 2025 → maxWeek env = getWeekNumber env (Env.now env).
Proof. intros H. unfold maxWeek. by rewrite bool_decide_eq_true_2. Qed.

Lemma seqZ_sorted m n : StronglySorted Z.le (seqZ m n).
Proof.
  destruct (decide (0 ≤ n)) as [Hn|Hn];
    [|rewrite seqZ_nil by lia; constructor].
  rewrite <-(Z2Nat.id n) by done. generalize (Z.to_nat n) as k. clear.
  intros k. revert m. induction k as [|k IH]; intros m.
  - rewrite seqZ_nil by lia. constructor.
  - rewrite seqZ_cons by lia.
    replace (Z.pred (Z.of_nat (S k))) with (Z.of_nat k) by lia.
    constructor; [apply IH|].
    apply Forall_forall. intros x Hx%elem_of_seqZ. lia.
Qed.

(** The weekly map after the whole loop, at a seeded week. *)
Lemma aggregate_weekly_seeded env form orders w :
  1 ≤ w ≤ maxWeek env →
  is_Some (Dash.weeklyData (aggregate env form orders) !! w).
Proof.
  intros Hw. apply fold_weekly_is_Some. simpl.
  rewrite seedWeeks_lookup, decide_True by done. by eexists.
Qed.

Lemma aggregate_weekly_empty env form orders w :
  1 ≤ w ≤ maxWeek env →
  ¬ accumulatedIn env form orders w →
  Dash.weeklyData (aggregate env form orders) !! w = Some Bucket.zero.
Proof.
  intros Hw Hno. unfold aggregate. rewrite fold_weekly_untouched.
  - simpl. by rewrite seedWeeks_lookup, decide_True.
  - intros o Ho Ha Hweek. apply Hno. by exists o.
Qed.

(** C8. With the current year being 2025, the weekly chart is sorted by
    ascending week number, no week number occurs twice, and every week from
    1 through the current week has its entry; the entry of a week into which
    no accumulated order falls has orderCount 0 and grossRevenue 0.  When
    all accumulated orders fall into weeks 1 through the current week, the
    chart consists of exactly those weeks. *)
Theorem empty_weeks_seeded env form orders :
  Env.currentYear env = 2025 →
  let chart := DashboardData.chartData (dashboard env form orders) in
  let current := getWeekNumber env (Env.now env) in
  Sorted weekLe chart
  ∧ NoDup (ChartRow.week <$> chart)
  ∧ (∀ w, 1 ≤ w ≤ current → ∃ row, row ∈ chart ∧ ChartRow.week row = w)
  ∧ (∀ w row,
       1 ≤ w ≤ current → ¬ accumulatedIn env form orders w →
       row ∈ chart → ChartRow.week row = w →
       ChartRow.orderCount row = 0 ∧ ChartRow.grossRevenue row = 0%Qc)
  ∧ ((∀ w, accumulatedIn env form orders w → 1 ≤ w ≤ current) →
     ChartRow.week <$> chart = seqZ 1 current).
Proof.
  intros Hyear chart current. unfold chart.
  rewrite dashboard_chartData. unfold current.
  rewrite <-(maxWeek_2025 env Hyear).
  split; [apply chartData_sorted|]. split; [apply chartData_NoDup|].
  split; [|split].
  - intros w Hw.
    destruct (aggregate_weekly_seeded env form orders w Hw) as [b Hb].
    exists (chartRow w b). split; [|done].
    apply elem_of_chartData. exists b. by rewrite chartRow_week.
  - intros w row Hw Hno Hrow Hweek.
    apply elem_of_chartData in Hrow as (b & Hb & ->). simpl in Hweek, Hb.
    rewrite Hweek, aggregate_weekly_empty in Hb by done.
    injection Hb as <-. split; [done|]. simpl. apply round2_zero.
  - intros Hrange.
    apply (StronglySorted_unique Z.le); [| apply seqZ_sorted |].
    + apply Sorted_StronglySorted; [apply _|].
      apply (Sorted_fmap _ weekLe Z.le); [done|apply chartData_sorted].
    + apply NoDup_Permutation;
        [apply chartData_NoDup|apply NoDup_seqZ|].
      intros w. rewrite chartData_weeks, elem_of_seqZ.
      rewrite list_elem_of_fmap. split.
      * intros ([w' b] & -> & Hin%elem_of_map_to_list). simpl.
        destruct (fold_weekly_dom env form (initial env)
                    (filterChannel form orders) w') as [Hseed|Hacc].
        { by eexists. }
        { simpl in Hseed. rewrite seedWeeks_lookup in Hseed.
          case_decide; [lia|by destruct Hseed]. }
        { assert (1 ≤ w' ≤ maxWeek env); [|lia].
          apply Hrange. destruct Hacc as (o & ? & ? & ?). by exists o. }
      * intros Hw.
        destruct (aggregate_weekly_seeded env form orders w) as [b Hb];
          [lia|].
        exists (w, b). split; [done|]. by apply elem_of_map_to_list.
Qed.

Lemma empty_weeks_seeded_witness :
  let chart :=
    DashboardData.chartData
      (dashboard utcWeek10 noFilter [tripleOrder; shippingOnlyOrder]) in
  Env.currentYear utcWeek10 = 2025
  ∧ Sorted weekLe chart
  ∧ ChartRow.week <$> chart = seqZ 1 10
  ∧ (∀ row, row ∈ chart → ChartRow.week row = 4 →
       ChartRow.orderCount row = 0 ∧ ChartRow.grossRevenue row = 0%Qc).
Proof.
  intros chart.
  destruct (empty_weeks_seeded utcWeek10 noFilter
              [tripleOrder; shippingOnlyOrder] eq_refl)
    as (Hsorted & _ & _ & Hzero & Hall).
  assert (∀ w, accumulatedIn utcWeek10 noFilter
                 [tripleOrder; shippingOnlyOrder] w → w = 2) as Hacc.
  { intros w (o & Ho & Ha & Hw).
    apply list_elem_of_In in Ho. simpl in Ho.
    destruct Ho as [<-|[<-|[]]].
    - rewrite <-Hw. reflexivity.
    - vm_compute in Ha. discriminate Ha. }
  split; [reflexivity|]. split; [exact Hsorted|]. split.
  - apply Hall. intros w Hw. rewrite (Hacc w Hw). vm_compute.
    split; discriminate.
  - intros row Hrow Hweek. apply (Hzero 4 row); [| |exact Hrow|exact Hweek].
    + vm_compute. split; discriminate.
    + intros Hw. apply Hacc in Hw. discriminate Hw.
Defined.

(** The chart of that run, evaluated: ten entries, one per week, and only
    week 2 holds an order (the zero-value order of week 5 was dropped). *)
Example weekly_chart_ten_weeks :
  (λ r, (ChartRow.week r, ChartRow.orderCount r))
    <$> DashboardData.chartData
          (dashboard utcWeek10 noFilter [tripleOrder; shippingOnlyOrder])
  = [(1, 0); (2, 1); (3, 0); (4, 0); (5, 0); (6, 0); (7, 0); (8, 0);
     (9, 0); (10, 0)].
Proof. vm_compute. reflexivity. Qed.

(** An order dated before the start of 2025 adds an entry whose week number
    is not positive, ahead of the seeded weeks. *)
Example weekly_chart_order_before_2025 :
  let early :=
    Order.mk "gid://shopify/Order/0" (Some "#0999")
      "2024-12-30T12:00:00Z" 1735560000000 None None
      (Some (JS.dec 20 1)) (Some 0%Qc) (Some (JS.dec 20 1)) (Some 0%Qc)
      [] [] in
  head ((λ r, (ChartRow.week r, ChartRow.orderCount r))
          <$> DashboardData.chartData (dashboard utcWeek10 noFilter [early]))
  = Some (0, 1).
Proof. vm_compute. reflexivity. Qed.

(** ** Sums over the chart *)

Lemma sumQc_perm {A} (f : A → Qc) (l l' : list A) :
  l ≡ₚ l' → sumQc f l = sumQc f l'.
Proof.
  induction 1 as [|x l l' _ IH|x y l|l l' l'' _ IH1 _ IH2].
  - done.
  - by rewrite !sumQc_cons, IH.
  - rewrite !sumQc_cons. ring.
  - congruence.
Qed.

Lemma sumQc_zero {A} (f : A → Qc) (l : list A) :
  (∀ x, x ∈ l → f x = 0%Qc) → sumQc f l = 0%Qc.
Proof.
  induction l as [|x l IH]; intros H; [done|].
  rewrite sumQc_cons, IH, (H x); [ring|by left|].
  intros y Hy. apply H. by right.
Qed.

Lemma foldl_sumZ {A} (f : A → Z) (l : list A) (a : Z) :
  foldl (λ sum w, sum + f w) a l = a + sumZ f l.
Proof.
  unfold sumZ. revert a.
  induction l as [|x l IH]; intros a; simpl; [lia|].
  rewrite IH, (IH (0 + f x)). lia.
Qed.

Lemma sumZ_cons {A} (f : A → Z) (x : A) (l : list A) :
  sumZ f (x :: l) = f x + sumZ f l.
Proof. unfold sumZ at 1. simpl. rewrite foldl_sumZ. lia. Qed.

Lemma sumZ_perm {A} (f : A → Z) (l l' : list A) :
  l ≡ₚ l' → sumZ f l = sumZ f l'.
Proof.
  induction 1 as [|x l l' _ IH|x y l|l l' l'' _ IH1 _ IH2].
  - done.
  - by rewrite !sumZ_cons, IH.
  - rewrite !sumZ_cons. lia.
  - congruence.
Qed.

Lemma sumZ_zero {A} (f : A → Z) (l : list A) :
  (∀ x, x ∈ l → f x = 0) → sumZ f l = 0.
Proof.
  induction l as [|x l IH]; intros H; [done|].
  rewrite sumZ_cons, IH, (H x); [lia|by left|].
  intros y Hy. apply H. by right.
Qed.

(** The chart of a weekly map that holds one bucket [b] at week [w] and
    zero buckets elsewhere: [b]'s row is in it and carries the totals. *)
Lemma chartData_single st w b :
  Dash.weeklyData st !! w = Some b →
  (∀ w' b', w' ≠ w → Dash.weeklyData st !! w' = Some b' → b' = Bucket.zero) →
  chartRow w b ∈ chartData st
  ∧ sumQc ChartRow.grossRevenue (chartData st) = round2 (Bucket.grossRevenue b)
  ∧ sumQc ChartRow.discounts (chartData st) = round2 (Bucket.discounts b)
  ∧ sumZ ChartRow.orderCount (chartData st) = Bucket.orderCount b.
Proof.
  intros Hw Hzero.
  assert (chartData st
          ≡ₚ chartRow w b
             :: (uncurry chartRow
                   <$> map_to_list (delete w (Dash.weeklyData st)))) as Hperm.
  { rewrite chartData_perm, <-(map_to_list_delete _ w b Hw). done. }
  assert (∀ row,
            row ∈ uncurry chartRow
                    <$> map_to_list (delete w (Dash.weeklyData st)) →
            ∃ w', row = chartRow w' Bucket.zero) as Hrest.
  { intros row ([w' b'] & -> & Hin%elem_of_map_to_list)%list_elem_of_fmap.
    apply lookup_delete_Some in Hin as [Hne Hin].
    exists w'. simpl. by rewrite (Hzero w' b'). }
  split; [rewrite Hperm; by left|].
  rewrite !(sumQc_perm _ _ _ Hperm), (sumZ_perm _ _ _ Hperm).
  rewrite !sumQc_cons, sumZ_cons.
  rewrite !sumQc_zero, sumZ_zero.
  - repeat split; simpl; ring || lia.
  - intros row (w' & ->)%Hrest. done.
  - intros row (w' & ->)%Hrest. simpl. apply round2_zero.
  - intros row (w' & ->)%Hrest. simpl. apply round2_zero.
Qed.

(** The weekly map after a single accumulated order. *)
Lemma aggregate_single env form order :
  filterChannel form [order] = [order] →
  accumulated form order = true →
  let w := getWeekNumber env (Order.createdAtTime order) in
  let st := aggregate env form [order] in
  Dash.weeklyData st !! w
  = Some (Bucket.add Bucket.zero (orderFigures form order))
  ∧ (∀ w' b', w' ≠ w → Dash.weeklyData st !! w' = Some b' →
              b' = Bucket.zero)
  ∧ Dash.totalShippingRevenue st
    = (0 + Figures.shippingRevenue (orderFigures form order))%Qc.
Proof.
  intros Hch Hacc w st. unfold st, aggregate. rewrite Hch. simpl.
  split; [|split].
  - rewrite accumulate_weekly, Hacc. fold w.
    rewrite bool_decide_eq_true_2 by done. simpl.
    rewrite seedWeeks_lookup. by case_decide.
  - intros w' b' Hne. rewrite accumulate_weekly. fold w.
    rewrite bool_decide_eq_false_2 by done. rewrite andb_false_r. simpl.
    rewrite seedWeeks_lookup. case_decide; [|done]. by intros [= <-].
  - unfold accumulate. unfold accumulated in Hacc. by rewrite Hacc.
Qed.

(** ** The end-to-end waterfall scenario *)

Lemma dashboard_totals env form orders :
  let d := dashboard env form orders in
  let st := aggregate env form orders in
  DashboardData.totalRevenue d
  = round2 (sumQc ChartRow.grossRevenue (chartData st))
  ∧ DashboardData.totalDiscounts d
    = round2 (sumQc ChartRow.discounts (chartData st))
  ∧ DashboardData.totalOrders d = sumZ ChartRow.orderCount (chartData st)
  ∧ DashboardData.totalShippingRevenue d
    = round2 (Dash.totalShippingRevenue st).
Proof. done. Qed.

(** The figures of an order with subtotal 100, discount 10 and shipping 5,
    without product filter. *)
Lemma scenario_figures order :
  Order.subtotalPriceSet order = Some (JS.dec 100 1) →
  Order.totalDiscountsSet order = Some (JS.dec 10 1) →
  Order.totalShippingPriceSet order = Some (JS.dec 5 1) →
  orderFigures noFilter order
  = Figures.mk (JS.dec 100 1 + JS.dec 10 1)%Qc (JS.dec 10 1) (JS.dec 5 1)
      (sumQuantity (Order.lineItems order)).
Proof. intros Hs Hd Hsh. unfold orderFigures. simpl. by rewrite Hs, Hd, Hsh. Qed.

(** Read over exact rationals, as the design document computes it, the
    same path gives a fulfillment cost of 8.345 and a CM2 of 56.655, which
    is 56.66 at two decimals and 53.957... percent of the net revenue. *)
Lemma waterfall_scenario_over_rationals env order :
  Order.subtotalPriceSet order = Some (JS.dec 100 1) →
  Order.totalDiscountsSet order = Some (JS.dec 10 1) →
  Order.totalShippingPriceSet order = Some (JS.dec 5 1) →
  let d := dashboard env noFilter [order] in
  let m := metrics d in
  (∃ row,
     row ∈ DashboardData.chartData d
     ∧ ChartRow.week row = getWeekNumber env (Order.createdAtTime order)
     ∧ ChartRow.grossRevenue row = JS.dec 110 1
     ∧ ChartRow.netRevenue row = JS.dec 105 1
     ∧ ChartRow.grossProfit row = JS.dec 65 1
     ∧ ChartRow.cm2 row = JS.dec 5666 100)
  ∧ DashboardData.totalRevenue d = JS.dec 110 1
  ∧ Metrics.netRevenue m = JS.dec 105 1
  ∧ Metrics.productCost m = JS.dec 40 1
  ∧ Metrics.grossProfit m = JS.dec 65 1
  ∧ Metrics.fulfillmentCost m = JS.dec 8345 1000
  ∧ round2 (Metrics.cm2 m) = JS.dec 5666 100
  ∧ JS.toFixed1 (Metrics.cm2Percent m) = JS.Finite (JS.dec 54 1).
Proof.
  intros Hs Hd Hsh d m.
  pose proof (scenario_figures order Hs Hd Hsh) as Hf.
  assert (accumulated noFilter order = true) as Hacc.
  { unfold accumulated. by rewrite Hf. }
  destruct (aggregate_single env noFilter order eq_refl Hacc)
    as (Hw & Hz & Hship).
  destruct (chartData_single _ _ _ Hw Hz) as (Hrow & Hrev & Hdisc & Hord).
  destruct (dashboard_totals env noFilter [order]) as (Er & Ed & Eo & Es).
  fold d in Er, Ed, Eo, Es.
  rewrite Hrev in Er. rewrite Hdisc in Ed. rewrite Hord in Eo.
  rewrite Hship in Es. rewrite Hf in Er, Ed, Eo, Es, Hrow.
  cbn [Bucket.add Bucket.zero Bucket.grossRevenue Bucket.discounts
       Bucket.orderCount Figures.grossRevenue Figures.discounts
       Figures.shippingRevenue] in Er, Ed, Eo, Es.
  assert (DashboardData.totalRevenue d = JS.dec 110 1) as Er'
    by (rewrite Er; qc_compute).
  assert (DashboardData.totalDiscounts d = JS.dec 10 1) as Ed'
    by (rewrite Ed; qc_compute).
  assert (DashboardData.totalShippingRevenue d = JS.dec 5 1) as Es'
    by (rewrite Es; qc_compute).
  split.
  { eexists. split; [exact Hrow|].
    unfold chartRow.
    cbn [ChartRow.week ChartRow.grossRevenue ChartRow.netRevenue
         ChartRow.grossProfit ChartRow.cm2 Bucket.add Bucket.zero
         Bucket.grossRevenue Bucket.discounts Bucket.orderCount
         Bucket.shippingRevenue Figures.grossRevenue Figures.discounts
         Figures.shippingRevenue].
    split; [done|]. repeat split; qc_compute. }
  split; [exact Er'|].
  unfold m, metrics.
  cbn [Metrics.netRevenue Metrics.productCost Metrics.grossProfit
       Metrics.fulfillmentCost Metrics.cm2 Metrics.cm2Percent].
  rewrite Er', Ed', Es', Eo.
  repeat split; try qc_compute.
  unfold percentOf, JS.toFixed1, JS.div, JS.times.
  rewrite (proj2 (gt0_spec _)) by reflexivity.
  rewrite bool_decide_eq_false_2 by qc_neq.
  rewrite bool_decide_eq_false_2 by (vm_compute; discriminate).
  f_equal. qc_compute.
Qed.

(** The weekly chart of a single order over doubles. *)

#[global] Instance Binary64_weekLe_total : Total Binary64.weekLe.
Proof. intros a b. unfold Binary64.weekLe. lia. Qed.

Lemma Binary64_seedWeeks_lookup n w :
  default Binary64.Bucket.zero (Binary64.seedWeeks n !! w)
  = Binary64.Bucket.zero.
Proof.
  unfold Binary64.seedWeeks. generalize (seqZ 1 n).
  assert (∀ (l : list Z) (m : gmap Z Binary64.Bucket.t),
            default Binary64.Bucket.zero (m !! w) = Binary64.Bucket.zero →
            default Binary64.Bucket.zero
              (foldl (λ m i, <[i := Binary64.Bucket.zero]> m) m l !! w)
            = Binary64.Bucket.zero) as Hfold.
  { induction l as [|i l IH]; intros m Hm; cbn [foldl]; [done|].
    apply IH. destruct (decide (i = w)) as [->|Hne].
    - by rewrite lookup_insert_eq.
    - by rewrite lookup_insert_ne. }
  intros l. apply Hfold. by rewrite lookup_empty.
Qed.

Lemma Binary64_chartData_perm st :
  Binary64.chartData st
  ≡ₚ uncurry Binary64.chartRow <$> map_to_list (Binary64.Dash.weeklyData st).
Proof. apply merge_sort_Permutation. Qed.

(** The chart of a weekly map that holds one bucket [b] at week [w] and
    zero buckets elsewhere. *)
Lemma Binary64_chartData_single st w b :
  Binary64.Dash.weeklyData st !! w = Some b →
  (∀ w' b', w' ≠ w → Binary64.Dash.weeklyData st !! w' = Some b' →
            b' = Binary64.Bucket.zero) →
  let row := Binary64.chartRow w b in
  Binary64.ChartRow.grossRevenue row ≠ S754_zero true →
  Binary64.ChartRow.discounts row ≠ S754_zero true →
  row ∈ Binary64.chartData st
  ∧ Binary64.sum Binary64.ChartRow.grossRevenue (Binary64.chartData st)
    = Binary64.ChartRow.grossRevenue row
  ∧ Binary64.sum Binary64.ChartRow.discounts (Binary64.chartData st)
    = Binary64.ChartRow.discounts row
  ∧ sumZ Binary64.ChartRow.orderCount (Binary64.chartData st)
    = Binary64.Bucket.orderCount b.
Proof.
  intros Hw Hzero row Hg Hd.
  assert (Binary64.chartData st
          ≡ₚ row :: (uncurry Binary64.chartRow
                       <$> map_to_list
                             (delete w (Binary64.Dash.weeklyData st))))
    as Hperm.
  { rewrite Binary64_chartData_perm, <-(map_to_list_delete _ w b Hw). done. }
  assert (∀ r,
            r ∈ uncurry Binary64.chartRow
                  <$> map_to_list (delete w (Binary64.Dash.weeklyData st)) →
            ∃ w', r = Binary64.chartRow w' Binary64.Bucket.zero) as Hrest.
  { intros r ([w' b'] & -> & Hin%elem_of_map_to_list)%list_elem_of_fmap.
    apply lookup_delete_Some in Hin as [Hne Hin].
    exists w'. simpl. by rewrite (Hzero w' b'). }
  split; [rewrite Hperm; by left|].
  split; [|split].
  - apply (F64_sum_single _ _ _ _ Hperm); [|done].
    apply Forall_forall. by intros r (w' & ->)%Hrest.
  - apply (F64_sum_single _ _ _ _ Hperm); [|done].
    apply Forall_forall. by intros r (w' & ->)%Hrest.
  - rewrite (sumZ_perm _ _ _ Hperm), sumZ_cons, sumZ_zero; [simpl; lia|].
    by intros r (w' & ->)%Hrest.
Qed.

(** The state after a feed of one accumulated order. *)
Lemma Binary64_aggregate_single env form order :
  filterChannel form [order] = [order] →
  let f := Binary64.orderFigures form order in
  F64.gt0 (Binary64.Figures.grossRevenue f)
  || F64.gt0 (Binary64.Figures.discounts f) = true →
  let w := getWeekNumber env (Order.createdAtTime order) in
  let st := Binary64.aggregate env form [order] in
  Binary64.Dash.weeklyData st !! w
  = Some (Binary64.Bucket.add Binary64.Bucket.zero f)
  ∧ (∀ w' b', w' ≠ w → Binary64.Dash.weeklyData st !! w' = Some b' →
              b' = Binary64.Bucket.zero)
  ∧ Binary64.Dash.totalShippingRevenue st
    = F64.add F64.zero (Binary64.Figures.shippingRevenue f).
Proof.
  intros Hch f Hacc w st. unfold st, Binary64.aggregate. rewrite Hch.
  cbn [foldl]. unfold Binary64.accumulate. fold f w. rewrite Hacc.
  cbn [Binary64.Dash.weeklyData Binary64.Dash.totalShippingRevenue
       Binary64.initial].
  rewrite Binary64_seedWeeks_lookup. split; [|split].
  - by rewrite lookup_insert_eq.
  - intros w' b' Hne. rewrite lookup_insert_ne by done. intros Hb.
    pose proof (Binary64_seedWeeks_lookup (maxWeek env) w') as Hs.
    by rewrite Hb in Hs.
  - done.
Qed.

(** The figures of an order with subtotal 100, discount 10 and shipping 5,
    without product filter. *)
Lemma Binary64_scenario_figures order :
  Order.subtotalPriceSet order = Some (JS.dec 100 1) →
  Order.totalDiscountsSet order = Some (JS.dec 10 1) →
  Order.totalShippingPriceSet order = Some (JS.dec 5 1) →
  Binary64.orderFigures noFilter order
  = Binary64.Figures.mk (F64.ofZ 110) (F64.ofZ 10) (F64.ofZ 5)
      (sumQuantity (Order.lineItems order)).
Proof.
  intros Hs Hd Hsh. unfold Binary64.orderFigures. cbn [orb hasProductFilter
    hasProductTypeFilter isFilter noFilter Form.productId Form.productType].
  rewrite Hs, Hd, Hsh. f_equal.
Qed.

(** C1 (as amended). For a single paid order with subtotal $100, order-level
    discount $10 and shipping revenue $5, the dashboard waterfall under the
    default cost assumptions gives, in binary64 as the code computes it: in
    the order's weekly chart entry grossRevenue 110, netRevenue 105,
    grossProfit 65 and CM2 56.66; in the page metrics netRevenue 105, COGS
    40, grossProfit 65, fulfillment cost 8.344999999999999 (the double just
    below 8.345), CM2 56.66 at two decimals and CM2 as a percent of
    netRevenue 54.0 at one decimal. *)
Theorem waterfall_scenario env order :
  Order.subtotalPriceSet order = Some (JS.dec 100 1) →
  Order.totalDiscountsSet order = Some (JS.dec 10 1) →
  Order.totalShippingPriceSet order = Some (JS.dec 5 1) →
  let d := Binary64.dashboard env noFilter [order] in
  let m := Binary64.metrics d in
  (∃ row,
     row ∈ Binary64.DashboardData.chartData d
     ∧ Binary64.ChartRow.week row
       = getWeekNumber env (Order.createdAtTime order)
     ∧ Binary64.ChartRow.grossRevenue row = F64.ofZ 110
     ∧ Binary64.ChartRow.netRevenue row = F64.ofZ 105
     ∧ Binary64.ChartRow.grossProfit row = F64.ofZ 65
     ∧ Binary64.ChartRow.cm2 row = F64.dec 5666 100)
  ∧ Binary64.DashboardData.totalRevenue d = F64.ofZ 110
  ∧ Binary64.Metrics.netRevenue m = F64.ofZ 105
  ∧ Binary64.Metrics.productCost m = F64.ofZ 40
  ∧ Binary64.Metrics.grossProfit m = F64.ofZ 65
  ∧ Binary64.Metrics.fulfillmentCost m
    = F64.dec 8344999999999999 1000000000000000
  ∧ Binary64.round2 (Binary64.Metrics.cm2 m) = F64.dec 5666 100
  ∧ F64.toFixed1 (Binary64.Metrics.cm2Percent m) = "54.0".
Proof.
  intros Hs Hd Hsh d m.
  pose proof (Binary64_scenario_figures order Hs Hd Hsh) as Hf.
  destruct (Binary64_aggregate_single env noFilter order eq_refl)
    as (Hw & Hz & Hship).
  { by rewrite Hf. }
  rewrite Hf in Hw, Hship.
  destruct (Binary64_chartData_single _ _ _ Hw Hz)
    as (Hrow & Hrev & Hdisc & Hord); [done|done|].
  assert (Binary64.DashboardData.totalRevenue d = F64.ofZ 110) as Er.
  { unfold d, Binary64.dashboard. cbn [Binary64.DashboardData.totalRevenue].
    rewrite Hrev. reflexivity. }
  assert (Binary64.DashboardData.totalDiscounts d = F64.ofZ 10) as Ed.
  { unfold d, Binary64.dashboard. cbn [Binary64.DashboardData.totalDiscounts].
    rewrite Hdisc. reflexivity. }
  assert (Binary64.DashboardData.totalOrders d = 1) as Eo.
  { unfold d, Binary64.dashboard. cbn [Binary64.DashboardData.totalOrders].
    rewrite Hord. reflexivity. }
  assert (Binary64.DashboardData.totalShippingRevenue d = F64.ofZ 5) as Es.
  { unfold d, Binary64.dashboard.
    cbn [Binary64.DashboardData.totalShippingRevenue].
    rewrite Hship. reflexivity. }
  split.
  { eexists. split; [exact Hrow|]. repeat split. }
  split; [exact Er|].
  unfold m, Binary64.metrics.
  cbn [Binary64.Metrics.netRevenue Binary64.Metrics.productCost
       Binary64.Metrics.grossProfit Binary64.Metrics.fulfillmentCost
       Binary64.Metrics.cm2 Binary64.Metrics.cm2Percent].
  rewrite Er, Ed, Es, Eo.
  repeat split; vm_compute; reflexivity.
Qed.

Lemma waterfall_scenario_witness :
  let d := Binary64.dashboard utcJune2025 noFilter [scenarioOrder] in
  let m := Binary64.metrics d in
  (∃ row,
     row ∈ Binary64.DashboardData.chartData d
     ∧ Binary64.ChartRow.week row = 11
     ∧ Binary64.ChartRow.grossRevenue row = F64.ofZ 110
     ∧ Binary64.ChartRow.netRevenue row = F64.ofZ 105
     ∧ Binary64.ChartRow.grossProfit row = F64.ofZ 65
     ∧ Binary64.ChartRow.cm2 row = F64.dec 5666 100)
  ∧ Binary64.DashboardData.totalRevenue d = F64.ofZ 110
  ∧ Binary64.Metrics.netRevenue m = F64.ofZ 105
  ∧ Binary64.Metrics.productCost m = F64.ofZ 40
  ∧ Binary64.Metrics.grossProfit m = F64.ofZ 65
  ∧ Binary64.Metrics.fulfillmentCost m
    = F64.dec 8344999999999999 1000000000000000
  ∧ Binary64.round2 (Binary64.Metrics.cm2 m) = F64.dec 5666 100
  ∧ F64.toFixed1 (Binary64.Metrics.cm2Percent m) = "54.0".
Proof.
  exact (waterfall_scenario utcJune2025 scenarioOrder eq_refl eq_refl eq_refl).
Defined.

(** C1, counterexample. On the scenario order the dashboard's CM2 percent is
    53.957..., printed as 54.0 at one decimal, not 53.9; and the fulfillment
    cost the page holds is not the double 8.345 but the one below it, for
    the transaction fees are 105 * (2.9 / 100) + 0.30 =
    3.3449999999999998. *)
Lemma waterfall_scenario_cm2_percent_is_not_53_9 :
  let m :=
    Binary64.metrics
      (Binary64.dashboard utcJune2025 noFilter [scenarioOrder]) in
  F64.toFixed1 (Binary64.Metrics.cm2Percent m) = "54.0"
  ∧ F64.toFixed1 (Binary64.Metrics.cm2Percent m) ≠ "53.9"
  ∧ Binary64.Metrics.transactionFees m
    = F64.dec 33449999999999998 10000000000000000
  ∧ Binary64.Metrics.fulfillmentCost m ≠ F64.dec 8345 1000.
Proof.
  intros m.
  assert (F64.toFixed1 (Binary64.Metrics.cm2Percent m) = "54.0") as E
    by (vm_compute; reflexivity).
  split; [exact E|]. split; [by rewrite E|].
  split; [vm_compute; reflexivity|].
  intros H. vm_compute in H. discriminate H.
Qed.

(** The per-order report runs a different waterfall on the same order: it
    counts shipping revenue in gross revenue and in the COGS basis. *)
Example waterfall_scenario_per_order_report :
  let e :=
    enrichOrder defaultShippingSettings [] defaultTransactionFeeSettings
      (orderReportRow scenarioOrder) in
  Enriched.grossRevenue e = JS.dec 115 1
  ∧ Enriched.netRevenue e = JS.dec 105 1
  ∧ Enriched.cogs e = JS.dec 42 1
  ∧ Enriched.grossProfit e = JS.dec 63 1
  ∧ enrichOrderDefault (orderReportRow scenarioOrder)
    = Enriched.mk (Enriched.grossRevenue e) (Enriched.discounts e)
        (Enriched.netRevenue e) (Enriched.cogs e) (Enriched.grossProfit e)
        (Enriched.shippingCost e) None (Enriched.transactionFees e)
        (Enriched.fulfillmentCost e) (Enriched.cm2 e) (Enriched.margin e).
Proof.
  repeat split; qc_compute.
Qed.

(** ** Guest orders in the customer analysis *)

(** In the spend map every guest order goes under the one key "guest". *)
Lemma customerSpend_guest_key order :
  Order.customer order = None → customerKey "guest" order = "guest".
Proof. intros H. unfold customerKey. by rewrite H. Qed.

(** In the first-order map guest orders with different ids get different
    keys. *)
Lemma customerFirstOrder_guest_key o1 o2 :
  Order.customer o1 = None → Order.customer o2 = None →
  Order.id o1 ≠ Order.id o2 →
  customerKey ("guest-" +:+ Order.id o1) o1
  ≠ customerKey ("guest-" +:+ Order.id o2) o2.
Proof.
  intros H1 H2 Hne. unfold customerKey. rewrite H1, H2.
  intros Heq. by simplify_eq/=.
Qed.

(** C9, evaluated on two guest orders of $30 each: the LTV analysis sees one
    customer "guest" who spent $60 (bucket $50-100, one customer in all),
    not two customers in $25-50; the first-order map of the same action
    keeps the two orders apart. *)
Lemma guest_orders_merged_in_ltv :
  customerSpend twoGuests !! "guest" = Some (JS.dec 60 1)
  ∧ totalCustomers twoGuests = 1%nat
  ∧ LTVBucket.count <$> ltvBuckets twoGuests = [0; 0; 1; 0; 0; 0; 0]
  ∧ LTVBucket.count
      <$> ltvBuckets [guestOrder "gid://shopify/Order/11" (JS.dec 30 1)]
    = [0; 1; 0; 0; 0; 0; 0]
  ∧ size (customerFirstOrder utcJune2025 twoGuests) = 2%nat.
Proof.
  split; [vm_compute; f_equal; qc_compute|].
  repeat split; vm_compute; reflexivity.
Qed.

(** * Further properties of the code *)

(** ** Week numbers *)

(** X1. [getWeekNumber] numbers the consecutive 7-day windows that start at
    the server's 1 January 2025, the first one being week 1: a date lies in
    week [w] exactly when it is at least [w - 1] and less than [w] whole
    weeks after that instant.  Dates before it get week numbers 0, -1, ... *)
Theorem week_number_window env date w :
  getWeekNumber env date = w ↔
  Env.startOfYear env + (w - 1) * 604800000 ≤ date
  < Env.startOfYear env + w * 604800000.
Proof.
  unfold getWeekNumber, JS.floorDiv.
  rewrite Z.div_div by lia.
  replace (1000 * 60 * 60 * 24 * 7) with 604800000 by lia.
  pose proof (Z.div_mod (date - Env.startOfYear env) 604800000 ltac:(lia)).
  pose proof (Z.mod_pos_bound (date - Env.startOfYear env) 604800000
                ltac:(lia)).
  split; [intros <-; lia|]. intros [Hlo Hhi]. nia.
Qed.

(** ** Sums over maps *)

Lemma sumZ_fmap {A B} (f : B → Z) (g : A → B) (l : list A) :
  sumZ f (g <$> l) = sumZ (λ x, f (g x)) l.
Proof.
  induction l as [|x l IH]; [done|]. by rewrite fmap_cons, !sumZ_cons, IH.
Qed.

Lemma sumQc_fmap {A B} (f : B → Qc) (g : A → B) (l : list A) :
  sumQc f (g <$> l) = sumQc (λ x, f (g x)) l.
Proof.
  induction l as [|x l IH]; [done|]. by rewrite fmap_cons, !sumQc_cons, IH.
Qed.

Lemma sumZ_ext {A} (f g : A → Z) (l : list A) :
  (∀ x, f x = g x) → sumZ f l = sumZ g l.
Proof.
  intros Hfg. induction l as [|x l IH]; [done|].
  by rewrite !sumZ_cons, IH, Hfg.
Qed.

Lemma sumZ_app {A} (f : A → Z) (l1 l2 : list A) :
  sumZ f (l1 ++ l2) = sumZ f l1 + sumZ f l2.
Proof.
  induction l1 as [|x l1 IH]; [unfold sumZ at 2; simpl; lia|].
  rewrite <-app_comm_cons, !sumZ_cons, IH. lia.
Qed.

Lemma sumQc_app {A} (f : A → Qc) (l1 l2 : list A) :
  sumQc f (l1 ++ l2) = (sumQc f l1 + sumQc f l2)%Qc.
Proof.
  induction l1 as [|x l1 IH]; [rewrite sumQc_nil; simpl; ring|].
  rewrite <-app_comm_cons, !sumQc_cons, IH. ring.
Qed.

Lemma mapSumZ_empty `{Countable K} {V} (f : V → Z) :
  mapSumZ f (∅ : gmap K V) = 0.
Proof. unfold mapSumZ. by rewrite map_to_list_empty. Qed.

Lemma mapSumQc_empty `{Countable K} {V} (f : V → Qc) :
  mapSumQc f (∅ : gmap K V) = 0%Qc.
Proof. unfold mapSumQc. by rewrite map_to_list_empty. Qed.

(** [m.set(k, v)] replaces the old contribution of [k], if any, by [v]'s. *)
Lemma mapSumZ_insert `{Countable K} {V} (f : V → Z) (m : gmap K V) k v :
  mapSumZ f (<[k:=v]> m) = mapSumZ f m - default 0 (f <$> m !! k) + f v.
Proof.
  unfold mapSumZ. destruct (m !! k) as [old|] eqn:Hk; simpl.
  - rewrite <-(insert_delete_eq m k v).
    rewrite (sumZ_perm _ _ _
               (map_to_list_insert (delete k m) k v (lookup_delete_eq m k))).
    rewrite <-(sumZ_perm _ _ _ (map_to_list_delete m k old Hk)).
    rewrite !sumZ_cons. simpl. lia.
  - rewrite (sumZ_perm _ _ _ (map_to_list_insert m k v Hk)), sumZ_cons.
    simpl. lia.
Qed.

Lemma mapSumQc_insert `{Countable K} {V} (f : V → Qc) (m : gmap K V) k v :
  mapSumQc f (<[k:=v]> m)
  = (mapSumQc f m - default 0%Qc (f <$> m !! k) + f v)%Qc.
Proof.
  unfold mapSumQc. destruct (m !! k) as [old|] eqn:Hk; simpl.
  - rewrite <-(insert_delete_eq m k v).
    rewrite (sumQc_perm _ _ _
               (map_to_list_insert (delete k m) k v (lookup_delete_eq m k))).
    rewrite <-(sumQc_perm _ _ _ (map_to_list_delete m k old Hk)).
    rewrite !sumQc_cons. simpl. ring.
  - rewrite (sumQc_perm _ _ _ (map_to_list_insert m k v Hk)), sumQc_cons.
    simpl. ring.
Qed.

(** ** Every accumulated order is counted once *)

Lemma mapSumZ_bump `{Countable K} (k : K) (f : Figures.t)
    (m : gmap K Bucket.t) :
  mapSumZ Bucket.orderCount (bump k f m) = mapSumZ Bucket.orderCount m + 1.
Proof.
  unfold bump. rewrite mapSumZ_insert. destruct (m !! k); simpl; lia.
Qed.

Lemma mapSumZ_seedWeeks n : mapSumZ Bucket.orderCount (seedWeeks n) = 0.
Proof.
  unfold mapSumZ. apply sumZ_zero.
  intros [w b] Hin%elem_of_map_to_list. rewrite seedWeeks_lookup in Hin.
  case_decide; [|done]. by injection Hin as <-.
Qed.

(** The number of orders of a feed that pass the accumulation guard. *)
Lemma accumulate_counts env form st order :
  let st' := accumulate env form st order in
  let d := if accumulated form order then 1 else 0 in
  mapSumZ Bucket.orderCount (Dash.weeklyData st')
  = mapSumZ Bucket.orderCount (Dash.weeklyData st) + d
  ∧ mapSumZ Bucket.orderCount (Dash.dailyData st')
    = mapSumZ Bucket.orderCount (Dash.dailyData st) + d
  ∧ mapSumZ Bucket.orderCount (Dash.monthlyData st')
    = mapSumZ Bucket.orderCount (Dash.monthlyData st) + d
  ∧ mapSumZ Bucket.orderCount (Dash.quarterlyData st')
    = mapSumZ Bucket.orderCount (Dash.quarterlyData st) + d
  ∧ Dash.totalItemCount st'
    = Dash.totalItemCount st
      + (if accumulated form order
         then Figures.itemCount (orderFigures form order) else 0).
Proof.
  unfold accumulate, accumulated.
  destruct (JS.gt0 _ || JS.gt0 _); cbn [Dash.weeklyData Dash.dailyData
    Dash.monthlyData Dash.quarterlyData Dash.totalItemCount].
  - rewrite !mapSumZ_bump. done.
  - repeat split; lia.
Qed.

Lemma fold_accumulate_counts env form st l :
  let st' := foldl (accumulate env form) st l in
  let n := Z.of_nat (length (filter (λ o, accumulated form o = true) l)) in
  mapSumZ Bucket.orderCount (Dash.weeklyData st')
  = mapSumZ Bucket.orderCount (Dash.weeklyData st) + n
  ∧ mapSumZ Bucket.orderCount (Dash.dailyData st')
    = mapSumZ Bucket.orderCount (Dash.dailyData st) + n
  ∧ mapSumZ Bucket.orderCount (Dash.monthlyData st')
    = mapSumZ Bucket.orderCount (Dash.monthlyData st) + n
  ∧ mapSumZ Bucket.orderCount (Dash.quarterlyData st')
    = mapSumZ Bucket.orderCount (Dash.quarterlyData st) + n
  ∧ Dash.totalItemCount st'
    = Dash.totalItemCount st
      + sumZ (λ o, Figures.itemCount (orderFigures form o))
             (filter (λ o, accumulated form o = true) l).
Proof.
  revert st. induction l as [|o l IH]; intros st; cbn [foldl].
  - rewrite filter_nil. simpl. unfold sumZ. simpl. repeat split; lia.
  - specialize (IH (accumulate env form st o)). cbv zeta in IH.
    destruct IH as (-> & -> & -> & -> & ->).
    destruct (accumulate_counts env form st o) as (-> & -> & -> & -> & ->).
    rewrite filter_cons. destruct (accumulated form o) eqn:Ha.
    + rewrite decide_True by done. rewrite sumZ_cons. cbn [length].
      repeat split; lia.
    + rewrite decide_False by done. repeat split; lia.
Qed.

(** X2. The dashboard's [totalOrders] is the number of orders of the
    channel-filtered feed that pass the guard
    [grossRevenue > 0 || discounts > 0], each counted once whatever week it
    falls in, and [totalItemCount] is the sum of their item counts. *)
Theorem dashboard_counts_accumulated_orders env form fetched :
  let counted :=
    filter (λ o, accumulated form o = true) (filterChannel form fetched) in
  DashboardData.totalOrders (dashboard env form fetched)
  = Z.of_nat (length counted)
  ∧ DashboardData.totalItemCount (dashboard env form fetched)
    = sumZ (λ o, Figures.itemCount (orderFigures form o)) counted.
Proof.
  intros counted. unfold dashboard.
  cbn [DashboardData.totalOrders DashboardData.totalItemCount].
  destruct (fold_accumulate_counts env form (initial env)
              (filterChannel form fetched)) as (Hw & _ & _ & _ & Hi).
  split.
  - rewrite (sumZ_perm _ _ _ (chartData_perm _)), sumZ_fmap.
    etransitivity; [|etransitivity; [exact Hw|]].
    + unfold mapSumZ. apply sumZ_ext. by intros [w b].
    + unfold initial. cbn [Dash.weeklyData]. rewrite mapSumZ_seedWeeks.
      unfold counted. lia.
  - rewrite Hi. unfold initial. cbn [Dash.totalItemCount]. fold counted. lia.
Qed.

(** X3. The weekly, daily, monthly and quarterly maps of the dashboard
    action carry the same orders: in each of them the order counts of the
    buckets add up to the number of orders that passed the guard. *)
Theorem period_maps_count_the_same_orders env form orders :
  let st := aggregate env form orders in
  let n :=
    Z.of_nat (length (filter (λ o, accumulated form o = true)
                             (filterChannel form orders))) in
  mapSumZ Bucket.orderCount (Dash.weeklyData st) = n
  ∧ mapSumZ Bucket.orderCount (Dash.dailyData st) = n
  ∧ mapSumZ Bucket.orderCount (Dash.monthlyData st) = n
  ∧ mapSumZ Bucket.orderCount (Dash.quarterlyData st) = n.
Proof.
  intros st n. unfold st, aggregate.
  destruct (fold_accumulate_counts env form (initial env)
              (filterChannel form orders)) as (-> & -> & -> & -> & _).
  unfold initial. cbn [Dash.weeklyData Dash.dailyData Dash.monthlyData
    Dash.quarterlyData].
  rewrite mapSumZ_seedWeeks, !mapSumZ_empty. fold n. repeat split; lia.
Qed.

(** ** Nothing is lost between the line items and the report rows *)

Lemma skuStep_sums st li :
  mapSumZ SkuAgg.quantity (skuStep st li)
  = mapSumZ SkuAgg.quantity st + LineItem.quantity li
  ∧ mapSumQc SkuAgg.grossRevenue (skuStep st li)
    = (mapSumQc SkuAgg.grossRevenue st + originalTotal li)%Qc
  ∧ mapSumQc SkuAgg.discounts (skuStep st li)
    = (mapSumQc SkuAgg.discounts st
       + amount (LineItem.totalDiscountSet li))%Qc.
Proof.
  unfold skuStep, originalTotal.
  rewrite mapSumZ_insert, !mapSumQc_insert.
  destruct (st !! orStr (LineItem.sku li) EmptyString); simpl;
    (split; [lia|split; ring]).
Qed.

(** X4. The profit-by-SKU aggregation drops no line item: summed over all
    SKU buckets (the bucket of the empty SKU included), quantity, gross
    revenue and discounts are the sums over every line item of every
    order. *)
Theorem sku_report_conserves_line_items orders :
  let items := concat (Order.lineItems <$> orders) in
  mapSumZ SkuAgg.quantity (skuData orders) = sumZ LineItem.quantity items
  ∧ mapSumQc SkuAgg.grossRevenue (skuData orders)
    = sumQc originalTotal items
  ∧ mapSumQc SkuAgg.discounts (skuData orders)
    = sumQc (λ li, amount (LineItem.totalDiscountSet li)) items.
Proof.
  intros items. unfold items, skuData. clear items.
  assert (∀ st l,
            mapSumZ SkuAgg.quantity (foldl skuStep st l)
            = mapSumZ SkuAgg.quantity st + sumZ LineItem.quantity l
            ∧ mapSumQc SkuAgg.grossRevenue (foldl skuStep st l)
              = (mapSumQc SkuAgg.grossRevenue st + sumQc originalTotal l)%Qc
            ∧ mapSumQc SkuAgg.discounts (foldl skuStep st l)
              = (mapSumQc SkuAgg.discounts st
                 + sumQc (λ li, amount (LineItem.totalDiscountSet li)) l)%Qc)
    as Hitems.
  { intros st l. revert st. induction l as [|li l IH]; intros st.
    - cbn [foldl]. rewrite !sumQc_nil. unfold sumZ. simpl.
      split; [lia|split; ring].
    - cbn [foldl]. destruct (IH (skuStep st li)) as (-> & -> & ->).
      destruct (skuStep_sums st li) as (-> & -> & ->).
      rewrite sumZ_cons, !sumQc_cons. split; [lia|split; ring]. }
  assert (∀ st,
            mapSumZ SkuAgg.quantity
              (foldl (λ st order, foldl skuStep st (Order.lineItems order))
                     st orders)
            = mapSumZ SkuAgg.quantity st
              + sumZ LineItem.quantity (concat (Order.lineItems <$> orders))
            ∧ mapSumQc SkuAgg.grossRevenue
                (foldl (λ st order, foldl skuStep st (Order.lineItems order))
                       st orders)
              = (mapSumQc SkuAgg.grossRevenue st
                 + sumQc originalTotal
                     (concat (Order.lineItems <$> orders)))%Qc
            ∧ mapSumQc SkuAgg.discounts
                (foldl (λ st order, foldl skuStep st (Order.lineItems order))
                       st orders)
              = (mapSumQc SkuAgg.discounts st
                 + sumQc (λ li, amount (LineItem.totalDiscountSet li))
                     (concat (Order.lineItems <$> orders)))%Qc) as Hall.
  { induction orders as [|o orders IH]; intros st.
    - cbn [foldl fmap list_fmap concat]. rewrite !sumQc_nil.
      unfold sumZ. simpl. split; [lia|split; ring].
    - cbn [foldl]. rewrite fmap_cons. cbn [concat].
      destruct (IH (foldl skuStep st (Order.lineItems o))) as (-> & -> & ->).
      destruct (Hitems st (Order.lineItems o)) as (-> & -> & ->).
      rewrite sumZ_app, !sumQc_app. split; [lia|split; ring]. }
  destruct (Hall ∅) as (-> & -> & ->).
  rewrite mapSumZ_empty, !mapSumQc_empty. split; [lia|split; ring].
Qed.

(** ** Rounding over exact rationals *)

(** Linear arithmetic over [Qc], by way of [Q]. *)
Ltac qc_lra :=
  unfold Qcle, Qclt, Qcminus, Qcdiv, Qcinv, JS.dec in *;
  cbn [this Q2Qc Qcplus Qcmult Qcopp] in *;
  repeat match goal with
         | H : context [Qred ?q] |- _ => rewrite (Qred_correct q) in H
         | |- context [Qred ?q] => rewrite (Qred_correct q)
         | H : context [Qinv (?a # ?b)] |- _ =>
             let r := eval vm_compute in (Qinv (a # b)) in
             change (Qinv (a # b)) with r in H
         | |- context [Qinv (?a # ?b)] =>
             let r := eval vm_compute in (Qinv (a # b)) in
             change (Qinv (a # b)) with r
         end;
  lra.





(** ** LTV buckets *)

Lemma countSpend_bounds spend buckets :
  (λ b, (LTVBucket.range b, LTVBucket.min b, LTVBucket.max b))
    <$> countSpend spend buckets
  = (λ b, (LTVBucket.range b, LTVBucket.min b, LTVBucket.max b)) <$> buckets.
Proof.
  induction buckets as [|b l IH]; [done|]. cbn [countSpend].
  destruct (inBucket spend b); [done|]. by rewrite !fmap_cons, IH.
Qed.

Lemma countSpend_sum spend buckets :
  sumZ LTVBucket.count (countSpend spend buckets)
  = sumZ LTVBucket.count buckets
    + (if existsb (inBucket spend) buckets then 1 else 0).
Proof.
  induction buckets as [|b l IH]; [cbn; lia|]. cbn [countSpend existsb].
  destruct (inBucket spend b); cbn [orb].
  - rewrite !sumZ_cons. cbn. lia.
  - rewrite !sumZ_cons, IH. lia.
Qed.

Lemma countSpend_nonneg spend buckets :
  Forall (λ b, 0 ≤ LTVBucket.count b) buckets →
  Forall (λ b, 0 ≤ LTVBucket.count b) (countSpend spend buckets).
Proof.
  induction 1 as [|b l Hb Hl IH]; [done|]. cbn [countSpend].
  destruct (inBucket spend b); constructor; cbn; (done || lia).
Qed.

(** The seven ranges cover exactly the non-negative amounts. *)
Lemma ltv_ranges_cover spend buckets :
  (λ b, (LTVBucket.range b, LTVBucket.min b, LTVBucket.max b)) <$> buckets
  = (λ b, (LTVBucket.range b, LTVBucket.min b, LTVBucket.max b))
      <$> ltvBuckets0 →
  existsb (inBucket spend) buckets = bool_decide (0 ≤ spend)%Qc.
Proof.
  intros Hb.
  assert (existsb (inBucket spend) buckets
          = existsb (inBucket spend) ltvBuckets0) as ->.
  { assert (∀ l, existsb (inBucket spend) l
                 = existsb (λ t, inBucket spend
                                   (LTVBucket.mk t.1.1 0 t.1.2 t.2))
                     ((λ b, (LTVBucket.range b, LTVBucket.min b,
                             LTVBucket.max b)) <$> l)) as Hl.
    { induction l as [|b l IH]; [done|]. rewrite fmap_cons.
      cbn [existsb]. by rewrite IH. }
    by rewrite (Hl buckets), (Hl ltvBuckets0), Hb. }
  unfold ltvBuckets0, inBucket.
  cbn [existsb LTVBucket.min LTVBucket.max].
  destruct (decide (0 ≤ spend)%Qc) as [Hs|Hs].
  - transitivity true; [|symmetry; by apply bool_decide_eq_true_2].
    repeat match goal with
      | |- (bool_decide (?lo ≤ spend)%Qc && bool_decide (spend < ?hi)%Qc
            || _) = true =>
          rewrite (bool_decide_eq_true_2 (lo ≤ spend)%Qc) by qc_lra;
          destruct (Qclt_le_dec spend hi);
          [rewrite (bool_decide_eq_true_2 (spend < hi)%Qc) by done;
           reflexivity
          |rewrite (bool_decide_eq_false_2 (spend < hi)%Qc)
             by (intros ?; qc_lra);
           cbn [andb orb]]
      end.
    rewrite (bool_decide_eq_true_2 (JS.dec 1000 1 ≤ spend)%Qc) by qc_lra.
    reflexivity.
  - transitivity false; [|symmetry; by apply bool_decide_eq_false_2].
    repeat match goal with
      | |- context [bool_decide (?lo ≤ spend)%Qc] =>
          rewrite (bool_decide_eq_false_2 (lo ≤ spend)%Qc)
            by (intros ?; qc_lra)
      end.
    reflexivity.
Qed.

Lemma ltvBuckets0_nonneg : Forall (λ b, 0 ≤ LTVBucket.count b) ltvBuckets0.
Proof.
  unfold ltvBuckets0.
  repeat (apply Forall_cons_2; [cbn; lia|]). apply Forall_nil_2.
Qed.

Lemma fold_countSpend (l : list (string * Qc)) buckets :
  (λ b, (LTVBucket.range b, LTVBucket.min b, LTVBucket.max b)) <$> buckets
  = (λ b, (LTVBucket.range b, LTVBucket.min b, LTVBucket.max b))
      <$> ltvBuckets0 →
  Forall (λ b, 0 ≤ LTVBucket.count b) buckets →
  let buckets' := foldl (λ buckets entry, countSpend entry.2 buckets)
                        buckets l in
  (λ b, (LTVBucket.range b, LTVBucket.min b, LTVBucket.max b)) <$> buckets'
  = (λ b, (LTVBucket.range b, LTVBucket.min b, LTVBucket.max b))
      <$> ltvBuckets0
  ∧ Forall (λ b, 0 ≤ LTVBucket.count b) buckets'
  ∧ sumZ LTVBucket.count buckets'
    = sumZ LTVBucket.count buckets
      + Z.of_nat (length (filter (λ kv, (0 ≤ kv.2)%Qc) l)).
Proof.
  revert buckets. induction l as [|[k spend] l IH]; intros buckets Hb Hc.
  - cbn [foldl]. rewrite filter_nil. cbn. repeat split; (done || lia).
  - cbn [foldl]. cbv zeta in IH.
    destruct (IH (countSpend spend buckets)) as (H1 & H2 & H3).
    { by rewrite countSpend_bounds. }
    { by apply countSpend_nonneg. }
    split; [exact H1|]. split; [exact H2|].
    cbn [snd] in *. rewrite H3, countSpend_sum, (ltv_ranges_cover _ _ Hb).
    rewrite filter_cons. cbn [snd]. case_bool_decide.
    + rewrite decide_True by done. cbn [length]. lia.
    + rewrite decide_False by done. lia.
Qed.

(** X6. Every customer with a non-negative total spend is counted in
    exactly one LTV bucket and a customer with a negative total in none: the
    bucket counts add up to the number of customers whose spend is at least
    0. *)
Theorem ltv_buckets_count_each_customer_once orders :
  sumZ LTVBucket.count (ltvBuckets orders)
  = Z.of_nat (length (filter (λ kv, (0 ≤ kv.2)%Qc)
                             (map_to_list (customerSpend orders)))).
Proof.
  unfold ltvBuckets.
  destruct (fold_countSpend (map_to_list (customerSpend orders)) ltvBuckets0)
    as (_ & _ & ->); [done|apply ltvBuckets0_nonneg|].
  cbn. lia.
Qed.

Lemma customerSpend_nonneg orders :
  Forall (λ o, (0 ≤ amount (Order.totalPriceSet o))%Qc) orders →
  map_Forall (λ _ spend, (0 ≤ spend)%Qc) (customerSpend orders).
Proof.
  unfold customerSpend.
  assert (map_Forall (λ (_ : string) spend, (0 ≤ spend)%Qc)
            (∅ : gmap string Qc)) as Hinit by apply map_Forall_empty.
  revert Hinit. generalize (∅ : gmap string Qc).
  induction orders as [|o orders IH]; intros m Hm Ho; [done|].
  apply Forall_cons in Ho as [Ho Hos]. cbn [foldl]. apply IH; [|done].
  apply map_Forall_insert_2; [|done].
  apply Qcplus_nonneg_nonneg; [|exact Ho].
  destruct (m !! customerKey "guest" o) as [old|] eqn:Hk; simpl.
  - exact (Hm _ _ Hk).
  - apply Qcle_refl.
Qed.

(** X7. When no order total is negative, every customer is counted in
    exactly one LTV bucket: the bucket counts add up to [totalCustomers]. *)
Theorem ltv_buckets_cover_all_customers orders :
  Forall (λ o, (0 ≤ amount (Order.totalPriceSet o))%Qc) orders →
  sumZ LTVBucket.count (ltvBuckets orders)
  = Z.of_nat (totalCustomers orders).
Proof.
  intros Hpos%customerSpend_nonneg. unfold ltvBuckets.
  destruct (fold_countSpend (map_to_list (customerSpend orders)) ltvBuckets0)
    as (_ & _ & ->); [done|apply ltvBuckets0_nonneg|].
  rewrite filter_all.
  - unfold totalCustomers. rewrite length_map_to_list. cbn. lia.
  - apply Forall_forall. intros [k v] Hin%elem_of_map_to_list.
    exact (Hpos k v Hin).
Qed.

Lemma ltv_buckets_cover_all_customers_witness :
  sumZ LTVBucket.count (ltvBuckets twoGuests)
  = Z.of_nat (totalCustomers twoGuests).
Proof.
  apply (ltv_buckets_cover_all_customers twoGuests).
  repeat constructor; vm_compute; discriminate.
Defined.

(** Past the first four buckets, positions from which no bucket is
    populated are all dropped. *)
Lemma ltvData_none (p l bs : list LTVBucket.t) :
  bs = p ++ l → (4 ≤ length p)%nat →
  Forall (λ b, LTVBucket.count b ≤ 0) l →
  filter (λ ib, ltvShown bs ib.1 ib.2) (imap (λ j, pair (length p + j)%nat) l)
  = [].
Proof.
  revert p. induction l as [|b l IH]; intros p -> Hp Hl; [done|].
  apply Forall_cons in Hl as [Hb Hl].
  rewrite imap_cons, filter_cons, decide_False.
  - rewrite (imap_ext _ (λ j, pair (length (p ++ [b]) + j)%nat)).
    + apply IH; [by rewrite <-app_assoc|rewrite length_app; simpl; lia|done].
    + intros j x _. cbn. rewrite length_app. cbn. f_equal. lia.
  - cbn [fst snd]. unfold ltvShown. rewrite Nat.add_0_r, drop_app_length.
    intros [?|[?|Hex]]; [lia|lia|].
    apply Exists_cons in Hex as [?|Hex]; [lia|].
    apply Exists_exists in Hex as (x & Hx & ?).
    rewrite Forall_forall in Hl. specialize (Hl x Hx). cbn in Hl. lia.
Qed.

Lemma ltvData_take (p l bs : list LTVBucket.t) :
  bs = p ++ l →
  ∃ n, snd <$> filter (λ ib, ltvShown bs ib.1 ib.2)
                      (imap (λ j, pair (length p + j)%nat) l)
       = take n l
       ∧ (Nat.min (4 - length p) (length l) ≤ n)%nat
       ∧ Forall (λ b, LTVBucket.count b ≤ 0) (drop n l).
Proof.
  revert p. induction l as [|b l IH]; intros p ->.
  - exists 0%nat. cbn. split; [done|]. split; [lia|done].
  - rewrite imap_cons, filter_cons.
    rewrite (imap_ext _ (λ j, pair (length (p ++ [b]) + j)%nat));
      [|intros j x _; cbn; rewrite length_app; cbn; f_equal; lia].
    destruct (decide _) as [Hshown|Hnot].
    + destruct (IH (p ++ [b])) as (n & Hn & Hlen & Hrest);
        [by rewrite <-app_assoc|].
      exists (S n). rewrite fmap_cons, Hn. cbn [snd take drop length].
      split; [done|]. split; [|done].
      rewrite length_app in Hlen. cbn in Hlen. lia.
    + cbn [fst snd] in Hnot. unfold ltvShown in Hnot.
      rewrite Nat.add_0_r, drop_app_length in Hnot.
      assert (Forall (λ b, LTVBucket.count b ≤ 0) (b :: l)) as Hall.
      { apply Forall_forall. intros x Hx.
        destruct (decide (LTVBucket.count x ≤ 0)) as [|Hpos]; [done|].
        exfalso. apply Hnot. right. right.
        apply Exists_exists. exists x. split; [done|lia]. }
      exists 0%nat. rewrite ltvData_none.
      * cbn. split; [done|]. split; [lia|done].
      * by rewrite <-app_assoc.
      * rewrite length_app. cbn. lia.
      * by apply Forall_cons in Hall as [_ ?].
Qed.

Lemma ltvBuckets_shape orders :
  length (ltvBuckets orders) = 7%nat
  ∧ Forall (λ b, 0 ≤ LTVBucket.count b) (ltvBuckets orders).
Proof.
  unfold ltvBuckets.
  destruct (fold_countSpend (map_to_list (customerSpend orders)) ltvBuckets0)
    as (Hb & Hc & _); [done|apply ltvBuckets0_nonneg|].
  split; [|done].
  apply (f_equal length) in Hb. by rewrite !length_fmap in Hb.
Qed.

(** X8. The LTV chart shows a prefix of the seven buckets: at least the
    first four, and every bucket up to the last populated one.  The hidden
    buckets are all empty, so the chart shows every counted customer. *)
Theorem ltv_chart_is_prefix_of_buckets orders :
  ∃ n, (4 ≤ n ≤ 7)%nat
       ∧ ltvData (ltvBuckets orders) = take n (ltvBuckets orders)
       ∧ Forall (λ b, LTVBucket.count b = 0) (drop n (ltvBuckets orders))
       ∧ sumZ LTVBucket.count (ltvData (ltvBuckets orders))
         = sumZ LTVBucket.count (ltvBuckets orders).
Proof.
  destruct (ltvBuckets_shape orders) as [Hlen Hnonneg].
  destruct (ltvData_take [] (ltvBuckets orders) (ltvBuckets orders) eq_refl)
    as (n & Hn & Hmin & Hrest).
  cbn [length Nat.add] in Hn. rewrite Hlen in Hmin. cbn [length] in Hmin.
  assert (Forall (λ b, LTVBucket.count b = 0) (drop n (ltvBuckets orders)))
    as Hzero.
  { apply Forall_forall. intros b Hb.
    rewrite Forall_forall in Hrest, Hnonneg.
    specialize (Hrest b Hb). cbn in Hrest.
    apply list_elem_of_lookup in Hb as [i Hi]. rewrite lookup_drop in Hi.
    apply list_elem_of_lookup_2 in Hi. specialize (Hnonneg b Hi).
    cbn in Hnonneg. lia. }
  exists (Nat.min n 7). split; [lia|].
  assert (take (n `min` 7) (ltvBuckets orders) = take n (ltvBuckets orders))
    as Htake.
  { destruct (decide (n ≤ 7)%nat); [by rewrite Nat.min_l|].
    rewrite Nat.min_r by lia.
    rewrite !take_ge by lia. done. }
  assert (drop (n `min` 7) (ltvBuckets orders) = drop n (ltvBuckets orders))
    as Hdrop.
  { destruct (decide (n ≤ 7)%nat); [by rewrite Nat.min_l|].
    rewrite Nat.min_r by lia.
    rewrite !drop_ge by lia. done. }
  assert (ltvData (ltvBuckets orders) = take n (ltvBuckets orders)) as Hdata
    by exact Hn.
  rewrite Htake, Hdrop, Hdata. split; [done|]. split; [exact Hzero|].
  rewrite <-(take_drop n (ltvBuckets orders)) at 2.
  rewrite sumZ_app, (sumZ_zero _ (drop n _)); [lia|].
  intros b Hb. rewrite Forall_forall in Hzero. by apply Hzero.
Qed.

(** ** Shipping cost: the estimate and the label branch *)

Lemma csv_lookup_untouched data name k :
  (∀ e, e ∈ data → ¬ touches e name) →
  k ∈ lookupKeys name → csvShippingCostMap data !! k = None.
Proof.
  intros Hnone Hk.
  destruct (csvShippingCostMap data !! k) as [c|] eqn:Hc; [|done].
  destruct (csv_lookup_Some data k c Hc) as (e & He & Hke & _).
  destruct (Hnone e He). by exists k.
Qed.

(** X9. An order without a label cost that no uploaded entry touches (no
    key stored for an entry is one of the order's three lookup keys) gets the
    configured estimate: the flat rate, or the per-item rate times the item
    count (an item count of 0 counting as 1), or cost 0 with source "none"
    when no estimation method is set. *)
Theorem shipping_estimate_when_no_upload_matches ss data o :
  labelCost o = None →
  (∀ e, e ∈ data → ¬ touches e (displayName o)) →
  let itemCount :=
    if bool_decide (OrderRow.itemCount o = 0) then 1
    else OrderRow.itemCount o in
  getShippingCost ss data o
  = match ShippingSettings.method ss with
    | flat => (ShippingSettings.flatRate ss, "estimate")
    | perItem =>
        ((ShippingSettings.perItemRate ss * JS.ofZ itemCount)%Qc, "estimate")
    | noMethod => (0%Qc, "none")
    end.
Proof.
  intros Hlabel Hnone itemCount. unfold getShippingCost. rewrite Hlabel.
  rewrite !(csv_lookup_untouched data (displayName o)) by
    (done || unfold lookupKeys; set_solver).
  reflexivity.
Qed.

Lemma shipping_estimate_when_no_upload_matches_witness :
  getShippingCost (ShippingSettings.mk perItem (JS.dec 5 1) (JS.dec 2 1))
    [entry1008] order1007
  = ((JS.dec 2 1 * JS.ofZ 2)%Qc, "estimate").
Proof.
  apply (shipping_estimate_when_no_upload_matches
           (ShippingSettings.mk perItem (JS.dec 5 1) (JS.dec 2 1))
           [entry1008] order1007).
  - reflexivity.
  - intros e He (k & Hk & Hl).
    apply list_elem_of_In in He. apply list_elem_of_In in Hk.
    apply list_elem_of_In in Hl. simpl in He, Hk, Hl.
    destruct He as [<-|[]]. simpl in Hk.
    destruct Hk as [<-|[<-|[<-|[]]]]; destruct Hl as [Hl|[Hl|[Hl|[]]]];
      discriminate Hl.
Defined.

(** X10. The rows built by the profitByOrder action never carry a label
    cost, so on the order page the "shopify" branch of the shipping cascade
    is never taken: the source of every such row is "csv", "estimate" or
    "none". *)
Theorem action_rows_never_use_label_cost ss data order :
  labelCost (orderReportRow order) = None
  ∧ (getShippingCost ss data (orderReportRow order)).2
    ∈ ["csv"; "estimate"; "none"].
Proof.
  split; [done|]. unfold getShippingCost.
  assert (labelCost (orderReportRow order) = None) as -> by done.
  destruct (orNum _ _); [set_solver|].
  destruct (ShippingSettings.method ss); set_solver.
Qed.

(** ** Transaction fees: gateway names *)

Lemma lowerChar_idemp c : JS.lowerChar (JS.lowerChar c) = JS.lowerChar c.
Proof. destruct c as [[] [] [] [] [] [] [] []]; reflexivity. Qed.

Lemma toLowerCase_idemp s : JS.toLowerCase (JS.toLowerCase s) = JS.toLowerCase s.
Proof.
  induction s as [|c s IH]; [done|]. cbn [JS.toLowerCase].
  by rewrite lowerChar_idemp, IH.
Qed.

(** X11. Gateway names are matched without regard to case: the fee of a
    gateway name and of its lower-cased form are the same, whatever the
    settings. *)
Theorem transaction_fee_ignores_case s netRevenue gateway :
  getTransactionFees s netRevenue (Some (JS.toLowerCase gateway))
  = getTransactionFees s netRevenue (Some gateway).
Proof.
  unfold getTransactionFees.
  assert (JS.toLowerCase (orStr (Some (JS.toLowerCase gateway)) EmptyString)
          = JS.toLowerCase (orStr (Some gateway) EmptyString)) as ->; [|done].
  destruct gateway as [|c g]; [done|]. cbn [JS.toLowerCase orStr].
  unfold JS.truthyStr. rewrite !bool_decide_eq_false_2 by done.
  cbn [negb]. cbn [JS.toLowerCase]. by rewrite lowerChar_idemp, toLowerCase_idemp.
Qed.

Lemma find_snoc {A} (p : A → bool) (l : list A) (x : A) :
  List.find p (l ++ [x])
  = match List.find p l with
    | Some y => Some y
    | None => if p x then Some x else None
    end.
Proof.
  induction l as [|y l IH]; [done|]. cbn [app List.find].
  by destruct (p y).
Qed.

Lemma find_none_Forall {A} (p : A → bool) (l : list A) :
  Forall (λ x, p x = false) l → List.find p l = None.
Proof.
  induction 1 as [|x l Hx _ IH]; [done|]. cbn [List.find]. by rewrite Hx.
Qed.

(** No known API name contains "paypal", "stripe", "shopify" or "shop_pay",
    all are in lower case, and none occurs inside another. *)
Lemma known_gateway_names_check :
  forallb
    (λ g,
       let gatewayLower :=
         JS.toLowerCase (orStr (Some (Gateway.apiName g)) EmptyString) in
       negb (JS.includes gatewayLower "paypal")
       && negb (JS.includes gatewayLower "stripe")
       && negb (JS.includes gatewayLower "shopify")
       && negb (JS.includes gatewayLower "shop_pay")
       && JS.includes gatewayLower (JS.toLowerCase (Gateway.apiName g))
       && forallb
            (λ k, bool_decide (Gateway.id k = Gateway.id g)
                  || negb (JS.includes gatewayLower
                             (JS.toLowerCase (Gateway.apiName k))))
            KNOWN_GATEWAYS)
    KNOWN_GATEWAYS
  = true.
Proof. vm_compute. reflexivity. Qed.

Lemma known_gateway_find g :
  g ∈ KNOWN_GATEWAYS →
  List.find (λ x, bool_decide (Gateway.id x = Gateway.id g)) KNOWN_GATEWAYS
  = Some g.
Proof.
  intros Hg%list_elem_of_In. unfold KNOWN_GATEWAYS in Hg. simpl in Hg.
  repeat (destruct Hg as [<-|Hg]; [reflexivity|]). destruct Hg.
Qed.

Lemma known_gateway_names g k :
  g ∈ KNOWN_GATEWAYS → k ∈ KNOWN_GATEWAYS →
  let gatewayLower :=
    JS.toLowerCase (orStr (Some (Gateway.apiName g)) EmptyString) in
  JS.includes gatewayLower "paypal" = false
  ∧ JS.includes gatewayLower "stripe" = false
  ∧ JS.includes gatewayLower "shopify" = false
  ∧ JS.includes gatewayLower "shop_pay" = false
  ∧ JS.includes gatewayLower (JS.toLowerCase (Gateway.apiName g)) = true
  ∧ (Gateway.id k ≠ Gateway.id g →
     JS.includes gatewayLower (JS.toLowerCase (Gateway.apiName k)) = false).
Proof.
  intros Hg%list_elem_of_In Hk%list_elem_of_In gatewayLower.
  pose proof known_gateway_names_check as Hcheck.
  rewrite forallb_forall in Hcheck. specialize (Hcheck g Hg).
  cbv zeta in Hcheck. fold gatewayLower in Hcheck.
  apply andb_prop in Hcheck as [Hcheck Hall].
  apply andb_prop in Hcheck as [Hcheck Hself].
  apply andb_prop in Hcheck as [Hcheck Hshoppay].
  apply andb_prop in Hcheck as [Hcheck Hshopify].
  apply andb_prop in Hcheck as [Hpaypal Hstripe].
  apply negb_true_iff in Hpaypal, Hstripe, Hshopify, Hshoppay.
  repeat split; try done.
  intros Hne. rewrite forallb_forall in Hall. specialize (Hall k Hk).
  apply orb_prop in Hall as [Hall|Hall].
  - by apply bool_decide_eq_true in Hall.
  - by apply negb_true_iff in Hall.
Qed.

(** X12. In settings whose merchant-added gateways stem from the known
    list, adding a gateway offered by the select makes orders paid through
    it resolve to that gateway: the fee is its default rate plus the Shopify
    surcharge, and its default fixed fee.  No other configured gateway, nor
    PayPal, Stripe or Shopify Payments, captures its API name. *)
Theorem added_known_gateway_is_resolved s g netRevenue :
  fromKnownGateways s →
  g ∈ addableGateways s →
  getTransactionFees (addGateway s (Gateway.id g)) netRevenue
    (Some (Gateway.apiName g))
  = (netRevenue
     * ((Gateway.defaultRate g + TransactionFeeSettings.shopifySurcharge s)
        / JS.dec 100 1)
     + Gateway.defaultFee g)%Qc.
Proof.
  intros Hknown [Hnew Hg]%list_elem_of_filter.
  destruct (known_gateway_names g g Hg Hg)
    as (Hpaypal & Hstripe & Hshopify & Hshoppay & Hself & _).
  unfold addGateway. rewrite (known_gateway_find g Hg).
  unfold getTransactionFees.
  rewrite Hpaypal, Hstripe, Hshopify, Hshoppay.
  cbn [andb orb withAdditionalGateways
       TransactionFeeSettings.additionalGateways
       TransactionFeeSettings.shopifySurcharge].
  rewrite find_snoc, find_none_Forall.
  - cbn [AdditionalGateway.apiName]. rewrite Hself. reflexivity.
  - unfold fromKnownGateways in Hknown.
    rewrite Forall_forall in Hknown. apply Forall_forall.
    intros a Ha. destruct (Hknown a Ha) as (k & Hk & Hid & ->).
    destruct (known_gateway_names g k Hg Hk) as (_ & _ & _ & _ & _ & Hne).
    apply Hne. intros Heq. apply Hnew.
    destruct (List.find _ _) eqn:Hf; [by eexists|].
    apply list_elem_of_In in Ha.
    pose proof (find_none _ _ Hf a Ha) as Hfalse. cbv beta in Hfalse.
    apply bool_decide_eq_false in Hfalse. congruence.
Qed.

Lemma added_known_gateway_is_resolved_witness :
  getTransactionFees (addGateway klarnaSettings "afterpay") (JS.dec 105 1)
    (Some "afterpay")
  = (JS.dec 105 1 * ((JS.dec 60 10 + JS.dec 2 1) / JS.dec 100 1)
     + JS.dec 30 100)%Qc.
Proof.
  apply (added_known_gateway_is_resolved klarnaSettings
           (Gateway.mk "afterpay" "Afterpay" "afterpay" (JS.dec 60 10)
              (JS.dec 30 100)) (JS.dec 105 1)).
  - apply Forall_cons_2; [|apply Forall_nil_2].
    exists (Gateway.mk "klarna" "Klarna" "klarna" (JS.dec 329 100)
              (JS.dec 30 100)).
    split; [|split; reflexivity].
    apply list_elem_of_In. simpl. auto.
  - apply list_elem_of_filter. split.
    + simpl. intros [x Hx]. discriminate Hx.
    + apply list_elem_of_In. simpl. auto.
Defined.

(** X13. The handlers of the gateway card keep the merchant-added gateways
    within the known list and their ids unique: adding a gateway offered by
    the select appends one entry with a fresh id, removing deletes the entry
    with that id, and editing a rate or a fixed fee changes no id. *)
Theorem gateway_handlers_keep_ids_unique s :
  fromKnownGateways s →
  NoDup (AdditionalGateway.id <$> TransactionFeeSettings.additionalGateways s) →
  (∀ g, g ∈ addableGateways s →
        fromKnownGateways (addGateway s (Gateway.id g))
        ∧ AdditionalGateway.id
            <$> TransactionFeeSettings.additionalGateways
                  (addGateway s (Gateway.id g))
          = (AdditionalGateway.id
               <$> TransactionFeeSettings.additionalGateways s)
            ++ [Gateway.id g]
        ∧ NoDup (AdditionalGateway.id
                   <$> TransactionFeeSettings.additionalGateways
                         (addGateway s (Gateway.id g))))
  ∧ (∀ id, fromKnownGateways (removeGateway s id)
           ∧ (id ∉ (AdditionalGateway.id
                      <$> TransactionFeeSettings.additionalGateways
                            (removeGateway s id)))
           ∧ NoDup (AdditionalGateway.id
                      <$> TransactionFeeSettings.additionalGateways
                            (removeGateway s id)))
  ∧ (∀ id x,
       fromKnownGateways (setGatewayRate s id x)
       ∧ fromKnownGateways (setGatewayFixedFee s id x)
       ∧ AdditionalGateway.id
           <$> TransactionFeeSettings.additionalGateways
                 (setGatewayRate s id x)
         = AdditionalGateway.id
             <$> TransactionFeeSettings.additionalGateways s
       ∧ AdditionalGateway.id
           <$> TransactionFeeSettings.additionalGateways
                 (setGatewayFixedFee s id x)
         = AdditionalGateway.id
             <$> TransactionFeeSettings.additionalGateways s).
Proof.
  intros Hknown Hnodup. unfold fromKnownGateways in *.
  split; [|split].
  - intros g [Hnew Hg]%list_elem_of_filter.
    unfold addGateway. rewrite (known_gateway_find g Hg).
    cbn [withAdditionalGateways TransactionFeeSettings.additionalGateways].
    assert (Gateway.id g
            ∉ (AdditionalGateway.id
                 <$> TransactionFeeSettings.additionalGateways s)) as Hfresh.
    { intros (a & Hid & Ha)%list_elem_of_fmap. apply Hnew.
      destruct (List.find _ _) eqn:Hf; [by eexists|].
      apply list_elem_of_In in Ha.
      pose proof (find_none _ _ Hf a Ha) as Hfalse. cbv beta in Hfalse.
      apply bool_decide_eq_false in Hfalse. congruence. }
    split; [|split].
    + apply Forall_app. split; [done|].
      apply Forall_cons_2; [|apply Forall_nil_2]. by exists g.
    + by rewrite fmap_app.
    + rewrite fmap_app. apply NoDup_app. split; [done|].
      split; [|apply NoDup_singleton].
      intros x Hx Hx'%list_elem_of_singleton. cbn in Hx'. by subst x.
  - intros id. unfold removeGateway.
    cbn [withAdditionalGateways TransactionFeeSettings.additionalGateways].
    split; [|split].
    + apply Forall_forall. intros a [_ Ha]%list_elem_of_filter.
      rewrite Forall_forall in Hknown. by apply Hknown.
    + intros (a & -> & [Hne _]%list_elem_of_filter)%list_elem_of_fmap.
      by apply Hne.
    + apply (NoDup_fmap_2_strong AdditionalGateway.id).
      * intros a b [_ Ha]%list_elem_of_filter [_ Hb]%list_elem_of_filter Hab.
        apply list_elem_of_lookup in Ha as [i Hi].
        apply list_elem_of_lookup in Hb as [j Hj].
        assert (i = j) as ->; [|congruence].
        apply (NoDup_lookup _ _ _ (AdditionalGateway.id a) Hnodup);
          rewrite list_lookup_fmap; [by rewrite Hi|by rewrite Hj, Hab].
      * apply NoDup_filter. by apply NoDup_fmap_1 in Hnodup.
  - intros id x. unfold setGatewayRate, setGatewayFixedFee.
    cbn [withAdditionalGateways TransactionFeeSettings.additionalGateways].
    rewrite <-!list_fmap_compose.
    repeat split.
    + apply Forall_fmap. eapply Forall_impl; [exact Hknown|].
      intros a (k & ? & ? & ?). exists k. cbn. by case_bool_decide.
    + apply Forall_fmap. eapply Forall_impl; [exact Hknown|].
      intros a (k & ? & ? & ?). exists k. cbn. by case_bool_decide.
    + apply list_fmap_ext. intros i a _. cbn. by case_bool_decide.
    + apply list_fmap_ext. intros i a _. cbn. by case_bool_decide.
Qed.

Lemma gateway_handlers_keep_ids_unique_witness :
  AdditionalGateway.id
    <$> TransactionFeeSettings.additionalGateways
          (addGateway klarnaSettings "afterpay")
  = ["klarna"; "afterpay"].
Proof.
  assert (fromKnownGateways klarnaSettings) as Hknown.
  { apply Forall_cons_2; [|apply Forall_nil_2].
    exists (Gateway.mk "klarna" "Klarna" "klarna" (JS.dec 329 100)
              (JS.dec 30 100)).
    split; [|split; reflexivity].
    apply list_elem_of_In. simpl. auto. }
  assert (NoDup (AdditionalGateway.id
                   <$> TransactionFeeSettings.additionalGateways
                         klarnaSettings)) as Hnodup.
  { simpl. apply NoDup_singleton. }
  destruct (gateway_handlers_keep_ids_unique klarnaSettings Hknown Hnodup)
    as [Hadd _].
  destruct (Hadd (Gateway.mk "afterpay" "Afterpay" "afterpay" (JS.dec 60 10)
                    (JS.dec 30 100))) as (_ & Hids & _).
  - apply list_elem_of_filter. split.
    + simpl. intros [x Hx]. discriminate Hx.
    + apply list_elem_of_In. simpl. auto.
  - exact Hids.
Defined.

(** ** Lift and operating expenses *)

(** X14. Outside a multi-year comparison [calcLift] always yields a finite
    number: 100 or 0 when the previous value is 0, else the relative change
    in percent.  Equal values give a lift of 0, which is what the page shows
    for operating expenses, whose comparison value is the current one. *)
Theorem calcLift_is_finite (current previous : Qc) :
  calcLift current previous true = None
  ∧ ∃ q, calcLift current previous false = Some (JS.Finite q)
         ∧ (previous = 0%Qc →
            q = if JS.gt0 current then JS.dec 100 1 else 0%Qc)
         ∧ (previous ≠ 0%Qc →
            q = ((current - previous) / previous * JS.dec 100 1)%Qc)
         ∧ (current = previous → q = 0%Qc).
Proof.
  split; [done|]. unfold calcLift, JS.div. cbn [negb].
  destruct (decide (previous = 0%Qc)) as [->|Hne].
  - rewrite bool_decide_eq_true_2 by done. eexists. split; [done|].
    split; [done|]. split; [done|]. intros ->. by rewrite gt0_zero.
  - rewrite !(bool_decide_eq_false_2 (previous = 0%Qc)) by done.
    cbn [JS.times]. eexists. split; [done|]. split; [done|].
    split; [done|]. intros ->. field. done.
Qed.

Lemma sumQc_filter_zero {A} (P : A → Prop) `{!∀ x, Decision (P x)}
    (f : A → Qc) (l : list A) :
  (∀ x, x ∈ l → ¬ P x → f x = 0%Qc) →
  sumQc f (filter P l) = sumQc f l.
Proof.
  induction l as [|x l IH]; intros Hz; [done|].
  rewrite filter_cons, sumQc_cons. destruct (decide (P x)) as [HP|HP].
  - rewrite sumQc_cons, IH; [done|]. intros y Hy. apply Hz. by right.
  - rewrite IH, (Hz x); [ring|by left|done|].
    intros y Hy. apply Hz. by right.
Qed.

Lemma sumQc_filter_split {A} (P Q R : A → Prop)
    `{!∀ x, Decision (P x), !∀ x, Decision (Q x), !∀ x, Decision (R x)}
    (f : A → Qc) (l : list A) :
  (∀ x, R x ↔ P x ∨ Q x) → (∀ x, P x → Q x → False) →
  sumQc f (filter R l) = (sumQc f (filter P l) + sumQc f (filter Q l))%Qc.
Proof.
  intros HR Hdisj. induction l as [|x l IH]; [rewrite !filter_nil, sumQc_nil; ring|].
  rewrite !filter_cons.
  destruct (decide (R x)) as [Hr|Hr], (decide (P x)) as [Hp|Hp],
    (decide (Q x)) as [Hq|Hq]; rewrite ?sumQc_cons, IH;
    try ring; exfalso; rewrite HR in Hr; naive_solver.
Qed.

(** Grouping by the keys of a duplicate-free list splits the total of the
    elements whose key is in the list. *)
Lemma sumQc_group_by {A} (key : A → string) (f : A → Qc)
    (keys : list string) (l : list A) :
  NoDup keys →
  sumQc (λ k, sumQc f (filter (λ x, key x = k) l)) keys
  = sumQc f (filter (λ x, key x ∈ keys) l).
Proof.
  induction 1 as [|k keys Hk _ IH].
  - rewrite sumQc_nil. symmetry. apply sumQc_zero.
    intros x [Hx _]%list_elem_of_filter. set_solver.
  - rewrite sumQc_cons, IH. symmetry.
    apply sumQc_filter_split; [set_solver|]. intros x -> ?. done.
Qed.

(** The rows of a category table: their totals, and which expenses they
    hold. *)
Lemma category_rows (cats : list (string * string)) expenses :
  let rows :=
    filter (λ c, (0 < length (CategoryRow.expenses c))%nat)
      ((λ cat : string * string,
          let categoryExpenses :=
            filter (λ e, Expense.category e = cat.2) expenses in
          let monthlyTotal := sumQc getMonthlyEquivalent categoryExpenses in
          CategoryRow.mk cat.1 cat.2 categoryExpenses monthlyTotal
            (monthlyTotal * JS.dec 12 1)%Qc)
         <$> cats) in
  NoDup cats.*2 →
  sumQc CategoryRow.monthlyTotal rows
  = sumQc getMonthlyEquivalent
      (filter (λ e, Expense.category e ∈ cats.*2) expenses)
  ∧ (∀ row e,
       row ∈ rows → e ∈ CategoryRow.expenses row →
       e ∈ expenses
       ∧ Expense.category e = CategoryRow.categoryKey row
       ∧ Expense.category e ∈ cats.*2)
  ∧ (∀ e,
       e ∈ expenses → Expense.category e ∈ cats.*2 →
       ∃ row, row ∈ rows
              ∧ CategoryRow.categoryKey row = Expense.category e
              ∧ e ∈ CategoryRow.expenses row).
Proof.
  intros rows Hnd. split; [|split].
  - unfold rows. rewrite sumQc_filter_zero.
    + rewrite <-(sumQc_group_by Expense.category) by done.
      by rewrite !sumQc_fmap.
    + intros c (cat & -> & _)%list_elem_of_fmap Hempty. cbn in *.
      destruct (filter _ expenses); [apply sumQc_nil|cbn in Hempty; lia].
  - intros row e [_ (cat & -> & Hcat)%list_elem_of_fmap]%list_elem_of_filter.
    cbn. intros [Hc He]%list_elem_of_filter.
    split; [done|]. split; [done|]. rewrite Hc.
    apply list_elem_of_fmap. by exists cat.
  - intros e He (cat & Hc & Hcat)%list_elem_of_fmap.
    eexists. split; [|split].
    + apply list_elem_of_filter. split; [|apply list_elem_of_fmap; by exists cat].
      cbn. assert (e ∈ filter (λ e0, Expense.category e0 = cat.2) expenses)
        as Hin by (by apply list_elem_of_filter).
      destruct (filter _ expenses); [by apply elem_of_nil in Hin|cbn; lia].
    + done.
    + cbn. by apply list_elem_of_filter.
Qed.

(** X15. In the expenses report of the page the category rows hold exactly
    the expenses filed under one of the report's six categories, each in the
    row of its category, and the rows' monthly totals add up to the monthly
    equivalents of those expenses.  An expense of any other category is in
    no row, though it is part of the report's overall monthly total; so the
    rows add up to [totalMonthly] when every expense has one of the six
    categories. *)
Theorem expense_categories_partition_total expenses :
  let rows := ExpensesReport.expensesByCategory expenses in
  let known e :=
    Expense.category e ∈ ExpensesReport.EXPENSE_CATEGORIES.*2 in
  sumQc CategoryRow.monthlyTotal rows
  = ExpensesReport.totalMonthly (filter known expenses)
  ∧ (∀ row e,
       row ∈ rows → e ∈ CategoryRow.expenses row →
       e ∈ expenses
       ∧ Expense.category e = CategoryRow.categoryKey row ∧ known e)
  ∧ (∀ e,
       e ∈ expenses → known e →
       ∃ row, row ∈ rows
              ∧ CategoryRow.categoryKey row = Expense.category e
              ∧ e ∈ CategoryRow.expenses row)
  ∧ (∀ row e, row ∈ rows → ¬ known e → e ∉ CategoryRow.expenses row)
  ∧ (Forall known expenses →
     sumQc CategoryRow.monthlyTotal rows
     = ExpensesReport.totalMonthly expenses).
Proof.
  intros rows known.
  destruct (category_rows ExpensesReport.EXPENSE_CATEGORIES expenses)
    as (Hsum & Hin & Hrow).
  { apply (bool_decide_unpack _). by vm_compute. }
  split; [exact Hsum|]. split; [exact Hin|]. split; [exact Hrow|]. split.
  - intros row e Hr Hk He. by destruct (Hin row e Hr He) as (_ & _ & ?).
  - intros Hall. etrans; [exact Hsum|]. by rewrite filter_all.
Qed.

Lemma expense_categories_partition_total_witness :
  let expenses := [rentExpense; fulfillmentExpense] in
  let rows := ExpensesReport.expensesByCategory expenses in
  sumQc CategoryRow.monthlyTotal rows
  = ExpensesReport.totalMonthly [rentExpense]
  ∧ ∀ row, row ∈ rows → fulfillmentExpense ∉ CategoryRow.expenses row.
Proof.
  intros expenses rows.
  destruct (expense_categories_partition_total expenses)
    as (Hsum & _ & _ & Hout & _).
  split; [exact Hsum|].
  intros row Hr. apply Hout; [exact Hr|].
  intros Hk. apply list_elem_of_In in Hk. simpl in Hk.
  repeat (destruct Hk as [Hk|Hk]; [discriminate Hk|]). exact Hk.
Defined.

(** The expense form offers "shipping", the report's table does not have
    it: of the two expenses only the rent gets a row, $100 a month, while
    the report's overall monthly total is $150. *)
Example shipping_expense_is_in_no_row :
  "shipping" ∈ EXPENSE_CATEGORIES.*2
  ∧ CategoryRow.categoryKey
      <$> ExpensesReport.expensesByCategory [rentExpense; fulfillmentExpense]
    = ["rent"]
  ∧ sumQc CategoryRow.monthlyTotal
      (ExpensesReport.expensesByCategory [rentExpense; fulfillmentExpense])
    = JS.dec 100 1
  ∧ ExpensesReport.totalMonthly [rentExpense; fulfillmentExpense]
    = JS.dec 150 1.
Proof.
  split; [apply list_elem_of_In; simpl; auto 10|].
  split; [vm_compute; reflexivity|]. split; qc_compute.
Qed.

(** The stand-alone report component groups by the seven categories of
    lib/constants.ts, those of the form. *)
Lemma component_expense_rows_cover_the_form expenses :
  Forall (λ e, Expense.category e ∈ EXPENSE_CATEGORIES.*2) expenses →
  sumQc CategoryRow.monthlyTotal (expensesByCategory expenses)
  = totalMonthlyExpenses expenses.
Proof.
  intros Hall.
  destruct (category_rows EXPENSE_CATEGORIES expenses) as (Hsum & _).
  { apply (bool_decide_unpack _). by vm_compute. }
  etrans; [exact Hsum|]. by rewrite filter_all.
Qed.

Lemma ceilDiv_multiple k b : 0 < b → ceilDiv (k * b) b = k.
Proof.
  intros Hb. unfold ceilDiv.
  replace (- (k * b)) with ((- k) * b) by lia.
  rewrite Z.div_mul by lia. lia.
Qed.

Lemma ceilDiv_bounds a b :
  0 < b → (ceilDiv a b - 1) * b < a ≤ ceilDiv a b * b.
Proof.
  intros Hb. unfold ceilDiv.
  pose proof (Z.div_mod (- a) b) as Hdm.
  pose proof (Z.mod_pos_bound (- a) b Hb) as Hm. nia.
Qed.

(** X16. Operating expenses are pro-rated by the day at a thirtieth of the
    monthly total: [proratedOpex] is (totalMonthly / 30) * days, over
    rationals and over doubles alike.  A range whose end is [k] whole days
    after its start counts [k + 1] days; in general a started day counts in
    full, so a range that ends after its start spans more than days - 2 and
    at most days - 1 whole days; and no range counts less than one day. *)
Theorem prorated_opex_by_days expenses startTime k :
  0 ≤ k →
  daysDiff startTime (startTime + k * 86400000) = k + 1
  ∧ proratedOpex expenses startTime (startTime + k * 86400000)
    = (totalMonthlyExpenses expenses / JS.dec 30 1 * JS.ofZ (k + 1))%Qc
  ∧ Binary64.proratedOpex expenses startTime (startTime + k * 86400000)
    = F64.mul
        (F64.div (Binary64.totalMonthlyExpenses expenses) (F64.ofZ 30))
        (F64.ofZ (k + 1))
  ∧ (∀ endTime,
       startTime < endTime →
       (daysDiff startTime endTime - 2) * 86400000 < endTime - startTime
       ∧ endTime - startTime ≤ (daysDiff startTime endTime - 1) * 86400000)
  ∧ ∀ endTime, 1 ≤ daysDiff startTime endTime.
Proof.
  intros Hk.
  assert (daysDiff startTime (startTime + k * 86400000) = k + 1) as Hd.
  { unfold daysDiff.
    replace (startTime + k * 86400000 - startTime) with (k * 86400000) by lia.
    replace (1000 * 60 * 60 * 24) with 86400000 by lia.
    rewrite ceilDiv_multiple by lia. lia. }
  split; [exact Hd|]. unfold proratedOpex, Binary64.proratedOpex. rewrite Hd.
  split; [reflexivity|]. split; [reflexivity|]. split.
  - intros endTime Hlt. unfold daysDiff.
    replace (1000 * 60 * 60 * 24) with 86400000 by lia.
    pose proof (ceilDiv_bounds (endTime - startTime) 86400000) as Hb.
    lia.
  - intros endTime. unfold daysDiff. lia.
Qed.

Lemma prorated_opex_by_days_witness :
  daysDiff 1748736000000 (1748736000000 + 6 * 86400000) = 6 + 1
  ∧ proratedOpex [rentExpense; fulfillmentExpense] 1748736000000
      (1748736000000 + 6 * 86400000)
    = (totalMonthlyExpenses [rentExpense; fulfillmentExpense] / JS.dec 30 1
       * JS.ofZ (6 + 1))%Qc.
Proof.
  destruct (prorated_opex_by_days [rentExpense; fulfillmentExpense]
              1748736000000 6) as (Hd & Hp & _ & _); [lia|].
  split; [exact Hd|exact Hp].
Defined.

(** In binary64 a range of 30 days need not carry the monthly total to the
    last digit: a thirtieth of $31, times 30, is 31.000000000000004. *)
Example prorated_opex_of_30_days_in_binary64 :
  let startTime := 1748736000000 in
  let endTime := startTime + 29 * 86400000 in
  daysDiff startTime endTime = 30
  ∧ Binary64.totalMonthlyExpenses [subscriptionExpense] = F64.ofZ 31
  ∧ Binary64.proratedOpex [subscriptionExpense] startTime endTime
    = F64.dec 31000000000000004 1000000000000000
  ∧ Binary64.proratedOpex [subscriptionExpense] startTime endTime
    ≠ Binary64.totalMonthlyExpenses [subscriptionExpense].
Proof.
  intros startTime endTime.
  split; [reflexivity|]. split; [reflexivity|].
  split; [vm_compute; reflexivity|].
  intros H. vm_compute in H. discriminate H.
Qed.

(** ** The shipping-cost upload *)

Lemma mergeEntry_counts st entry :
  let st' := mergeEntry st entry in
  Merge.updatedCount st' + Merge.addedCount st'
  = Merge.updatedCount st + Merge.addedCount st + 1
  ∧ Merge.updatedCount st ≤ Merge.updatedCount st'
  ∧ Merge.addedCount st ≤ Merge.addedCount st'
  ∧ Z.of_nat (length (Merge.updatedData st'))
    = Z.of_nat (length (Merge.updatedData st))
      + (Merge.addedCount st' - Merge.addedCount st).
Proof.
  unfold mergeEntry. destruct (list_find _ _) as [[i x]|]; cbn.
  - rewrite length_insert. lia.
  - rewrite length_app. cbn. lia.
Qed.

(** X17. The two counters reported after an upload add up to the number
    of parsed entries, and the stored list grows by exactly the number of
    entries counted as new. *)
Theorem upload_merge_counts shippingCostData newEntries :
  let r := mergeUpload shippingCostData newEntries in
  Merge.updatedCount r + Merge.addedCount r = Z.of_nat (length newEntries)
  ∧ 0 ≤ Merge.updatedCount r ∧ 0 ≤ Merge.addedCount r
  ∧ Z.of_nat (length (Merge.updatedData r))
    = Z.of_nat (length shippingCostData) + Merge.addedCount r.
Proof.
  unfold mergeUpload.
  assert (∀ st,
            let r := foldl mergeEntry st newEntries in
            Merge.updatedCount r + Merge.addedCount r
            = Merge.updatedCount st + Merge.addedCount st
              + Z.of_nat (length newEntries)
            ∧ Merge.updatedCount st ≤ Merge.updatedCount r
            ∧ Merge.addedCount st ≤ Merge.addedCount r
            ∧ Z.of_nat (length (Merge.updatedData r))
              = Z.of_nat (length (Merge.updatedData st))
                + (Merge.addedCount r - Merge.addedCount st)) as Hgen.
  { induction newEntries as [|e l IH]; intros st; cbn [foldl length].
    - cbv zeta. lia.
    - specialize (IH (mergeEntry st e)). cbv zeta in IH.
      pose proof (mergeEntry_counts st e) as Hstep. cbv zeta in Hstep.
      cbv zeta. lia. }
  specialize (Hgen (Merge.mk shippingCostData 0 0)). cbn in Hgen.
  cbv zeta. lia.
Qed.

Lemma mergeEntry_elem st entry :
  NoDup (ShippingCostEntry.orderId <$> Merge.updatedData st) →
  NoDup (ShippingCostEntry.orderId
           <$> Merge.updatedData (mergeEntry st entry))
  ∧ ∀ e, e ∈ Merge.updatedData (mergeEntry st entry)
         ↔ e = entry
           ∨ (e ∈ Merge.updatedData st
              ∧ ShippingCostEntry.orderId e
                ≠ ShippingCostEntry.orderId entry).
Proof.
  intros Hnd. unfold mergeEntry.
  destruct (list_find _ _) as [[i x]|] eqn:Hfind; cbn [Merge.updatedData].
  - apply list_find_Some in Hfind as (Hi & Hid & _).
    assert ((ShippingCostEntry.orderId <$> Merge.updatedData st) !! i
            = Some (ShippingCostEntry.orderId entry)) as Hi'.
    { by rewrite list_lookup_fmap, Hi, <-Hid. }
    split.
    + by rewrite list_fmap_insert, (list_insert_id _ _ _ Hi').
    + intros e. rewrite list_elem_of_lookup.
      setoid_rewrite list_lookup_insert_Some. split.
      * intros [j [(-> & -> & _)|[Hne Hj]]]; [by left|]. right.
        split; [by eapply list_elem_of_lookup_2|].
        intros Heq. apply Hne.
        apply (NoDup_lookup _ _ _ (ShippingCostEntry.orderId entry) Hnd);
          [done|]. by rewrite list_lookup_fmap, Hj, <-Heq.
      * intros [->|[[j Hj]%list_elem_of_lookup Hne]].
        -- exists i. left. split; [done|]. split; [done|].
           by eapply lookup_lt_Some.
        -- exists j. right. split; [|done]. intros ->. congruence.
  - apply list_find_None in Hfind. rewrite Forall_forall in Hfind. split.
    + rewrite fmap_app. apply NoDup_app. split; [done|].
      split; [|apply NoDup_singleton].
      intros id (e & -> & He)%list_elem_of_fmap Hin%list_elem_of_singleton.
      by apply (Hfind e He).
    + intros e. rewrite elem_of_app, list_elem_of_singleton. split.
      * intros [He| ->]; [|by left]. right. split; [done|].
        by apply Hfind.
      * intros [->|[He _]]; [by right|by left].
Qed.

(** X18. After an upload is merged into stored costs with distinct order
    ids, the ids are still distinct, and the stored entries are exactly: the
    old entries whose id does not occur in the upload, and for each id of
    the upload its last entry.  So a later row of a file overrides an
    earlier one, and no other stored entry is touched. *)
Theorem upload_merge_last_entry_wins shippingCostData newEntries :
  NoDup (ShippingCostEntry.orderId <$> shippingCostData) →
  let updatedData :=
    Merge.updatedData (mergeUpload shippingCostData newEntries) in
  NoDup (ShippingCostEntry.orderId <$> updatedData)
  ∧ ∀ e, e ∈ updatedData
         ↔ (e ∈ shippingCostData
            ∧ ShippingCostEntry.orderId e
              ∉ (ShippingCostEntry.orderId <$> newEntries))
           ∨ ∃ l1 l2, newEntries = l1 ++ e :: l2
                      ∧ ShippingCostEntry.orderId e
                        ∉ (ShippingCostEntry.orderId <$> l2).
Proof.
  intros Hnd. cbv zeta. unfold mergeUpload.
  induction newEntries as [|x l IH] using rev_ind.
  - cbn [foldl Merge.updatedData]. split; [done|]. intros e. split.
    + intros He. left. split; [done|]. cbn. set_solver.
    + intros [[He _]|(l1 & l2 & Hnil & _)]; [done|].
      by destruct l1.
  - rewrite foldl_app. cbn [foldl]. destruct IH as [Hnd' IH].
    destruct (mergeEntry_elem (foldl mergeEntry
                                 (Merge.mk shippingCostData 0 0) l) x Hnd')
      as [Hnd'' Helem].
    split; [exact Hnd''|]. intros e. rewrite Helem, IH. clear Helem IH.
    rewrite fmap_app. cbn [fmap list_fmap]. split.
    + intros [->|[[[He Hnin]|(l1 & l2 & -> & Hnin)] Hne]].
      * right. exists l, []. split; [done|]. cbn. set_solver.
      * left. split; [done|]. set_solver.
      * right. exists l1, (l2 ++ [x]). split; [by rewrite <-app_assoc|].
        rewrite fmap_app. cbn. set_solver.
    + intros [[He Hnin]|(l1 & l2 & Heq & Hnin)].
      * right. split; [left; set_solver|set_solver].
      * induction l2 as [|y l2 _] using rev_ind.
        -- apply app_inj_tail in Heq as [_ ->]. by left.
        -- rewrite app_comm_cons, app_assoc in Heq.
           apply app_inj_tail in Heq as [-> ->].
           rewrite fmap_app in Hnin. cbn in Hnin.
           right. split; [|set_solver]. right. exists l1, l2.
           split; [done|set_solver].
Qed.

Lemma upload_merge_last_entry_wins_witness :
  NoDup (ShippingCostEntry.orderId
           <$> Merge.updatedData
                 (mergeUpload [entry1007]
                    [entry1008;
                     ShippingCostEntry.mk "1007" "1007" (JS.dec 9 1) "csv"
                       "2025-04-01T08:00:00.000Z"])).
Proof.
  apply (upload_merge_last_entry_wins [entry1007]
           [entry1008;
            ShippingCostEntry.mk "1007" "1007" (JS.dec 9 1) "csv"
              "2025-04-01T08:00:00.000Z"]).
  simpl. apply NoDup_singleton.
Defined.

(** X19. An order whose exact id is among the uploaded ids is not listed
    as missing a shipping cost, and the order report, which looks the order
    up by name, takes its cost from the upload when the name is that id. *)
Theorem uploaded_order_is_costed_from_csv ss data needing o id :
  id ∈ uploadedOrderIds data →
  labelCost o = None →
  displayName o = id →
  (getShippingCost ss data o).2 = "csv"
  ∧ ∀ n, n ∈ ordersMissingShippingCosts needing data →
         NeededOrder.orderId n ≠ id.
Proof.
  unfold uploadedOrderIds. rewrite elem_of_list_to_set.
  intros (e & Hid & He)%list_elem_of_fmap Hlabel Hname. split.
  - destruct (csv_override_source ss data o e Hlabel He)
      as (e' & _ & _ & ->); [by rewrite Hname, Hid|done].
  - intros n [Hmiss _]%list_elem_of_filter Heq. apply Hmiss.
    unfold uploadedOrderIds. rewrite elem_of_list_to_set, Heq, Hid.
    by apply list_elem_of_fmap_2.
Qed.

Lemma uploaded_order_is_costed_from_csv_witness :
  (getShippingCost defaultShippingSettings [entry1008; entry1007]
     (OrderRow.mk "gid://shopify/Order/1008" (Some "#1008") EmptyString
        "Online Store" 0%Qc 0%Qc 0%Qc 0%Qc 0%Qc 1 None None)).2
  = "csv".
Proof.
  apply (uploaded_order_is_costed_from_csv defaultShippingSettings
           [entry1008; entry1007] []
           (OrderRow.mk "gid://shopify/Order/1008" (Some "#1008") EmptyString
              "Online Store" 0%Qc 0%Qc 0%Qc 0%Qc 0%Qc 1 None None)
           "#1008").
  - vm_compute. reflexivity.
  - reflexivity.
  - reflexivity.
Defined.

(** The count of missing orders compares ids exactly, while the order
    report matches names up to a leading '#': an upload keyed "1001" costs
    order "#1001" from the file, yet the order is still listed as
    missing. *)
Example missing_list_is_stricter_than_lookup :
  let data := [ShippingCostEntry.mk "1001" "1001" (JS.dec 7 1) "csv"
                 EmptyString] in
  let needed := NeededOrder.mk "#1001" "#1001" "2025-01-15" in
  ordersMissingShippingCosts [needed] data = [needed]
  ∧ getShippingCost defaultShippingSettings data
      (OrderRow.mk "gid://shopify/Order/1001" (Some "#1001") EmptyString
         "Online Store" 0%Qc 0%Qc 0%Qc 0%Qc 0%Qc 1 None None)
    = (JS.dec 7 1, "csv").
Proof. split; vm_compute; reflexivity. Qed.

(** ** The accuracy score *)

(** X20. The accuracy score of the cost-management page is 25 points for
    each complete item.  The transaction-fee item is always complete, so the
    score is 25, 50, 75 or 100 and never 0. *)
Theorem overall_accuracy_in_quarters products productCosts needing data
    shippingSettings expenses :
  let items :=
    accuracyItems products productCosts needing data shippingSettings
      expenses in
  let completedItems :=
    Z.of_nat (length (filter (λ i, AccuracyItem.complete i = true) items)) in
  overallAccuracy items = JS.ofZ (25 * completedItems)
  ∧ 1 ≤ completedItems ≤ 4.
Proof.
  unfold accuracyItems. cbv zeta.
  generalize (bool_decide
                (productAccuracy products productCosts = JS.dec 100 1)).
  generalize (JS.gt0 (productAccuracy products productCosts)).
  generalize (bool_decide
                (length (ordersMissingShippingCosts needing data) = 0%nat)
              || match ShippingSettings.method shippingSettings with
                 | noMethod => false
                 | _ => true
                 end).
  generalize (bool_decide (0 < length data)%nat
              && bool_decide
                   (0 < length (ordersMissingShippingCosts needing data))%nat).
  generalize (bool_decide (0 < length expenses)%nat).
  intros hasExpenses partialShipping shipping partialProducts productsDone.
  destruct hasExpenses, shipping, productsDone;
    (split; [qc_compute|vm_compute; split; discriminate]).
Qed.

(** ** Top products *)

Lemma statStep_other st li k :
  statKey li ≠ Some k →
  statOrderCount (statStep st li).1 k = statOrderCount st.1 k
  ∧ (k ∈ (statStep st li).2 ↔ k ∈ st.2).
Proof.
  unfold statKey, statStep, statOrderCount.
  destruct (Product.id <$> LineItem.product li) as [p|]; [|done].
  destruct (JS.truthyStr p); [|done]. intros Hne.
  assert (p ≠ k) by congruence. cbn [fst snd].
  rewrite lookup_insert_ne by done. split; [done|].
  case_bool_decide; set_solver.
Qed.

Lemma statStep_hit st li k :
  statKey li = Some k →
  statOrderCount (statStep st li).1 k
  = statOrderCount st.1 k + (if bool_decide (k ∈ st.2) then 0 else 1)
  ∧ k ∈ (statStep st li).2.
Proof.
  unfold statKey, statStep, statOrderCount.
  destruct (Product.id <$> LineItem.product li) as [p|]; [|done].
  destruct (JS.truthyStr p); [|done]. intros [= ->]. cbn [fst snd].
  rewrite lookup_insert_eq. cbn.
  destruct (st.1 !! k); cbn; case_bool_decide; (split; [lia|set_solver]).
Qed.

Lemma statOrder_count productStats order k :
  statOrderCount (statOrder productStats order) k
  = statOrderCount productStats k
    + (if bool_decide (Exists (λ li, statKey li = Some k)
                              (Order.lineItems order))
       then 1 else 0).
Proof.
  unfold statOrder.
  assert (∀ st l,
            statOrderCount (foldl statStep st l).1 k
            = statOrderCount st.1 k
              + (if bool_decide (Exists (λ li, statKey li = Some k) l)
                    && negb (bool_decide (k ∈ st.2))
                 then 1 else 0)
            ∧ (k ∈ (foldl statStep st l).2
               ↔ k ∈ st.2 ∨ Exists (λ li, statKey li = Some k) l)) as Hgen.
  { intros st l. revert st. induction l as [|li l IH]; intros st.
    - cbn [foldl]. rewrite bool_decide_eq_false_2 by (by intros ?%Exists_nil).
      cbn. split; [lia|]. rewrite Exists_nil. tauto.
    - cbn [foldl]. destruct (IH (statStep st li)) as [-> Hin'].
      destruct (decide (statKey li = Some k)) as [Hk|Hk].
      + destruct (statStep_hit st li k Hk) as [-> Hin].
        rewrite (bool_decide_eq_true_2 (k ∈ (statStep st li).2)) by done.
        cbn [negb]. rewrite andb_false_r.
        rewrite (bool_decide_eq_true_2 (Exists _ (li :: l)))
          by (by left).
        split; [destruct (bool_decide (k ∈ st.2)); cbn; lia|].
        rewrite Hin', Exists_cons. tauto.
      + destruct (statStep_other st li k Hk) as [-> Hiff].
        rewrite (bool_decide_ext _ _ Hiff).
        rewrite (bool_decide_ext (Exists _ (li :: l))
                   (Exists (λ li, statKey li = Some k) l))
          by (rewrite Exists_cons; tauto).
        split; [done|]. rewrite Hin', Hiff, Exists_cons. tauto. }
  destruct (Hgen (productStats, ∅) (Order.lineItems order)) as [-> _].
  cbn [fst snd]. rewrite (bool_decide_eq_false_2 (k ∈ ∅)) by set_solver.
  by rewrite andb_true_r.
Qed.

Lemma productStats_count orders k :
  statOrderCount (productStats orders) k
  = Z.of_nat (length (filter (λ o, Exists (λ li, statKey li = Some k)
                                          (Order.lineItems o)) orders)).
Proof.
  unfold productStats.
  assert (∀ m, statOrderCount (foldl statOrder m orders) k
               = statOrderCount m k
                 + Z.of_nat (length (filter
                                       (λ o, Exists (λ li, statKey li = Some k)
                                                    (Order.lineItems o))
                                       orders))) as Hgen.
  { induction orders as [|o l IH]; intros m; cbn [foldl].
    - rewrite filter_nil. cbn. lia.
    - rewrite IH, statOrder_count, filter_cons.
      case_bool_decide.
      + rewrite decide_True by done. cbn [length]. lia.
      + rewrite decide_False by done. lia. }
  rewrite Hgen. unfold statOrderCount. rewrite lookup_empty. cbn. lia.
Qed.

Lemma statKey_productKey li : statKey li = productKey None None li.
Proof. reflexivity. Qed.

(** X21. In the dashboard's top-products table the order count of a
    product is the number of orders of the feed with a line item of that
    product, an order with several such line items counting once.  When the
    order ids of the feed are distinct this is the order count the
    profit-by-product report (run without filters) gives the product. *)
Theorem top_products_order_count orders productId :
  statOrderCount (productStats orders) productId
  = Z.of_nat (length (filter (λ o, Exists (λ li, statKey li = Some productId)
                                          (Order.lineItems o)) orders))
  ∧ (NoDup (Order.id <$> orders) →
     statOrderCount (productStats orders) productId
     = productOrderCount (productData None None orders) productId).
Proof.
  split; [apply productStats_count|]. intros Hnd.
  rewrite productStats_count.
  destruct (productData_distinct None None orders productId) as [_ ->].
  unfold ordersOfProduct. f_equal.
  rewrite size_list_to_set.
  - by rewrite length_fmap.
  - apply (NoDup_fmap_2_strong Order.id).
    + intros a b [_ Ha]%list_elem_of_filter [_ Hb]%list_elem_of_filter Hab.
      apply list_elem_of_lookup in Ha as [i Hi].
      apply list_elem_of_lookup in Hb as [j Hj].
      assert (i = j) as ->; [|congruence].
      apply (NoDup_lookup _ _ _ (Order.id a) Hnd);
        rewrite list_lookup_fmap; [by rewrite Hi|by rewrite Hj, Hab].
    + apply NoDup_filter. by apply NoDup_fmap_1 in Hnd.
Qed.

Lemma top_products_order_count_witness :
  statOrderCount (productStats [tripleOrder; twoItemOrder])
    "gid://shopify/Product/1"
  = productOrderCount (productData None None [tripleOrder; twoItemOrder])
      "gid://shopify/Product/1".
Proof.
  apply (top_products_order_count [tripleOrder; twoItemOrder]
           "gid://shopify/Product/1").
  simpl. apply NoDup_cons_2; [|apply NoDup_singleton].
  intros Hin%list_elem_of_singleton. discriminate Hin.
Defined.

(** X22. The gross profit rate of the top-products table carries no
    information about the product: it is 60 for every product with positive
    net revenue and 0 for every other one. *)
Theorem top_products_gross_profit_rate_is_constant p :
  TopProduct.grossProfitRate (topProductRow p)
  = if JS.gt0 (ProductStat.grossRevenue p - ProductStat.discounts p)%Qc
    then JS.dec 60 1 else 0%Qc.
Proof.
  unfold topProductRow. cbn [TopProduct.grossProfitRate].
  destruct (JS.gt0 _) eqn:Hgt.
  - apply gt0_spec in Hgt.
    set (n := (ProductStat.grossRevenue p - ProductStat.discounts p)%Qc) in *.
    assert (n ≠ 0%Qc) as Hn by (intros Hz; rewrite Hz in Hgt; by vm_compute in Hgt).
    replace ((n - n * JS.dec 4 10) / n * JS.dec 100 1)%Qc with (JS.dec 60 1).
    + qc_compute.
    + assert (JS.dec 60 1 = (1 - JS.dec 4 10) * JS.dec 100 1)%Qc as ->
        by qc_compute.
      field. done.
  - qc_compute.
Qed.

(** ** Customer acquisition *)

Lemma string_compare_refl s : (s ?= s)%string = Eq.
Proof.
  induction s as [|c s IH]; [done|]. cbn [String.compare].
  unfold Ascii.compare. by rewrite N.compare_refl.
Qed.

Lemma string_ltb_trans s1 s2 s3 :
  String.ltb s1 s2 = true → String.ltb s2 s3 = true →
  String.ltb s1 s3 = true.
Proof.
  unfold String.ltb. revert s2 s3.
  induction s1 as [|a s1 IH]; intros [|b s2] [|c s3]; cbn [String.compare];
    try done.
  unfold Ascii.compare.
  destruct (N.compare_spec (N_of_ascii a) (N_of_ascii b)) as [Hab|Hab|Hab];
    destruct (N.compare_spec (N_of_ascii b) (N_of_ascii c)) as [Hbc|Hbc|Hbc];
    try done; intros H12 H23.
  - rewrite Hab, Hbc, N.compare_refl. by apply (IH s2).
  - rewrite Hab. by apply N.compare_lt_iff in Hbc as ->.
  - rewrite <-Hbc. by apply N.compare_lt_iff in Hab as ->.
  - assert (N_of_ascii a < N_of_ascii c)%N as Hac by lia.
    by apply N.compare_lt_iff in Hac as ->.
Qed.

Lemma customerFirstOrder_snoc env orders o :
  customerFirstOrder env (orders ++ [o])
  = let m := customerFirstOrder env orders in
    match m !! firstOrderKey o with
    | Some existing =>
        if String.ltb (toISODate (Order.createdAtTime o))
                      (FirstOrder.date existing)
        then <[firstOrderKey o := firstOrderOf env o]> m
        else m
    | None => <[firstOrderKey o := firstOrderOf env o]> m
    end.
Proof. unfold customerFirstOrder. by rewrite foldl_app. Qed.

Lemma string_ltb_irrefl s : String.ltb s s = false.
Proof. unfold String.ltb. by rewrite string_compare_refl. Qed.

(** What [customerFirstOrder] holds under a key [k]: nothing when no order
    of the feed has that key, else the entry of the order with that key
    that comes first in the feed among those of the least date. *)
Lemma customerFirstOrder_lookup env orders k :
  match customerFirstOrder env orders !! k with
  | None => ∀ o, o ∈ orders → firstOrderKey o ≠ k
  | Some e =>
      ∃ (i : nat) o',
        orders !! i = Some o'
        ∧ firstOrderKey o' = k
        ∧ e = firstOrderOf env o'
        ∧ ∀ (j : nat) o'',
            orders !! j = Some o'' → firstOrderKey o'' = k →
            String.ltb (toISODate (Order.createdAtTime o''))
                       (toISODate (Order.createdAtTime o')) = false
            ∧ (toISODate (Order.createdAtTime o'')
               = toISODate (Order.createdAtTime o') → (i ≤ j)%nat)
  end.
Proof.
  induction orders as [|x l IH] using rev_ind.
  { unfold customerFirstOrder. cbn [foldl]. rewrite lookup_empty.
    intros o Ho. by apply elem_of_nil in Ho. }
  rewrite customerFirstOrder_snoc. cbv zeta.
  set (m := customerFirstOrder env l) in *.
  assert (∀ (j : nat) o'', (l ++ [x]) !! j = Some o'' →
            (l !! j = Some o'' ∧ (j < length l)%nat)
            ∨ (j = length l ∧ o'' = x)) as Hsplit.
  { intros j o'' Hj. apply lookup_app_Some in Hj as [Hj|[Hge Hj]].
    - left. split; [done|]. by apply lookup_lt_Some in Hj.
    - right. apply list_lookup_singleton_Some in Hj as [Hj ->].
      split; [lia|done]. }
  destruct (decide (firstOrderKey x = k)) as [Hx|Hx].
  - rewrite Hx. destruct (m !! k) as [e|] eqn:Hm.
    + destruct IH as (i & o' & Hi & Hkey & -> & Hmin).
      cbn [FirstOrder.date firstOrderOf].
      destruct (String.ltb (toISODate (Order.createdAtTime x))
                  (toISODate (Order.createdAtTime o'))) eqn:Hlt.
      * rewrite lookup_insert_eq.
        exists (length l), x. split; [by rewrite list_lookup_middle|].
        split; [done|]. split; [done|].
        intros j o'' [[Hj Hlen]| [-> ->]]%Hsplit Hk.
        -- destruct (Hmin j o'' Hj Hk) as [Hnlt _]. split.
           ++ destruct (String.ltb (toISODate (Order.createdAtTime o''))
                          (toISODate (Order.createdAtTime x))) eqn:Hox;
                [|done].
              by rewrite (string_ltb_trans _ _ _ Hox Hlt) in Hnlt.
           ++ intros Heq. rewrite Heq, Hlt in Hnlt. done.
        -- split; [apply string_ltb_irrefl|done].
      * rewrite Hm.
        exists i, o'. split; [by apply lookup_app_l_Some|].
        split; [done|]. split; [done|].
        intros j o'' [[Hj Hlen]| [-> ->]]%Hsplit Hk.
        -- by apply Hmin.
        -- split; [done|]. intros _. apply lookup_lt_Some in Hi. lia.
    + rewrite lookup_insert_eq.
      exists (length l), x. split; [by rewrite list_lookup_middle|].
      split; [done|]. split; [done|].
      intros j o'' [[Hj Hlen]| [-> ->]]%Hsplit Hk.
      * exfalso. apply (IH o''); [|done]. by eapply list_elem_of_lookup_2.
      * split; [apply string_ltb_irrefl|done].
  - assert (match m !! firstOrderKey x with
            | Some existing =>
                if String.ltb (toISODate (Order.createdAtTime x))
                     (FirstOrder.date existing)
                then <[firstOrderKey x := firstOrderOf env x]> m
                else m
            | None => <[firstOrderKey x := firstOrderOf env x]> m
            end !! k = m !! k) as ->.
    { destruct (m !! firstOrderKey x) as [existing|];
        [destruct (String.ltb (toISODate (Order.createdAtTime x))
                     (FirstOrder.date existing))|];
        rewrite ?lookup_insert_ne by done; done. }
    destruct (m !! k) as [e|].
    + destruct IH as (i & o' & Hi & Hkey & -> & Hmin).
      exists i, o'. split; [by apply lookup_app_l_Some|].
      split; [done|]. split; [done|].
      intros j o'' [[Hj Hlen]| [-> ->]]%Hsplit Hk; [by apply Hmin|done].
    + intros o [Ho| ->%list_elem_of_singleton]%elem_of_app; [by apply IH|done].
Qed.

(** X23. [customerFirstOrder] holds, for every customer of the feed (a
    guest order being a customer of its own), the entry of one of that
    customer's orders: none of the customer's orders has an earlier date
    string, and among the customer's orders of that date it is the one that
    comes first in the feed. *)
Theorem first_order_is_earliest env orders o :
  o ∈ orders →
  ∃ (i : nat) o',
    orders !! i = Some o'
    ∧ firstOrderKey o' = firstOrderKey o
    ∧ customerFirstOrder env orders !! firstOrderKey o
      = Some (firstOrderOf env o')
    ∧ ∀ (j : nat) o'',
        orders !! j = Some o'' → firstOrderKey o'' = firstOrderKey o →
        String.ltb (toISODate (Order.createdAtTime o''))
                   (toISODate (Order.createdAtTime o')) = false
        ∧ (toISODate (Order.createdAtTime o'')
           = toISODate (Order.createdAtTime o') → (i ≤ j)%nat).
Proof.
  intros Ho.
  pose proof (customerFirstOrder_lookup env orders (firstOrderKey o)) as H.
  destruct (customerFirstOrder env orders !! firstOrderKey o) as [e|].
  - destruct H as (i & o' & Hi & Hkey & -> & Hmin). by exists i, o'.
  - by destruct (H o Ho).
Qed.

Lemma first_order_is_earliest_witness :
  ∃ (i : nat) o',
    [scenarioOrder; sameDayOrder] !! i = Some o'
    ∧ firstOrderKey o' = "gid://shopify/Customer/7"
    ∧ customerFirstOrder utcJune2025 [scenarioOrder; sameDayOrder]
        !! "gid://shopify/Customer/7"
      = Some (firstOrderOf utcJune2025 o')
    ∧ ∀ (j : nat) o'',
        [scenarioOrder; sameDayOrder] !! j = Some o'' →
        firstOrderKey o'' = "gid://shopify/Customer/7" →
        String.ltb (toISODate (Order.createdAtTime o''))
                   (toISODate (Order.createdAtTime o')) = false
        ∧ (toISODate (Order.createdAtTime o'')
           = toISODate (Order.createdAtTime o') → (i ≤ j)%nat).
Proof.
  apply (first_order_is_earliest utcJune2025 [scenarioOrder; sameDayOrder]
           sameDayOrder).
  apply list_elem_of_In. simpl. auto.
Defined.

(** Two orders of one customer on the same day: the entry kept is that of
    the first of the feed, with its $10 discount. *)
Example first_order_same_day :
  toISODate (Order.createdAtTime scenarioOrder)
  = toISODate (Order.createdAtTime sameDayOrder)
  ∧ customerFirstOrder utcJune2025 [scenarioOrder; sameDayOrder]
      !! "gid://shopify/Customer/7"
    = Some (FirstOrder.mk 11 "2025-03-14" (JS.dec 10 1))
  ∧ customerFirstOrder utcJune2025 [sameDayOrder; scenarioOrder]
      !! "gid://shopify/Customer/7"
    = Some (FirstOrder.mk 11 "2025-03-14" 0%Qc).
Proof.
  split; [vm_compute; reflexivity|].
  split; vm_compute; f_equal; f_equal; apply Qc_is_canon; reflexivity.
Qed.

Lemma seedAcquisition_lookup n w :
  seedAcquisition n !! w
  = if decide (1 ≤ w ≤ n) then Some Acq.zero else None.
Proof.
  unfold seedAcquisition.
  assert (∀ (l : list Z) (m : gmap Z Acq.t),
            foldl (λ m i, <[i := Acq.zero]> m) m l !! w
            = if decide (w ∈ l) then Some Acq.zero else m !! w) as Hfold.
  { induction l as [|i l IH]; intros m; cbn [foldl].
    - destruct (decide (w ∈ [])); [set_solver|done].
    - rewrite IH.
      destruct (decide (w ∈ l)), (decide (w ∈ i :: l)); try done.
      + set_solver.
      + assert (w = i) as -> by set_solver. by rewrite lookup_insert_eq.
      + rewrite lookup_insert_ne; [done|set_solver]. }
  rewrite Hfold, lookup_empty.
  destruct (decide (w ∈ seqZ 1 n)) as [Hin|Hin];
    rewrite elem_of_seqZ in Hin; case_decide; done || lia.
Qed.

Lemma acquisitionStep_sums st data :
  let st' := acquisitionStep st data in
  mapSumZ Acq.newBuyers (AcqMaps.dailyAcquisitionMap st')
  = mapSumZ Acq.newBuyers (AcqMaps.dailyAcquisitionMap st) + 1
  ∧ mapSumZ Acq.newBuyers (AcqMaps.weeklyAcquisitionMap st')
    = mapSumZ Acq.newBuyers (AcqMaps.weeklyAcquisitionMap st)
      + (if decide (is_Some (AcqMaps.weeklyAcquisitionMap st
                             !! FirstOrder.week data))
         then 1 else 0)
  ∧ ∀ w, is_Some (AcqMaps.weeklyAcquisitionMap st' !! w)
         ↔ is_Some (AcqMaps.weeklyAcquisitionMap st !! w).
Proof.
  unfold acquisitionStep.
  cbn [AcqMaps.dailyAcquisitionMap AcqMaps.weeklyAcquisitionMap].
  split; [|split].
  - rewrite mapSumZ_insert.
    destruct (AcqMaps.dailyAcquisitionMap st !! FirstOrder.date data);
      cbn; lia.
  - destruct (AcqMaps.weeklyAcquisitionMap st !! FirstOrder.week data)
      as [existingWeek|] eqn:Hw.
    + rewrite mapSumZ_insert, Hw, decide_True by (by eexists). cbn. lia.
    + rewrite decide_False by (by intros [? ?]). lia.
  - intros w.
    destruct (AcqMaps.weeklyAcquisitionMap st !! FirstOrder.week data)
      as [existingWeek|] eqn:Hw; [|done].
    rewrite lookup_insert_is_Some'. split; [|by right].
    intros [<-|?]; [by eexists|done].
Qed.

Lemma customerFirstOrder_dom env orders :
  dom (customerFirstOrder env orders)
  = (list_to_set (firstOrderKey <$> orders) : gset string).
Proof.
  induction orders as [|x l IH] using rev_ind;
    [unfold customerFirstOrder; cbn; by rewrite dom_empty_L|].
  rewrite customerFirstOrder_snoc, fmap_app, list_to_set_app_L. cbv zeta.
  cbn [fmap list_fmap list_to_set].
  destruct (customerFirstOrder env l !! firstOrderKey x) as [existing|] eqn:Hx.
  - assert (firstOrderKey x ∈ dom (customerFirstOrder env l)) as Hin
      by (apply elem_of_dom; by eexists).
    destruct (String.ltb _ _); rewrite ?dom_insert_L; set_solver.
  - rewrite dom_insert_L. set_solver.
Qed.

(** X24. Every customer of the feed, a guest order being a customer of its
    own, is a new buyer of exactly one day: the daily new-buyer counts add
    up to the number of distinct customer keys.  The weekly chart only
    counts the customers whose first order falls in a seeded week, 1 to
    [maxWeek]; the others are in the daily chart alone. *)
Theorem new_buyers_are_counted_once env orders :
  let acq := acquisitionMaps env orders in
  mapSumZ Acq.newBuyers (AcqMaps.dailyAcquisitionMap acq)
  = Z.of_nat (size (list_to_set (firstOrderKey <$> orders) : gset string))
  ∧ mapSumZ Acq.newBuyers (AcqMaps.weeklyAcquisitionMap acq)
    = Z.of_nat
        (length (filter (λ kv, 1 ≤ FirstOrder.week kv.2 ≤ maxWeek env)
                        (map_to_list (customerFirstOrder env orders)))).
Proof.
  intros acq. unfold acq, acquisitionMaps. clear acq.
  rewrite <-(customerFirstOrder_dom env), size_dom, <-length_map_to_list.
  generalize (map_to_list (customerFirstOrder env orders)). intros l.
  assert (∀ st,
            (∀ w, is_Some (AcqMaps.weeklyAcquisitionMap st !! w)
                  ↔ 1 ≤ w ≤ maxWeek env) →
            let st' := foldl acquisitionStep st l.*2 in
            mapSumZ Acq.newBuyers (AcqMaps.dailyAcquisitionMap st')
            = mapSumZ Acq.newBuyers (AcqMaps.dailyAcquisitionMap st)
              + Z.of_nat (length l)
            ∧ mapSumZ Acq.newBuyers (AcqMaps.weeklyAcquisitionMap st')
              = mapSumZ Acq.newBuyers (AcqMaps.weeklyAcquisitionMap st)
                + Z.of_nat
                    (length (filter (λ kv : string * FirstOrder.t,
                                       1 ≤ FirstOrder.week kv.2
                                       ≤ maxWeek env) l))) as Hgen.
  { induction l as [|[k data] l IH]; intros st Hdom.
    - cbn [fmap list_fmap foldl]. rewrite filter_nil. cbn. lia.
    - rewrite fmap_cons. cbn [foldl snd].
      destruct (acquisitionStep_sums st data) as (Hd & Hw & Hdom').
      cbv zeta in Hd, Hw, Hdom'.
      destruct (IH (acquisitionStep st data)) as [-> ->].
      { intros w. by rewrite Hdom', Hdom. }
      rewrite Hd, Hw, filter_cons. cbn [snd length].
      destruct (decide (is_Some _)) as [Hs|Hs]; rewrite Hdom in Hs.
      + rewrite decide_True by done. cbn [length]. lia.
      + rewrite decide_False by done. lia. }
  destruct (Hgen (AcqMaps.mk (seedAcquisition (maxWeek env)) ∅)) as [-> ->].
  - intros w. cbn [AcqMaps.weeklyAcquisitionMap].
    rewrite seedAcquisition_lookup. case_decide; [|by split; [intros [? ?]|]].
    split; [done|by eexists].
  - cbn [AcqMaps.weeklyAcquisitionMap AcqMaps.dailyAcquisitionMap].
    rewrite mapSumZ_empty.
    assert (mapSumZ Acq.newBuyers (seedAcquisition (maxWeek env)) = 0) as ->.
    { unfold mapSumZ. apply sumZ_zero.
      intros [w b] Hin%elem_of_map_to_list.
      rewrite seedAcquisition_lookup in Hin.
      case_decide; [|done]. by injection Hin as <-. }
    split; lia.
Qed.

(** ** Profit by vendor *)

Lemma vendorStep_miss oid st li k :
  vendorKey li ≠ k →
  vendorOrderCount (vendorStep oid st li) k = vendorOrderCount st k
  ∧ vendorIds (vendorStep oid st li) k = vendorIds st k
  ∧ vendorProducts (vendorStep oid st li) k = vendorProducts st k.
Proof.
  intros Hne.
  unfold vendorStep, vendorOrderCount, vendorIds, vendorProducts.
  fold (vendorKey li). simpl. by rewrite !lookup_insert_ne.
Qed.

Lemma vendorStep_hit oid st li k :
  vendorKey li = k →
  vendorIds (vendorStep oid st li) k = {[oid]} ∪ vendorIds st k
  ∧ vendorOrderCount (vendorStep oid st li) k
    = vendorOrderCount st k
      + (if bool_decide (oid ∈ vendorIds st k) then 0 else 1)
  ∧ vendorProducts (vendorStep oid st li) k
    = list_to_set (omap statKey [li]) ∪ vendorProducts st k.
Proof.
  intros <-.
  unfold vendorStep, vendorOrderCount, vendorIds, vendorProducts, statKey.
  fold (vendorKey li). simpl. rewrite !lookup_insert_eq. simpl.
  destruct (ByVendor.vendorData st !! vendorKey li) as [existing|];
    destruct (ByVendor.orderVendorIds st !! vendorKey li) as [ids|]; simpl;
    (split; [case_bool_decide; set_solver|]);
    (split; [case_bool_decide; simpl; lia|]);
    destruct (Product.id <$> LineItem.product li) as [p|]; simpl;
    try destruct (JS.truthyStr p); simpl; set_solver.
Qed.

Lemma vendorOrder_count st order k :
  let booked :=
    bool_decide (Exists (λ li, vendorKey li = k) (Order.lineItems order)) in
  let st' := vendorOrder st order in
  vendorIds st' k
  = (if booked then {[Order.id order]} ∪ vendorIds st k else vendorIds st k)
  ∧ (vendorOrderCount st k = Z.of_nat (size (vendorIds st k)) →
     vendorOrderCount st' k = Z.of_nat (size (vendorIds st' k)))
  ∧ vendorProducts st' k
    = list_to_set
        (omap statKey
           (filter (λ li, vendorKey li = k) (Order.lineItems order)))
      ∪ vendorProducts st k.
Proof.
  intros booked st'. unfold booked, st', vendorOrder.
  rewrite <-existsb_Exists.
  set (hit := λ li, bool_decide (vendorKey li = k)).
  set (step := vendorStep (Order.id order)).
  assert (∀ s li, hit li = false →
            vendorOrderCount (step s li) k = vendorOrderCount s k
            ∧ vendorIds (step s li) k = vendorIds s k) as Hmiss.
  { intros s li Hh%bool_decide_eq_false.
    by destruct (vendorStep_miss (Order.id order) s li k Hh) as (? & ? & _). }
  assert (∀ s li, hit li = true →
            vendorIds (step s li) k = {[Order.id order]} ∪ vendorIds s k
            ∧ vendorOrderCount (step s li) k
              = vendorOrderCount s k
                + (if bool_decide (Order.id order ∈ vendorIds s k)
                   then 0 else 1)) as Hhit.
  { intros s li Hh%bool_decide_eq_true.
    by destruct (vendorStep_hit (Order.id order) s li k Hh) as (? & ? & _). }
  destruct (count_once_fold step (λ s, vendorOrderCount s k)
              (λ s, vendorIds s k) (Order.id order) hit Hmiss Hhit
              st (Order.lineItems order)) as [Hids _].
  split; [exact Hids|]. split.
  - apply (count_once_size step (λ s, vendorOrderCount s k)
             (λ s, vendorIds s k) (Order.id order) hit Hmiss Hhit).
  - clear. unfold step. generalize (Order.lineItems order). intros l.
    revert st. induction l as [|li l IH]; intros st.
    + cbn [foldl]. rewrite filter_nil. set_solver.
    + cbn [foldl]. rewrite IH, filter_cons.
      destruct (decide (vendorKey li = k)) as [Hk|Hk].
      * destruct (vendorStep_hit (Order.id order) st li k Hk)
          as (_ & _ & ->).
        change (li :: filter (λ li, vendorKey li = k) l)
          with ([li] ++ filter (λ li, vendorKey li = k) l).
        rewrite omap_app, list_to_set_app_L. set_solver.
      * destruct (vendorStep_miss (Order.id order) st li k Hk)
          as (_ & _ & ->). done.
Qed.

(** X25. In the profit-by-vendor report a vendor's order count is the
    number of distinct order ids with a line item of that vendor, and its
    product count the number of distinct product ids among those line
    items; line items of deleted products count for the vendor with the
    empty name. *)
Theorem vendor_counts_distinct_orders_and_products orders vendor :
  vendorOrderCount (vendorData orders) vendor
  = Z.of_nat (size (ordersOfVendor vendor orders))
  ∧ vendorProductCount (vendorData orders) vendor
    = size (productsOfVendor vendor orders).
Proof.
  assert (∀ st,
            vendorOrderCount st vendor
            = Z.of_nat (size (vendorIds st vendor)) →
            vendorIds (foldl vendorOrder st orders) vendor
            = vendorIds st vendor ∪ ordersOfVendor vendor orders
            ∧ vendorOrderCount (foldl vendorOrder st orders) vendor
              = Z.of_nat
                  (size (vendorIds (foldl vendorOrder st orders) vendor))
            ∧ vendorProducts (foldl vendorOrder st orders) vendor
              = vendorProducts st vendor ∪ productsOfVendor vendor orders)
    as Hgen.
  { unfold ordersOfVendor, productsOfVendor.
    induction orders as [|o orders IH]; intros st Hinv; cbn [foldl].
    - rewrite filter_nil. cbn. split; [set_solver|]. split; [done|].
      set_solver.
    - destruct (vendorOrder_count st o vendor) as (Hids & Hsize & Hprod).
      destruct (IH (vendorOrder st o) (Hsize Hinv)) as (-> & -> & ->).
      split; [|split; [done|]].
      + rewrite Hids, filter_cons. case_bool_decide as Hb.
        * rewrite decide_True by done. set_solver.
        * rewrite decide_False by done. set_solver.
      + rewrite Hprod, fmap_cons. cbn [concat].
        rewrite filter_app, omap_app, list_to_set_app_L. set_solver. }
  assert (vendorIds ByVendor.empty vendor = ∅) as Hempty.
  { unfold vendorIds. simpl. by rewrite lookup_empty. }
  assert (vendorProducts ByVendor.empty vendor = ∅) as Hempty'.
  { unfold vendorProducts. simpl. by rewrite lookup_empty. }
  destruct (Hgen ByVendor.empty) as (Hids & Hcnt & Hprod).
  { unfold vendorOrderCount. rewrite Hempty. simpl. by rewrite lookup_empty. }
  unfold vendorData, vendorProductCount.
  rewrite Hcnt, Hids, Hprod, Hempty, Hempty'.
  by rewrite !(left_id_L ∅ (∪)).
Qed.

(** ** Profit and loss, profit by channel *)

(** What one key's bucket holds after the loop: the figures of the orders
    with that key, in feed order. *)
Lemma periodStep_fold key k orders :
  ∀ m,
    let mine := filter (λ o, key o = k) orders in
    let b0 := default PeriodAgg.zero (m !! k) in
    let b := default PeriodAgg.zero (foldl (periodStep key) m orders !! k) in
    PeriodAgg.orderCount b
    = PeriodAgg.orderCount b0 + Z.of_nat (length mine)
    ∧ PeriodAgg.grossSales b
      = (PeriodAgg.grossSales b0
         + sumQc (λ o, amount (Order.subtotalPriceSet o)
                       + amount (Order.totalDiscountsSet o)) mine)%Qc
    ∧ PeriodAgg.discounts b
      = (PeriodAgg.discounts b0
         + sumQc (λ o, amount (Order.totalDiscountsSet o)) mine)%Qc
    ∧ PeriodAgg.shippingRevenue b
      = (PeriodAgg.shippingRevenue b0
         + sumQc (λ o, amount (Order.totalShippingPriceSet o)) mine)%Qc
    ∧ PeriodAgg.itemCount b
      = PeriodAgg.itemCount b0
        + sumZ (λ o, sumQuantity (Order.lineItems o)) mine
    ∧ (is_Some (foldl (periodStep key) m orders !! k)
       ↔ is_Some (m !! k) ∨ mine ≠ []).
Proof.
  induction orders as [|o l IH]; intros m; cbv zeta.
  - cbn [foldl]. rewrite filter_nil, !sumQc_nil. cbn.
    repeat split; try lia; try ring; tauto.
  - cbn [foldl]. specialize (IH (periodStep key m o)). cbv zeta in IH.
    destruct IH as (-> & -> & -> & -> & -> & ->).
    rewrite filter_cons. unfold periodStep.
    destruct (decide (key o = k)) as [<-|Hne].
    + rewrite lookup_insert_eq. cbn [default from_option id
        PeriodAgg.orderCount PeriodAgg.grossSales PeriodAgg.discounts
        PeriodAgg.shippingRevenue PeriodAgg.itemCount length].
      rewrite !sumQc_cons, sumZ_cons.
      repeat split; try lia; try ring; try (intros _; by right).
      intros _. left. by eexists.
    + rewrite lookup_insert_ne by done. repeat split; try done.
Qed.

(** X26. In the profit-by-channel action every order of the feed is booked
    under its channel name ("Online Store" when it has none), zero-value
    orders included: a channel has a row exactly when the feed has an order
    of that channel, and the row carries the number of those orders and the
    sums of their gross sales, discounts, shipping revenue and item
    counts. *)
Theorem channel_rows_aggregate_their_orders orders channel :
  let mine := filter (λ o, orderChannel o = channel) orders in
  let b := default PeriodAgg.zero (channelData orders !! channel) in
  (is_Some (channelData orders !! channel) ↔ mine ≠ [])
  ∧ PeriodAgg.orderCount b = Z.of_nat (length mine)
  ∧ PeriodAgg.grossSales b
    = sumQc (λ o, amount (Order.subtotalPriceSet o)
                  + amount (Order.totalDiscountsSet o))%Qc mine
  ∧ PeriodAgg.discounts b
    = sumQc (λ o, amount (Order.totalDiscountsSet o)) mine
  ∧ PeriodAgg.shippingRevenue b
    = sumQc (λ o, amount (Order.totalShippingPriceSet o)) mine
  ∧ PeriodAgg.itemCount b
    = sumZ (λ o, sumQuantity (Order.lineItems o)) mine.
Proof.
  cbv zeta. unfold channelData.
  pose proof (periodStep_fold orderChannel channel orders ∅) as H.
  cbv zeta in H. rewrite lookup_empty in H. cbn [default from_option] in H.
  destruct H as (-> & -> & -> & -> & -> & ->). cbn.
  repeat split; try lia; try ring; try tauto.
  - intros [[? ?]|?]; done.
Qed.

Lemma periodStep_sums key m o :
  mapSumZ PeriodAgg.orderCount (periodStep key m o)
  = mapSumZ PeriodAgg.orderCount m + 1
  ∧ mapSumQc PeriodAgg.shippingRevenue (periodStep key m o)
    = (mapSumQc PeriodAgg.shippingRevenue m
       + amount (Order.totalShippingPriceSet o))%Qc
  ∧ mapSumQc PeriodAgg.grossSales (periodStep key m o)
    = (mapSumQc PeriodAgg.grossSales m
       + (amount (Order.subtotalPriceSet o)
          + amount (Order.totalDiscountsSet o)))%Qc.
Proof.
  unfold periodStep. rewrite mapSumZ_insert, !mapSumQc_insert.
  destruct (m !! key o); cbn; (split; [lia|split; ring]).
Qed.

(** X27. The profit-and-loss action books every order of the feed in
    exactly one period, whatever the grouping and the time zone, and without
    the guard of the dashboard: over all periods the order counts add up to
    the length of the feed, and gross sales and shipping revenue to the
    feed's totals.  An order with shipping revenue only is thus part of the
    P&L although the dashboard leaves it out. *)
Theorem pl_periods_partition_the_feed zone groupBy orders :
  mapSumZ PeriodAgg.orderCount (periodData zone groupBy orders)
  = Z.of_nat (length orders)
  ∧ mapSumQc PeriodAgg.shippingRevenue (periodData zone groupBy orders)
    = sumQc (λ o, amount (Order.totalShippingPriceSet o)) orders
  ∧ mapSumQc PeriodAgg.grossSales (periodData zone groupBy orders)
    = sumQc (λ o, amount (Order.subtotalPriceSet o)
                  + amount (Order.totalDiscountsSet o))%Qc orders.
Proof.
  unfold periodData.
  set (key := λ order : Order.t,
                getPeriodKey zone groupBy (Order.createdAtTime order)).
  assert (∀ m,
            mapSumZ PeriodAgg.orderCount (foldl (periodStep key) m orders)
            = mapSumZ PeriodAgg.orderCount m + Z.of_nat (length orders)
            ∧ mapSumQc PeriodAgg.shippingRevenue
                (foldl (periodStep key) m orders)
              = (mapSumQc PeriodAgg.shippingRevenue m
                 + sumQc (λ o, amount (Order.totalShippingPriceSet o))
                     orders)%Qc
            ∧ mapSumQc PeriodAgg.grossSales (foldl (periodStep key) m orders)
              = (mapSumQc PeriodAgg.grossSales m
                 + sumQc (λ o, amount (Order.subtotalPriceSet o)
                               + amount (Order.totalDiscountsSet o))
                     orders)%Qc) as Hgen.
  { induction orders as [|o l IH]; intros m; cbn [foldl length].
    - rewrite !sumQc_nil. split; [lia|split; ring].
    - destruct (IH (periodStep key m o)) as (-> & -> & ->).
      destruct (periodStep_sums key m o) as (-> & -> & ->).
      rewrite !sumQc_cons. split; [lia|split; ring]. }
  destruct (Hgen ∅) as (-> & -> & ->).
  rewrite mapSumZ_empty, !mapSumQc_empty. split; [lia|split; ring].
Qed.

Example shipping_only_order_is_in_the_pl :
  accumulated noFilter shippingOnlyOrder = false
  ∧ mapSumZ PeriodAgg.orderCount
      (periodData (Zone.mk (λ _, 2025) (λ _, 1) (λ _, 1735689600000))
         "month" [shippingOnlyOrder]) = 1.
Proof. split; vm_compute; reflexivity. Qed.

(** ** The profit-and-loss page *)






(** Refunds of $10 over three periods show as 3 x $3.33. *)
Example pl_returns_lose_a_cent :
  let row := PLPeriod.mk "2025-01" 0%Qc 0%Qc 0%Qc 0%Qc 0%Qc 0 0 in
  let s := PLSettings.mk (JS.dec 40 1) true (JS.dec 5 1) (JS.dec 2 1)
             (JS.dec 29 10) (JS.dec 30 100) 0%Qc 0%Qc in
  plTotalReturns (plEnrichedData s (JS.dec 10 1) [row; row; row])
  = JS.dec 999 100.
Proof. intros row s. qc_compute. Qed.

(** ** The dashboard under a product filter *)

Lemma orderFigures_filtered form order :
  hasProductFilter form || hasProductTypeFilter form = true →
  let matching :=
    filter (λ li, matchesProduct form li && matchesType form li = true)
           (Order.lineItems order) in
  Figures.shippingRevenue (orderFigures form order) = 0%Qc
  ∧ Figures.grossRevenue (orderFigures form order)
    = sumQc originalTotal matching
  ∧ Figures.itemCount (orderFigures form order)
    = sumZ LineItem.quantity matching.
Proof.
  intros Hf. cbv zeta. unfold orderFigures. rewrite Hf.
  assert (∀ l acc,
            let matching :=
              filter (λ li, matchesProduct form li
                            && matchesType form li = true) l in
            Figures.shippingRevenue (foldl (lineItemStep form order) acc l)
            = Figures.shippingRevenue acc
            ∧ Figures.grossRevenue (foldl (lineItemStep form order) acc l)
              = (Figures.grossRevenue acc + sumQc originalTotal matching)%Qc
            ∧ Figures.itemCount (foldl (lineItemStep form order) acc l)
              = Figures.itemCount acc + sumZ LineItem.quantity matching)
    as Hgen.
  { induction l as [|li l IH]; intros acc; cbv zeta; cbn [foldl].
    - rewrite filter_nil, sumQc_nil. cbn. split; [done|]. split; [ring|lia].
    - specialize (IH (lineItemStep form order acc li)). cbv zeta in IH.
      destruct IH as (-> & -> & ->). unfold lineItemStep.
      rewrite filter_cons.
      destruct (matchesProduct form li && matchesType form li) eqn:Hm.
      + rewrite decide_True by done. rewrite sumQc_cons, sumZ_cons.
        cbn [Figures.shippingRevenue Figures.grossRevenue Figures.itemCount].
        unfold originalTotal. split; [done|]. split; [ring|lia].
      + rewrite decide_False by done. done. }
  specialize (Hgen (Order.lineItems order) Figures.zero). cbv zeta in Hgen.
  destruct Hgen as (-> & -> & ->). cbn. split; [done|]. split; [ring|lia].
Qed.

Lemma fold_accumulate_shipping env form st l :
  (∀ o, Figures.shippingRevenue (orderFigures form o) = 0%Qc) →
  Dash.totalShippingRevenue (foldl (accumulate env form) st l)
  = Dash.totalShippingRevenue st.
Proof.
  intros Hzero. revert st. induction l as [|o l IH]; intros st; [done|].
  cbn [foldl]. rewrite IH. unfold accumulate.
  destruct (JS.gt0 _ || JS.gt0 _); [|done].
  cbn [Dash.totalShippingRevenue]. rewrite Hzero. ring.
Qed.

(** X29. Under a product or product-type filter the dashboard books, for
    each order, the original totals and quantities of the matching line
    items only, and no shipping revenue at all: the shipping revenue of the
    result is 0, so net revenue is gross revenue less discounts. *)
Theorem product_filter_drops_shipping_revenue env form orders :
  hasProductFilter form || hasProductTypeFilter form = true →
  DashboardData.totalShippingRevenue (dashboard env form orders) = 0%Qc
  ∧ Metrics.netRevenue (metrics (dashboard env form orders))
    = (DashboardData.totalRevenue (dashboard env form orders)
       - DashboardData.totalDiscounts (dashboard env form orders))%Qc
  ∧ ∀ order,
      let matching :=
        filter (λ li, matchesProduct form li && matchesType form li = true)
               (Order.lineItems order) in
      Figures.shippingRevenue (orderFigures form order) = 0%Qc
      ∧ Figures.grossRevenue (orderFigures form order)
        = sumQc originalTotal matching
      ∧ Figures.itemCount (orderFigures form order)
        = sumZ LineItem.quantity matching.
Proof.
  intros Hf.
  assert (DashboardData.totalShippingRevenue (dashboard env form orders)
          = 0%Qc) as Hship.
  { unfold dashboard. cbn [DashboardData.totalShippingRevenue].
    rewrite fold_accumulate_shipping.
    - unfold initial. cbn [Dash.totalShippingRevenue]. apply round2_zero.
    - intros o. by destruct (orderFigures_filtered form o Hf) as [? _]. }
  split; [exact Hship|]. split.
  - unfold metrics. cbn [Metrics.netRevenue]. rewrite Hship. ring.
  - intros order. by apply orderFigures_filtered.
Qed.

Lemma product_filter_drops_shipping_revenue_witness :
  DashboardData.totalShippingRevenue
    (dashboard utcJune2025 gadgetsFilter [scenarioOrder; twoItemOrder])
  = 0%Qc.
Proof.
  apply (product_filter_drops_shipping_revenue utcJune2025 gadgetsFilter
           [scenarioOrder; twoItemOrder]).
  reflexivity.
Defined.
